(** * Grocery analytics: the synthetic data generator and the metric layer

    A shallow embedding of [grocery_data_generator.py] and of the metric
    functions of [grocery_analysis_app.py].

    Python [float] is IEEE binary64 and is embedded as Rocq's primitive
    [float]; Python [int] is [Z].  The random module is embedded as a state
    monad over a tape of raw draws; exceptions are the error branch of the
    monad. *)

From Stdlib Require Import ZArith List Bool Lia String Ascii.
From Stdlib Require Import Floats Uint63 DecimalString.
From Stdlib Require DecimalPos DecimalN.
From Stdlib Require Import Permutation.
Import ListNotations.

Set Warnings "-inexact-float".

Open Scope Z_scope.

(** ** Python numbers *)

Module PyNum.

(** [float(z)] for a Python int with [|z| < 2^63]: round to nearest even,
    which is what [of_uint63] does on the magnitude. *)
Definition float_of_int (z : Z) : float :=
  if z <? 0 then PrimFloat.opp (PrimFloat.of_uint63 (Uint63.of_Z (- z)))
  else PrimFloat.of_uint63 (Uint63.of_Z z).

(** [float(z)] for any Python int: the float nearest to [z], ties to even,
    which is how the specification of binary64 normalises an integer.  An
    int that rounds to [2^1024] or beyond is too large for a float and Python
    raises [OverflowError]: [None]. *)
Definition float_of_long (z : Z) : option float :=
  match binary_normalize prec emax z 0 false with
  | S754_infinity _ => None
  | x => Some (SF2Prim x)
  end.

(** [int(x)]: truncation toward zero.  Python raises [OverflowError] on an
    infinity and [ValueError] on a NaN; both are [None] here. *)
Definition int_of_float (x : float) : option Z :=
  match Prim2SF x with
  | S754_zero _ => Some 0
  | S754_finite s m e =>
      let mag := if 0 <=? e then Z.pos m * 2 ^ e else Z.pos m / 2 ^ (- e) in
      Some (if s then - mag else mag)
  | S754_infinity _ => None
  | S754_nan => None
  end.

(** The integer nearest to [num / den] ([den > 0]), ties to the even one. *)
Definition round_half_even (num den : Z) : Z :=
  let q := num / den in
  let r := num mod den in
  match 2 * r ?= den with
  | Lt => q
  | Gt => q + 1
  | Eq => if Z.even q then q else q + 1
  end.

(** [round(x, 2)] on a float.  CPython prints the exact binary value of [x]
    with two decimals (round half even on the exact value) and reads the
    decimal back; for [|x| < 2^53 / 100] the integer number of hundredths is
    exact as a float and the correctly rounded division by [100.0] is the
    float nearest to the decimal.  Zeros, infinities and NaN are returned
    unchanged. *)
Definition py_round2 (x : float) : float :=
  match Prim2SF x with
  | S754_finite s m e =>
      let hundredths :=
        if 0 <=? e then Z.pos m * 2 ^ e * 100
        else round_half_even (Z.pos m * 100) (2 ^ (- e)) in
      let mag := (float_of_int hundredths / 100)%float in
      if s then PrimFloat.opp mag else mag
  | _ => x
  end.

(** A value that is an [int] on one path and a [float] on another, as the
    transaction discount is ([0] or an element of [DISCOUNT_RATES]). *)
Inductive pynum : Type :=
  | PyInt (z : Z)
  | PyFloat (f : float).

Definition to_float (v : pynum) : float :=
  match v with
  | PyInt z => float_of_int z
  | PyFloat f => f
  end.

(** [1 - v] *)
Definition one_minus (v : pynum) : pynum :=
  match v with
  | PyInt z => PyInt (1 - z)
  | PyFloat f => PyFloat (1 - f)%float
  end.

(** [x * v] with [x] a float: an int operand is converted first. *)
Definition fmul_num (x : float) (v : pynum) : float := (x * to_float v)%float.

(** [v > 0] *)
Definition num_positive (v : pynum) : bool :=
  match v with
  | PyInt z => 0 <? z
  | PyFloat f => PrimFloat.ltb 0 f
  end.

End PyNum.
Import PyNum.

(** ** Strings: [str(n)], [zfill] *)

Definition str_of_int (n : Z) : string :=
  if n <? 0 then String "-" (NilZero.string_of_uint (N.to_uint (Z.to_N (- n))))
  else NilZero.string_of_uint (N.to_uint (Z.to_N n)).

Fixpoint zeros (n : nat) : string :=
  match n with
  | O => EmptyString
  | S k => String "0" (zeros k)
  end.

(** [s.zfill(width)] for a string without a sign. *)
Definition zfill (width : nat) (s : string) : string :=
  (zeros (width - String.length s) ++ s)%string.

(** ** The calendar of [datetime] *)

Module Calendar.

Definition is_leap (y : Z) : bool :=
  (y mod 4 =? 0) && (negb (y mod 100 =? 0) || (y mod 400 =? 0)).

Definition days_before_year (y : Z) : Z :=
  let p := y - 1 in p * 365 + p / 4 - p / 100 + p / 400.

Definition days_in_month (y m : Z) : Z :=
  if m =? 2 then (if is_leap y then 29 else 28)
  else if (m =? 4) || (m =? 6) || (m =? 9) || (m =? 11) then 30
  else 31.

Fixpoint days_before_month_aux (y : Z) (k : nat) : Z :=
  match k with
  | O => 0
  | S j => days_before_month_aux y j + days_in_month y (Z.of_nat (S j))
  end.

(** Days of the year [y] before the first day of month [m]. *)
Definition days_before_month (y m : Z) : Z :=
  days_before_month_aux y (Z.to_nat (m - 1)).

(** The proleptic Gregorian ordinal: 0001-01-01 is day 1. *)
Definition ymd2ord (y m d : Z) : Z :=
  days_before_year y + days_before_month y m + d.

(** A naive [datetime] without microseconds: the ordinal of its date and the
    second of the day, [0 <= dt_second < 86400]. *)
Record datetime : Type := mkDatetime { dt_ordinal : Z; dt_second : Z }.

(** A [timedelta], in seconds. *)
Definition timedelta : Type := Z.

Definition days (n : Z) : timedelta := n * 86400.

Definition total_seconds (dt : datetime) : Z :=
  dt_ordinal dt * 86400 + dt_second dt.

Definition datetime_ymd (y m d : Z) : datetime := mkDatetime (ymd2ord y m d) 0.

Definition datetime_ymd_hms (y m d hh mm ss : Z) : datetime :=
  mkDatetime (ymd2ord y m d) (hh * 3600 + mm * 60 + ss).

(** [dt + delta], normalised. *)
Definition dt_add (dt : datetime) (delta : timedelta) : datetime :=
  let s := total_seconds dt + delta in
  mkDatetime (s / 86400) (s mod 86400).

(** [a - b] on datetimes. *)
Definition dt_diff (a b : datetime) : timedelta :=
  total_seconds a - total_seconds b.

(** [delta.days]: the whole days of a timedelta, rounded down. *)
Definition td_days (delta : timedelta) : Z := delta / 86400.

(** [dt.weekday()]: Monday is 0, Sunday is 6. *)
Definition weekday (dt : datetime) : Z := (dt_ordinal dt + 6) mod 7.

(** [a <= b]: by date, then by time of day. *)
Definition dt_leb (a b : datetime) : bool :=
  (dt_ordinal a <? dt_ordinal b)
  || ((dt_ordinal a =? dt_ordinal b) && (dt_second a <=? dt_second b)).

Definition dt_ltb (a b : datetime) : bool := negb (dt_leb b a).

Definition dt_max (a b : datetime) : datetime := if dt_leb a b then b else a.
Definition dt_min (a b : datetime) : datetime := if dt_leb a b then a else b.

End Calendar.
Import Calendar.

(** ** Holiday weeks *)

(** The dates of [holidays] in [_get_holiday_weeks], as [strptime] reads
    them. *)
Definition holidays : list (Z * Z * Z) :=
  [ (2023, 1, 1);    (* New Year's *)
    (2023, 12, 25);  (* Christmas *)
    (2023, 11, 23);  (* Thanksgiving *)
    (2023, 7, 4);    (* Independence Day *)
    (2023, 5, 29);   (* Memorial Day *)
    (2023, 9, 4) ].  (* Labor Day *)

(** The body of the loop of [_get_holiday_weeks]. *)
Definition holiday_week (holiday : Z * Z * Z) : datetime * datetime :=
  let '(y, m, d) := holiday in
  let date := datetime_ymd y m d in
  let week_start := dt_add date (- days (weekday date)) in
  let week_end := dt_add week_start (days 6) in
  (week_start, week_end).

Definition _get_holiday_weeks : list (datetime * datetime) :=
  map holiday_week holidays.

Fixpoint _is_holiday_week (holiday_weeks : list (datetime * datetime))
         (date : datetime) : bool :=
  match holiday_weeks with
  | [] => false
  | (start, end_) :: rest =>
      if dt_leb start date && dt_leb date end_ then true
      else _is_holiday_week rest date
  end.

(** The reading of "holiday week" in the specification: the calendar date of
    the timestamp, whatever its time of day, lies in the Monday to Sunday week
    of one of the holidays. *)
Definition in_holiday_calendar_week (date : datetime) : bool :=
  existsb (fun '(y, m, d) =>
             let h := datetime_ymd y m d in
             let monday := dt_ordinal h - weekday h in
             (monday <=? dt_ordinal date) && (dt_ordinal date <=? monday + 6))
          holidays.

(** ** Exceptions and the random source *)

Inductive exn : Type :=
  | IndexError          (* [random.choice] on an empty sequence *)
  | ValueError          (* an empty [randint] range, [int] of a NaN *)
  | OverflowError       (* [int] of an infinity *)
  | KeyError
  | ZeroDivisionError
  | OutOfFuel.          (* the bound on a [while True] loop was reached *)

Inductive result (A : Type) : Type :=
  | Ok (a : A)
  | Raise (e : exn).
Arguments Ok {A} a.
Arguments Raise {A} e.

(** The random source: an unbounded tape of raw draws and the position of the
    next one.  Every primitive of [random] and [uuid] reads one raw draw and
    maps it onto its support, so each value of the support is reached by some
    tape and no value outside of it by any. *)
Record rng : Type := mkRng { tape : nat -> Z; pos : nat }.

Definition Gen (A : Type) : Type := rng -> result (A * rng).

Definition ret {A} (a : A) : Gen A := fun g => Ok (a, g).

Definition raise {A} (e : exn) : Gen A := fun _ => Raise e.

Definition bind {A B} (c : Gen A) (k : A -> Gen B) : Gen B :=
  fun g =>
    match c g with
    | Ok (a, g') => k a g'
    | Raise e => Raise e
    end.

Declare Scope gen_scope.
Delimit Scope gen_scope with gen.
Notation "x <- c ;; k" := (bind c (fun x => k))
  (at level 61, c at next level, right associativity) : gen_scope.
Notation "' pat <- c ;; k" := (bind c (fun x => match x with pat => k end))
  (at level 61, pat pattern, c at next level, right associativity) : gen_scope.
Open Scope gen_scope.

Definition of_option {A} (e : exn) (o : option A) : Gen A :=
  match o with
  | Some a => ret a
  | None => raise e
  end.

Definition next_raw : Gen Z :=
  fun g => Ok (tape g (pos g), mkRng (tape g) (S (pos g))).

(** [for x in xs: out.append(f(x))] *)
Fixpoint mapM {A B} (f : A -> Gen B) (xs : list A) : Gen (list B) :=
  match xs with
  | [] => ret []
  | x :: xs' => y <- f x ;; ys <- mapM f xs' ;; ret (y :: ys)
  end.

(** [for x in xs: acc = f(acc, x)] *)
Fixpoint foldM {A S} (f : S -> A -> Gen S) (acc : S) (xs : list A) : Gen S :=
  match xs with
  | [] => ret acc
  | x :: xs' => acc' <- f acc x ;; foldM f acc' xs'
  end.

(** [range(n)]: empty when [n <= 0]. *)
Definition range (n : Z) : list Z := map Z.of_nat (seq 0 (Z.to_nat n)).

Module Random.

(** [random.random()]: a multiple of [2^-53] in $[0, 1)$. *)
Definition random : Gen float :=
  r <- next_raw ;;
  ret (float_of_int (r mod 9007199254740992) / 9007199254740992)%float.

(** [random.randint(a, b)]: an int of [[a, b]]. *)
Definition randint (a b : Z) : Gen Z :=
  if b <? a then raise ValueError
  else r <- next_raw ;; ret (a + r mod (b - a + 1)).

(** [random.choice(seq)] *)
Definition choice {A} (xs : list A) : Gen A :=
  match xs with
  | [] => raise IndexError
  | x :: _ =>
      r <- next_raw ;;
      ret (nth (Z.to_nat (r mod Z.of_nat (List.length xs))) xs x)
  end.

(** [random.uniform(a, b)] is [a + (b - a) * random()]. *)
Definition uniform (a b : float) : Gen float :=
  u <- random ;; ret (a + (b - a) * u)%float.

(** [itertools.accumulate] on floats. *)
Fixpoint accumulate_from (acc : float) (ws : list float) : list float :=
  match ws with
  | [] => []
  | w :: ws' => let acc' := (acc + w)%float in acc' :: accumulate_from acc' ws'
  end.

Definition accumulate (ws : list float) : list float :=
  match ws with
  | [] => []
  | w :: ws' => w :: accumulate_from w ws'
  end.

(** [bisect(cum, x, 0, hi)] on an increasing list: the first index below [hi]
    whose entry is greater than [x], and [hi] when there is none. *)
Fixpoint bisect (cum : list float) (x : float) (hi : nat) : nat :=
  match hi, cum with
  | S hi', c :: cum' => if PrimFloat.ltb x c then O else S (bisect cum' x hi')
  | _, _ => O
  end.

(** [random.choices(population, weights=weights)[0]] *)
Definition choices1 {A} (population : list A) (weights : list float) : Gen A :=
  match population, rev (accumulate weights) with
  | x :: _, last :: _ =>
      let total := (last + 0)%float in
      u <- random ;;
      let i := bisect (accumulate weights) (u * total)%float
                      (List.length population - 1)%nat in
      ret (nth i population x)
  | _, _ => raise IndexError
  end.

End Random.

(** [uuid.uuid4()]: 128 random bits stand for the identifier. *)
Definition uuid4 : Gen Z :=
  r <- next_raw ;; ret (r mod 2 ^ 128).

(** ** Constants and configuration *)

Record config : Type := mkConfig {
  TOTAL_TRANSACTIONS : Z;
  TOTAL_CUSTOMERS : Z;
  TOTAL_PRODUCTS : Z;
  FILES_TO_SPLIT : Z
}.

(** The values of the module-level constants. *)
Definition default_config : config := mkConfig 100000 10000 2000 10.

Definition STORE_LOCATIONS : list (string * float) :=
  [ ("Downtown", 0.4); ("Suburb North", 0.25);
    ("Suburb South", 0.25); ("Coastal", 0.1) ]%string%float.

Record category_info : Type := mkCategory {
  price_range : float * float;
  items : list string
}.

Definition PRODUCT_CATEGORIES : list (string * category_info) :=
  [ ("Dairy", mkCategory (2.99, 8.99)
       ["Whole Milk"; "Greek Yogurt"; "Cheddar Cheese"; "Butter"; "Cream"]);
    ("Bakery", mkCategory (1.99, 12.99)
       ["Whole Wheat Bread"; "Croissants"; "Bagels"; "Muffins"; "Danish"]);
    ("Produce", mkCategory (0.99, 7.99)
       ["Bananas"; "Apples"; "Carrots"; "Spinach"; "Tomatoes"]);
    ("Meat", mkCategory (5.99, 25.99)
       ["Chicken Breast"; "Ground Beef"; "Salmon"; "Pork Chops"; "Turkey"]);
    ("Frozen Foods", mkCategory (3.99, 15.99)
       ["Ice Cream"; "Frozen Pizza"; "Frozen Vegetables"; "TV Dinner";
        "Fish Sticks"]);
    ("Snacks", mkCategory (1.99, 6.99)
       ["Potato Chips"; "Pretzels"; "Popcorn"; "Trail Mix"; "Cookies"]);
    ("Beverages", mkCategory (2.99, 9.99)
       ["Cola"; "Coffee"; "Orange Juice"; "Energy Drink"; "Water"]);
    ("Organic", mkCategory (3.99, 15.99)
       ["Organic Eggs"; "Organic Milk"; "Organic Quinoa"; "Organic Berries";
        "Organic Honey"]);
    ("Pantry", mkCategory (1.99, 12.99)
       ["Pasta"; "Rice"; "Cereal"; "Peanut Butter"; "Soup"]);
    ("Personal Care", mkCategory (2.99, 19.99)
       ["Shampoo"; "Toothpaste"; "Soap"; "Deodorant"; "Lotion"]) ]%string%float.

Definition PAYMENT_METHODS : list string :=
  [ "Credit Card"; "Debit Card"; "Cash"; "Mobile Wallet" ]%string.

Definition DISCOUNT_RATES : list float := [ 0.05; 0.10; 0.15 ]%float.

(** [PRODUCT_CATEGORIES[category]] *)
Fixpoint lookup_category (table : list (string * category_info))
         (category : string) : option category_info :=
  match table with
  | [] => None
  | (k, v) :: rest =>
      if String.eqb k category then Some v else lookup_category rest category
  end.

(** ** The data model *)

Record customer : Type := mkCustomer {
  c_customer_id : Z;
  c_is_loyalty : bool
}.

Record product : Type := mkProduct {
  p_product_id : string;
  p_product_name : string;
  p_category : string;
  p_base_price : float;
  p_is_high_demand : bool
}.

(** One entry of a transaction's ['products'] list. *)
Record basket_item : Type := mkItem {
  i_product : product;
  i_quantity : Z
}.

Record transaction : Type := mkTransaction {
  t_transaction_id : Z;
  t_customer_id : Z;
  t_transaction_datetime : datetime;
  t_store_location : string;
  t_products : list basket_item;
  t_payment_method : string;
  t_loyalty_member : bool;
  t_discount_applied : pynum
}.

(** A transaction line: the flattened, persisted row. *)
Record line : Type := mkLine {
  transaction_id : Z;
  customer_id : Z;
  transaction_datetime : datetime;
  store_location : string;
  product_id : string;
  product_name : string;
  product_category : string;
  quantity : Z;
  unit_price : float;
  total_price : float;
  payment_method : string;
  loyalty_member : bool;
  discount_applied : pynum
}.

Record GroceryDataGenerator : Type := mkGenerator {
  customers : list customer;
  products : list product;
  holiday_weeks : list (datetime * datetime)
}.

(** ** [GroceryDataGenerator] *)

Definition _generate_customers (cfg : config) : Gen (list customer) :=
  mapM (fun _ : Z =>
          customer_id <- uuid4 ;;
          r <- Random.random ;;
          let is_loyalty := PrimFloat.ltb r 0.3 in
          ret (mkCustomer customer_id is_loyalty))
       (range (TOTAL_CUSTOMERS cfg)).

(** [int(TOTAL_PRODUCTS * 0.2)]: the int is converted to a float, multiplied
    and truncated.  [None] is the [OverflowError] of a size too large for a
    float. *)
Definition high_demand_count_of (total_products : Z) : option Z :=
  match float_of_long total_products with
  | Some x => int_of_float (x * 0.2)%float
  | None => None
  end.

(** The body of the loop of [_generate_products] at index [i]. *)
Definition generate_product (high_demand_count : Z) (i : Z) : Gen product :=
  category <- Random.choice (map fst PRODUCT_CATEGORIES) ;;
  info <- of_option KeyError (lookup_category PRODUCT_CATEGORIES category) ;;
  base_name <- Random.choice (items info) ;;
  let '(min_price, max_price) := price_range info in
  (* Add 20% premium for organic products *)
  let '(min_price, max_price) :=
    if String.eqb category "Organic"
    then ((min_price * 1.2)%float, (max_price * 1.2)%float)
    else (min_price, max_price) in
  let is_high_demand := i <? high_demand_count in
  price <- Random.uniform min_price max_price ;;
  ret (mkProduct
         ("PROD_" ++ zfill 4 (str_of_int (i + 1)))%string
         (base_name ++ " " ++ str_of_int (i + 1))%string
         category
         (py_round2 price)
         is_high_demand).

Definition _generate_products (cfg : config) : Gen (list product) :=
  high_demand_count <-
    of_option OverflowError (high_demand_count_of (TOTAL_PRODUCTS cfg)) ;;
  mapM (generate_product high_demand_count) (range (TOTAL_PRODUCTS cfg)).

(** [__init__] *)
Definition init (cfg : config) : Gen GroceryDataGenerator :=
  customers <- _generate_customers cfg ;;
  products <- _generate_products cfg ;;
  ret (mkGenerator customers products _get_holiday_weeks).

Definition start_date : datetime := datetime_ymd 2023 1 1.
Definition end_date : datetime := datetime_ymd 2023 12 31.

(** The [if]/[elif]/[elif] chain of the date loop: [true] is [break].  The
    [and] of the first two conditions draws only when its left operand
    holds. *)
Definition accept_date (is_weekend is_holiday : bool) : Gen bool :=
  weekend_hit <-
    (if is_weekend
     then r <- Random.random ;; ret (PrimFloat.ltb r 0.3)
     else ret false) ;;
  if weekend_hit then ret true
  else
    holiday_hit <-
      (if is_holiday
       then r <- Random.random ;; ret (PrimFloat.ltb r 0.2)
       else ret false) ;;
    if holiday_hit then ret true
    else
      (* Regular days *)
      r <- Random.random ;; ret (PrimFloat.ltb r 0.5).

(** The [while True] loop that draws the transaction date; [fuel] bounds the
    number of candidates. *)
Fixpoint draw_transaction_date (fuel : nat) (self : GroceryDataGenerator)
  : Gen datetime :=
  match fuel with
  | O => raise OutOfFuel
  | S fuel' =>
      s <- Random.randint 0 (dt_diff end_date start_date) ;;
      let transaction_date := dt_add start_date s in
      (* Apply weekend and holiday patterns *)
      let is_weekend := 5 <=? weekday transaction_date in
      let is_holiday := _is_holiday_week (holiday_weeks self) transaction_date in
      accepted <- accept_date is_weekend is_holiday ;;
      if accepted then ret transaction_date
      else draw_transaction_date fuel' self
  end.

(** One slot of the basket. *)
Definition generate_item (self : GroceryDataGenerator) : Gen basket_item :=
  r <- Random.random ;;
  product <-
    (if PrimFloat.ltb r 0.3   (* 30% chance of high-demand product *)
     then Random.choice (filter p_is_high_demand (products self))
     else Random.choice (products self)) ;;
  (* Determine quantity *)
  quantity <- Random.randint 1 10 ;;
  r <- Random.random ;;
  quantity <-
    (if PrimFloat.ltb r 0.1   (* 10% chance of higher quantity *)
     then Random.randint 6 10
     else ret quantity) ;;
  (* Add anomalies (0.1% chance) *)
  r <- Random.random ;;
  quantity <-
    (if PrimFloat.ltb r 0.001
     then Random.randint 50 100
     else ret quantity) ;;
  ret (mkItem product quantity).

Definition generate_transaction (fuel : nat) (self : GroceryDataGenerator)
  : Gen transaction :=
  (* Select customer *)
  customer <- Random.choice (customers self) ;;
  let is_loyalty := c_is_loyalty customer in
  transaction_date <- draw_transaction_date fuel self ;;
  (* [np.random.choice] over the one-element list returns its element. *)
  num_items <- Random.randint 1 15 ;;
  transaction_products <- mapM (fun _ : Z => generate_item self)
                               (range num_items) ;;
  (* Calculate discount *)
  let discount_chance := (if is_loyalty then 0.4 else 0.2)%float in
  r <- Random.random ;;
  discount <-
    (if PrimFloat.ltb r discount_chance
     then d <- Random.choice DISCOUNT_RATES ;; ret (PyFloat d)
     else ret (PyInt 0)) ;;
  transaction_id <- uuid4 ;;
  store_location <-
    Random.choices1 (map fst STORE_LOCATIONS) (map snd STORE_LOCATIONS) ;;
  payment_method <- Random.choice PAYMENT_METHODS ;;
  ret (mkTransaction transaction_id (c_customer_id customer) transaction_date
         store_location transaction_products payment_method is_loyalty
         discount).

(** The row appended for one entry of [transaction['products']]. *)
Definition flatten_item (t : transaction) (product_info : basket_item) : line :=
  let product := i_product product_info in
  let quantity := i_quantity product_info in
  let unit_price := p_base_price product in
  let total_price :=
    py_round2 (fmul_num (float_of_int quantity * unit_price)%float
                        (one_minus (t_discount_applied t))) in
  mkLine (t_transaction_id t) (t_customer_id t) (t_transaction_datetime t)
         (t_store_location t) (p_product_id product) (p_product_name product)
         (p_category product) quantity unit_price total_price
         (t_payment_method t) (t_loyalty_member t) (t_discount_applied t).

(** Flatten products into individual rows *)
Definition flatten_transaction (t : transaction) : list line :=
  map (flatten_item t) (t_products t).

(** The generation loop of [generate_dataset]: the rows of the frame. *)
Definition generate_rows (cfg : config) (fuel : nat)
           (self : GroceryDataGenerator) : Gen (list line) :=
  foldM (fun transactions (_ : Z) =>
           t <- generate_transaction fuel self ;;
           ret (transactions ++ flatten_transaction t))
        [] (range (TOTAL_TRANSACTIONS cfg)).

(** ** The partitioner *)

(** [xs[start:stop]] with the index conventions of Python: a negative index
    counts from the end, an index beyond either end is clipped, [None] as
    [stop] is the end. *)
Definition clip_index {A} (xs : list A) (i : Z) : Z :=
  let n := Z.of_nat (List.length xs) in
  if i <? 0 then Z.max 0 (i + n) else Z.min i n.

Definition py_slice {A} (xs : list A) (start : Z) (stop : option Z) : list A :=
  let lo := clip_index xs start in
  let hi := match stop with
            | Some e => clip_index xs e
            | None => Z.of_nat (List.length xs)
            end in
  firstn (Z.to_nat (hi - lo)) (skipn (Z.to_nat lo) xs).

(** The chunk written to file number [i + 1]. *)
Definition chunk {A} (df : list A) (files_to_split rows_per_file i : Z)
  : list A :=
  let start_idx := i * rows_per_file in
  let end_idx := if i <? files_to_split - 1
                 then Some (start_idx + rows_per_file) else None in
  py_slice df start_idx end_idx.

(** Split into multiple files: the chunks, in the order they are written. *)
Definition split_rows {A} (df : list A) (files_to_split : Z)
  : result (list (list A)) :=
  if files_to_split =? 0 then Raise ZeroDivisionError
  else
    let rows_per_file := Z.of_nat (List.length df) / files_to_split in
    Ok (map (chunk df files_to_split rows_per_file) (range files_to_split)).

Definition output_file (i : Z) : string :=
  ("output/grocery_transactions_" ++ str_of_int (i + 1) ++ ".csv")%string.

(** [generate_dataset]: the files written, with their rows. *)
Definition generate_dataset (cfg : config) (fuel : nat)
           (self : GroceryDataGenerator) : Gen (list (string * list line)) :=
  df <- generate_rows cfg fuel self ;;
  match split_rows df (FILES_TO_SPLIT cfg) with
  | Raise e => raise e
  | Ok chunks =>
      ret (combine (map output_file (range (FILES_TO_SPLIT cfg))) chunks)
  end.

(** [main]: build the generator, then the dataset. *)
Definition main (cfg : config) (fuel : nat) : Gen (list (string * list line)) :=
  generator <- init cfg ;;
  generate_dataset cfg fuel generator.

(** ** The metric layer: frames, grouping and aggregates *)

Module Frame.

Section Grouping.
Context {K : Type} (eqb : K -> K -> bool).

(** The distinct values of a column, in order of first appearance. *)
Fixpoint distinct_from (seen ks : list K) : list K :=
  match ks with
  | [] => []
  | k :: rest =>
      if existsb (eqb k) seen then distinct_from seen rest
      else k :: distinct_from (k :: seen) rest
  end.

Definition distinct (ks : list K) : list K := distinct_from [] ks.

(** [Series.nunique()] *)
Definition nunique (ks : list K) : Z := Z.of_nat (List.length (distinct ks)).

(** [df.groupby(key)]: every key with its rows, in frame order.  pandas
    orders the groups by key; the aggregates taken below do not depend on
    the order of the groups. *)
Definition groupby {R : Type} (key : R -> K) (df : list R)
  : list (K * list R) :=
  map (fun k => (k, filter (fun r => eqb (key r) k) df))
      (distinct (map key df)).
End Grouping.

Definition fsum (xs : list float) : float :=
  fold_left PrimFloat.add xs 0%float.

(** [Series.mean()]: NaN on an empty column. *)
Definition mean (xs : list float) : float :=
  (fsum xs / float_of_int (Z.of_nat (List.length xs)))%float.

(** The mean of a group as the grouped aggregation of pandas computes it:
    a compensated (Kahan) sum divided by the number of rows. *)
Fixpoint kahan_sum (sumx compensation : float) (xs : list float) : float :=
  match xs with
  | [] => sumx
  | v :: rest =>
      let y := (v - compensation)%float in
      let t := (sumx + y)%float in
      kahan_sum t (t - sumx - y)%float rest
  end.

Definition group_mean (xs : list float) : float :=
  (kahan_sum 0 0 xs / float_of_int (Z.of_nat (List.length xs)))%float.

(** The sum of squared deviations of a group by Welford's update, as the
    grouped variance of pandas runs it. *)
Fixpoint welford (nobs : Z) (mean_ out : float) (xs : list float) : float :=
  match xs with
  | [] => out
  | v :: rest =>
      let nobs' := nobs + 1 in
      let mean' := (mean_ + (v - mean_) / float_of_int nobs')%float in
      welford nobs' mean' (out + (v - mean') * (v - mean_))%float rest
  end.

(** [std] of a group, the sample standard deviation ([ddof = 1]): NaN on
    fewer than two rows. *)
Definition group_std (xs : list float) : float :=
  let n := Z.of_nat (List.length xs) in
  if n <=? 1 then PrimFloat.nan
  else PrimFloat.sqrt (welford 0 0 0 xs / float_of_int (n - 1))%float.

(** The mean of a boolean column: the share of [True]. *)
Definition bool_mean (bs : list bool) : float :=
  (float_of_int (Z.of_nat (List.length (filter (fun b => b) bs)))
   / float_of_int (Z.of_nat (List.length bs)))%float.

(** [Series.replace(0, 1)] on a float column: both zeros compare equal to
    [0], NaN does not. *)
Definition replace_zero_by_one (x : float) : float :=
  if PrimFloat.eqb x 0 then 1%float else x.

Fixpoint max_datetime_from (acc : datetime) (xs : list datetime) : datetime :=
  match xs with
  | [] => acc
  | x :: rest => max_datetime_from (dt_max acc x) rest
  end.

Fixpoint min_datetime_from (acc : datetime) (xs : list datetime) : datetime :=
  match xs with
  | [] => acc
  | x :: rest => min_datetime_from (dt_min acc x) rest
  end.

(** [Series.max()] on timestamps: [None] is [NaT], on an empty column. *)
Definition max_datetime (xs : list datetime) : option datetime :=
  match xs with
  | [] => None
  | x :: rest => Some (max_datetime_from x rest)
  end.

Definition min_datetime (xs : list datetime) : option datetime :=
  match xs with
  | [] => None
  | x :: rest => Some (min_datetime_from x rest)
  end.

End Frame.
Import Frame.

(** ** Anomaly z-scores *)

(** A row of [product_stats]. *)
Record product_stat : Type := mkStat {
  s_product_id : string;
  qty_mean : float;
  qty_std : float;
  price_mean : float;
  price_std : float
}.

(** A row of the merged frame with its z-scores. *)
Record scored_line : Type := mkScored {
  sl_line : line;
  sl_stat : product_stat;
  quantity_zscore : float;
  price_zscore : float
}.

Definition quantities (rows : list line) : list float :=
  map (fun r => float_of_int (quantity r)) rows.

Definition stat_of_group (pid : string) (rows : list line) : product_stat :=
  mkStat pid
         (group_mean (quantities rows)) (group_std (quantities rows))
         (group_mean (map unit_price rows)) (group_std (map unit_price rows)).

(** [df.merge(product_stats, on='product_id')] *)
Definition merge_stats (df : list line) (stats : list product_stat)
  : list (line * product_stat) :=
  flat_map (fun r =>
              map (fun s => (r, s))
                  (filter (fun s => String.eqb (s_product_id s) (product_id r))
                          stats))
           df.

Definition zscore (value mean_ std_ : float) : float :=
  ((value - mean_) / std_)%float.

(** The frame [df_metrics] of [get_anomaly_metrics], with the zero standard
    deviations replaced before the division. *)
Definition anomaly_metrics_frame (df : list line) : list scored_line :=
  let product_stats :=
    map (fun '(pid, rows) => stat_of_group pid rows)
        (groupby String.eqb product_id df) in
  map (fun '(r, s) =>
         (* Handle zero standard deviations *)
         let s' := mkStat (s_product_id s)
                          (qty_mean s) (replace_zero_by_one (qty_std s))
                          (price_mean s) (replace_zero_by_one (price_std s)) in
         mkScored r s'
                  (zscore (float_of_int (quantity r)) (qty_mean s') (qty_std s'))
                  (zscore (unit_price r) (price_mean s') (price_std s')))
      (merge_stats df product_stats).

(** [groupby('product_category')['total_price'].transform('mean')] at a
    row. *)
Definition category_mean_total (df : list line) (r : line) : float :=
  group_mean (map total_price
            (filter (fun r' => String.eqb (product_category r')
                                          (product_category r)) df)).

(** [get_anomaly_metrics]: the three percentages. *)
Definition get_anomaly_metrics (df : list line) : float * float * float :=
  let df_metrics := anomaly_metrics_frame df in
  let rows := map sl_line df_metrics in
  let quantity_anomalies :=
    (bool_mean (map (fun sl => PrimFloat.ltb 3 (PrimFloat.abs (quantity_zscore sl)))
                    df_metrics) * 100)%float in
  let price_anomalies :=
    (bool_mean (map (fun sl => PrimFloat.ltb 3 (PrimFloat.abs (price_zscore sl)))
                    df_metrics) * 100)%float in
  let high_value_transactions :=
    (bool_mean (map (fun r => PrimFloat.ltb (category_mean_total rows r * 3)%float
                                            (total_price r))
                    rows) * 100)%float in
  (quantity_anomalies, price_anomalies, high_value_transactions).

Definition triple_eqb (a b : string * string * string) : bool :=
  let '(a1, a2, a3) := a in
  let '(b1, b2, b3) := b in
  String.eqb a1 b1 && String.eqb a2 b2 && String.eqb a3 b3.

(** The frame [df_anomaly] of [create_anomaly_detection], from which the
    figure is drawn: grouped by id, name and category, merged on the id, and
    divided by the standard deviations as they are. *)
Definition create_anomaly_detection (df : list line) : list scored_line :=
  let product_stats :=
    map (fun '((pid, _, _), rows) => stat_of_group pid rows)
        (groupby triple_eqb
                 (fun r => (product_id r, product_name r, product_category r))
                 df) in
  map (fun '(r, s) =>
         mkScored r s
                  (zscore (float_of_int (quantity r)) (qty_mean s) (qty_std s))
                  (zscore (unit_price r) (price_mean s) (price_std s)))
      (merge_stats df product_stats).

(** ** Retention metrics *)

(** [df.groupby('customer_id')['transaction_id'].nunique()] *)
Definition repeat_customers (df : list line) : list (Z * Z) :=
  map (fun '(c, rows) => (c, nunique Z.eqb (map transaction_id rows)))
      (groupby Z.eqb customer_id df).

(** [df.groupby('customer_id')['transaction_datetime'].max()] *)
Definition customer_last_purchase (df : list line)
  : list (Z * option datetime) :=
  map (fun '(c, rows) => (c, max_datetime (map transaction_datetime rows)))
      (groupby Z.eqb customer_id df).

(** [get_retention_metrics]: repeat rate, monthly frequency, churn risk.  On
    an empty frame the extrema are [NaT] and the three results NaN. *)
Definition get_retention_metrics (df : list line) : float * float * float :=
  let stamps := map transaction_datetime df in
  match max_datetime stamps, min_datetime stamps with
  | Some last_purchase_date, Some first_purchase_date =>
      (* Calculate repeat purchase rate *)
      let counts := map snd (repeat_customers df) in
      let repeat_rate :=
        (bool_mean (map (fun n => (1 <? n)%Z) counts) * 100)%float in
      (* Calculate average purchase frequency (monthly) *)
      let date_range :=
        (float_of_int (td_days (dt_diff last_purchase_date first_purchase_date))
         / 30)%float in
      let avg_monthly_frequency :=
        (mean (map float_of_int counts) / date_range)%float in
      (* Calculate churn risk *)
      let days_since_purchase :=
        map (fun '(_, last) =>
               match last with
               | Some d => td_days (dt_diff last_purchase_date d)
               | None => 0
               end)
            (customer_last_purchase df) in
      let churn_risk :=
        (bool_mean (map (fun d => (90 <? d)%Z) days_since_purchase) * 100)%float in
      (repeat_rate, avg_monthly_frequency, churn_risk)
  | _, _ => (PrimFloat.nan, PrimFloat.nan, PrimFloat.nan)
  end.

(** ** Geographic metrics *)

(** The lambda applied to [store_location]. *)
Definition location_type (x : string) : string :=
  if existsb (String.eqb x) ["Downtown"]%string then "Urban"%string
  else if existsb (String.eqb x) ["Suburb North"; "Suburb South"]%string
       then "Suburban"%string
       else "Other"%string.

Section ColumnSums.
(** The sum of a float column.  The order in which pandas and numpy add the
    values of a column is left open: the metrics below are stated for every
    summation. *)
Variable series_sum : list float -> float.

(** The sum of a column within one group of a grouped frame, which pandas
    adds up by a routine of its own. *)
Variable group_sum : list float -> float.

(** [Series.mean()] on a float column. *)
Definition series_mean (xs : list float) : float :=
  (series_sum xs / float_of_int (Z.of_nat (List.length xs)))%float.

(** [Series.sum()]: NaN entries are skipped. *)
Definition nansum (xs : list float) : float :=
  series_sum (filter (fun x => negb (PrimFloat.is_nan x)) xs).

(** The sum of a group, NaN entries skipped as well. *)
Definition group_nansum (xs : list float) : float :=
  group_sum (filter (fun x => negb (PrimFloat.is_nan x)) xs).

(** [get_geographic_metrics]: the average line value in urban and in
    suburban stores and the share of loyalty lines in urban stores.  The
    column [location_type] the function adds to the frame is not part of the
    result. *)
Definition get_geographic_metrics (df : list line) : float * float * float :=
  let of_type (t : string) :=
    filter (fun r => String.eqb (location_type (store_location r)) t) df in
  let urban_avg_transaction := series_mean (map total_price (of_type "Urban"%string)) in
  let suburban_avg_transaction :=
    series_mean (map total_price (of_type "Suburban"%string)) in
  let urban_loyalty_rate :=
    (bool_mean (map loyalty_member (of_type "Urban"%string)) * 100)%float in
  (urban_avg_transaction, suburban_avg_transaction, urban_loyalty_rate).

(** ** Financial metrics *)

Definition category_margins : list (string * float) :=
  [ ("Organic", 0.45); ("Meat", 0.35); ("Dairy", 0.30); ("Produce", 0.25);
    ("Bakery", 0.40); ("Frozen Foods", 0.35); ("Snacks", 0.50);
    ("Beverages", 0.45); ("Pantry", 0.40); ("Personal Care", 0.55)
  ]%string%float.

Fixpoint lookup_margin (table : list (string * float)) (category : string)
  : option float :=
  match table with
  | [] => None
  | (k, v) :: rest =>
      if String.eqb k category then Some v else lookup_margin rest category
  end.

(** A row of [df_finance]: the line and its three added columns. *)
Record finance_line : Type := mkFinance {
  f_line : line;
  margin_percentage : float;
  unit_cost : float;
  margin : float
}.

(** [Series.map(category_margins)]: a category without an entry gives NaN. *)
Definition margin_of_category (category : string) : float :=
  match lookup_margin category_margins category with
  | Some m => m
  | None => PrimFloat.nan
  end.

Definition finance_row (r : line) : finance_line :=
  let margin_percentage := margin_of_category (product_category r) in
  let unit_cost := (unit_price r * (1 - margin_percentage))%float in
  let margin := (total_price r - unit_cost * float_of_int (quantity r))%float in
  mkFinance r margin_percentage unit_cost margin.

Definition finance_frame (df : list line) : list finance_line :=
  map finance_row df.

(** The keys of a grouped frame, in increasing order as pandas lists them. *)
Fixpoint insert_sorted (k : string) (ks : list string) : list string :=
  match ks with
  | [] => [k]
  | k' :: rest =>
      if String.leb k k' then k :: ks else k' :: insert_sorted k rest
  end.

Definition sort_keys (ks : list string) : list string :=
  fold_right insert_sorted [] ks.

(** [Series.idxmax()]: the label of the first largest value, NaN skipped.
    On a Series without a value to compare, an empty one included, pandas
    raises: [None] here, turned into the failure of the caller. *)
Fixpoint idxmax_from (best : option (string * float))
         (rows : list (string * float)) : option string :=
  match rows with
  | [] => option_map fst best
  | (k, v) :: rest =>
      if PrimFloat.is_nan v then idxmax_from best rest
      else
        match best with
        | Some (_, b) =>
            if PrimFloat.ltb b v then idxmax_from (Some (k, v)) rest
            else idxmax_from best rest
        | None => idxmax_from (Some (k, v)) rest
        end
  end.

Definition idxmax (rows : list (string * float)) : option string :=
  idxmax_from None rows.

(** The margin percent of every category of the frame, by category. *)
Definition category_margin_percent (df_finance : list finance_line)
  : list (string * float) :=
  map (fun c =>
         let rows := filter (fun f => String.eqb (product_category (f_line f)) c)
                            df_finance in
         let margin_sum := group_nansum (map margin rows) in
         let total_sum :=
           group_nansum (map (fun f => total_price (f_line f)) rows) in
         (c, (margin_sum / total_sum * 100)%float))
      (sort_keys (distinct String.eqb
                           (map (fun f => product_category (f_line f))
                                df_finance))).

(** [get_financial_metrics]: overall margin, margin of the discounted lines,
    and the category with the highest margin percent.  The call raises, and
    returns nothing, when [idxmax] has no value to compare, as on a frame
    without lines: [None]. *)
Definition get_financial_metrics (df : list line)
  : option (float * float * string) :=
  let df_finance := finance_frame df in
  let totals rows := nansum (map (fun f => total_price (f_line f)) rows) in
  let overall_margin :=
    (nansum (map margin df_finance) / totals df_finance * 100)%float in
  let discounted :=
    filter (fun f => num_positive (discount_applied (f_line f))) df_finance in
  let discount_margin :=
    (nansum (map margin discounted) / totals discounted * 100)%float in
  match idxmax (category_margin_percent df_finance) with
  | Some highest_margin_category =>
      Some (overall_margin, discount_margin, highest_margin_category)
  | None => None
  end.

End ColumnSums.

(** ** Basket statistics *)

(** The frame [basket_stats] of [create_basket_analysis]: for every
    transaction id the number of its lines and the sum of their total
    prices, the way to add up a group being left open. *)
Definition basket_stats (group_sum : list float -> float) (df : list line)
  : list (Z * Z * float) :=
  map (fun '(tid, rows) =>
         (tid, Z.of_nat (List.length rows),
          group_nansum group_sum (map total_price rows)))
      (groupby Z.eqb transaction_id df).

(** ** Product identifiers read back *)

(** The number printed in a product id [PROD_nnnn]. *)
Definition product_number (pid : string) : option Z :=
  match pid with
  | String "P" (String "R" (String "O" (String "D" (String "_" digits)))) =>
      option_map (fun d => Z.of_N (N.of_uint d))
                 (NilEmpty.uint_of_string digits)
  | _ => None
  end.

(** What the loop body of [_generate_products] stores at index [i]. *)
Definition product_at (i : Z) (p : product) : Prop :=
  p_product_id p = ("PROD_" ++ zfill 4 (str_of_int (i + 1)))%string
  /\ exists info base_name,
      lookup_category PRODUCT_CATEGORIES (p_category p) = Some info
      /\ In (p_category p) (map fst PRODUCT_CATEGORIES)
      /\ In base_name (items info)
      /\ p_product_name p = (base_name ++ " " ++ str_of_int (i + 1))%string.

(** Where the fields of a line come from. *)
Definition line_from_catalogs (self : GroceryDataGenerator) (l : line) : Prop :=
  (exists c, In c (customers self)
             /\ customer_id l = c_customer_id c
             /\ loyalty_member l = c_is_loyalty c)
  /\ (exists p, In p (products self)
                /\ product_id l = p_product_id p
                /\ product_name l = p_product_name p
                /\ product_category l = p_category p
                /\ unit_price l = p_base_price p).

(** The statistics of the product of a line, over all lines of the
    product. *)
Definition own_product_stat (df : list line) (r : line) : product_stat :=
  stat_of_group (product_id r)
                (filter (fun r' => String.eqb (product_id r') (product_id r)) df).

(** The product id determines the name and the category of a line. *)
Definition id_determines_product (df : list line) : Prop :=
  forall r r', In r df -> In r' df ->
               product_id r = product_id r' ->
               product_name r = product_name r'
               /\ product_category r = product_category r'.

(** The first and the third result of [get_retention_metrics]. *)
Definition repeat_rate_of (metrics : float * float * float) : float :=
  fst (fst metrics).

Definition churn_risk_of (metrics : float * float * float) : float :=
  snd metrics.

(** * The statements of the specification *)

(** [total_price] recomputed from the three stored fields of a line. *)
Definition recomputed_total (l : line) : float :=
  py_round2 (fmul_num (float_of_int (quantity l) * unit_price l)%float
                      (one_minus (discount_applied l))).

(** [ceil(0.2 * M)], the number of high-demand products the specification
    states, in exact arithmetic. *)
Definition claimed_high_demand_count (total_products : Z) : Z :=
  (total_products + 4) / 5.

(** The number of products that carry the flag. *)
Definition count_high_demand (ps : list product) : Z :=
  Z.of_nat (List.length (filter p_is_high_demand ps)).

(** The largest catalog size of the statements about whole runs; the size
    configured is 2000. *)
Definition catalog_bound : Z := 5000.

(** The result of a run without the random source: the value and the number
    of raw draws read. *)
Definition run {A} (c : Gen A) (g : rng) : result (A * nat) :=
  match c g with
  | Ok (a, g') => Ok (a, (pos g' - pos g)%nat)
  | Raise e => Raise e
  end.

(** *** Retention, in the words of the specification *)

(** The distinct customers of the table. *)
Definition customers_of (df : list line) : list Z :=
  distinct Z.eqb (map customer_id df).

Definition rows_of_customer (df : list line) (c : Z) : list line :=
  filter (fun r => Z.eqb (customer_id r) c) df.

(** The seconds by which the latest timestamp of customer [c] precedes the
    global maximum timestamp of the table; a customer of the table has a
    row, so both maxima exist. *)
Definition seconds_behind (df : list line) (c : Z) : Z :=
  match max_datetime (map transaction_datetime df),
        max_datetime (map transaction_datetime (rows_of_customer df c)) with
  | Some latest, Some last => dt_diff latest last
  | _, _ => 0
  end.

(** The number of distinct transaction ids of customer [c]. *)
Definition transactions_of (df : list line) (c : Z) : Z :=
  nunique Z.eqb (map transaction_id (rows_of_customer df c)).

(** The fraction of the customers [cs] that satisfy [P]. *)
Definition fraction (P : Z -> bool) (cs : list Z) : float :=
  (float_of_int (Z.of_nat (List.length (filter P cs)))
   / float_of_int (Z.of_nat (List.length cs)))%float.

(** Churn risk as stated: the customers more than 90 days behind. *)
Definition claimed_churn_risk (df : list line) : float :=
  fraction (fun c => days 90 <? seconds_behind df c) (customers_of df).

(** Repeat-purchase rate as stated. *)
Definition claimed_repeat_rate (df : list line) : float :=
  fraction (fun c => 1 <? transactions_of df c) (customers_of df).

(** The customers at least 91 whole days behind. *)
Definition churn_fraction_whole_days (df : list line) : float :=
  fraction (fun c => days 91 <=? seconds_behind df c) (customers_of df).

(** * Sample inputs *)

(** Raw draws from a linear congruential recurrence. *)
Definition lcg (n : nat) : Z :=
  ((Z.of_nat n + 1) * 6364136223846793005 + 1442695040888963407) mod 2 ^ 64.

Definition sample_draws : list Z := Eval vm_compute in map lcg (seq 0 512).

(** The tape that holds [sample_draws], and [0] from there on. *)
Definition sample_tape (n : nat) : Z := nth n sample_draws 0.

Definition sample_rng : rng := mkRng sample_tape 0.

(** The tape on which every raw draw is [0]. *)
Definition zero_rng : rng := mkRng (fun _ => 0) 0.

(** Three transactions, two customers, ten products, two files. *)
Definition sample_config : config := mkConfig 3 2 10 2.

Definition sample_generator : GroceryDataGenerator :=
  match init sample_config sample_rng with
  | Ok (self, _) => self
  | Raise _ => mkGenerator [] [] []
  end.

(** The random source that holds the raw draws [draws], and [0] from there
    on. *)
Definition rng_of (draws : list Z) : rng := mkRng (fun n => nth n draws 0) 0.

(** Raw draws that [random.random()] maps to about 0.4 and about 0.6. *)
Definition raw_04 : Z := 3602879701896397.
Definition raw_06 : Z := 5404319552844595.

Definition sample_line (tid cid : Z) (dt : datetime) (pid : string) (q : Z)
           (u : float) : line :=
  mkLine tid cid dt "Downtown" pid (pid ++ " item") "Dairy" q u
         (py_round2 (float_of_int q * u)%float) "Cash" false (PyInt 0).

(** Two lines of one product, both with quantity 3. *)
Definition constant_quantity_frame : list line :=
  [ sample_line 1 1 (datetime_ymd 2023 6 1) "PROD_0001" 3 4.99;
    sample_line 2 2 (datetime_ymd 2023 6 2) "PROD_0001" 3 4.99 ].

(** A product with a single line. *)
Definition single_line_frame : list line :=
  [ sample_line 1 1 (datetime_ymd 2023 6 1) "PROD_0001" 3 4.99 ].

(** Customer 1 bought twice, the last time at the latest timestamp of the
    table; customer 2 bought once, 90 days and one hour before it. *)
Definition retention_frame : list line :=
  [ sample_line 1 1 (datetime_ymd_hms 2023 6 1 0 0 0) "PROD_0001" 1 4.99;
    sample_line 2 1 (datetime_ymd_hms 2023 5 1 0 0 0) "PROD_0002" 2 2.5;
    sample_line 3 2 (datetime_ymd_hms 2023 3 2 23 0 0) "PROD_0001" 1 4.99 ].

(** * Properties *)

(** ** Reasoning about the monad *)

Lemma bind_ok {A B} (c : Gen A) (k : A -> Gen B) g b g' :
  bind c k g = Ok (b, g') ->
  exists a g1, c g = Ok (a, g1) /\ k a g1 = Ok (b, g').
Proof.
  unfold bind. destruct (c g) as [[a g1] | e]; intro H.
  - exists a, g1. split; [reflexivity | exact H].
  - discriminate H.
Qed.

Lemma ret_ok {A} (a b : A) g g' : ret a g = Ok (b, g') -> a = b /\ g = g'.
Proof. unfold ret. intro H. injection H as -> ->. split; reflexivity. Qed.

(** Split a successful run into its steps, first step first. *)
Ltac gen_step H :=
  let a := fresh "v" in
  let g := fresh "g" in
  let H1 := fresh "Hstep" in
  apply bind_ok in H; destruct H as (a & g & H1 & H).

Ltac gen_ret H :=
  let E := fresh "E" in
  apply ret_ok in H; destruct H as [E ?]; subst.

Lemma mapM_Forall {A B} (f : A -> Gen B) (P : B -> Prop) :
  (forall x g y g', f x g = Ok (y, g') -> P y) ->
  forall xs g ys g', mapM f xs g = Ok (ys, g') -> Forall P ys.
Proof.
  intros Hf xs. induction xs as [| x xs IH]; intros g ys g' H; simpl in H.
  - gen_ret H. constructor.
  - gen_step H. gen_step H. gen_ret H.
    constructor; [eapply Hf | eapply IH]; eassumption.
Qed.

Lemma foldM_invariant {A S} (f : S -> A -> Gen S) (P : S -> Prop) :
  (forall acc x g acc' g', P acc -> f acc x g = Ok (acc', g') -> P acc') ->
  forall xs acc g r g', P acc -> foldM f acc xs g = Ok (r, g') -> P r.
Proof.
  intros Hf xs. induction xs as [| x xs IH]; intros acc g r g' Hacc H;
    simpl in H.
  - gen_ret H. exact Hacc.
  - gen_step H. eapply IH; [eapply Hf |]; eassumption.
Qed.

(** A loop body that always succeeds makes [mapM] succeed, and the results
    are related to the inputs pointwise. *)
Lemma mapM_total {A B} (f : A -> Gen B) (Q : A -> B -> Prop) :
  (forall x g, exists y g', f x g = Ok (y, g') /\ Q x y) ->
  forall xs g, exists ys g', mapM f xs g = Ok (ys, g') /\ Forall2 Q xs ys.
Proof.
  intros Hf xs. induction xs as [| x xs IH]; intro g; simpl.
  - exists [], g. split; [reflexivity | constructor].
  - destruct (Hf x g) as (y & g1 & Hy & Hq).
    destruct (IH g1) as (ys & g2 & Hys & Hall).
    exists (y :: ys), g2. split.
    + unfold bind. rewrite Hy, Hys. reflexivity.
    + constructor; assumption.
Qed.

(** ** The supports of the draws *)

Lemma randint_range a b g z g' :
  Random.randint a b g = Ok (z, g') -> a <= z <= b.
Proof.
  unfold Random.randint. destruct (b <? a) eqn:Hab; [discriminate |].
  apply Z.ltb_ge in Hab. intro H. gen_step H. gen_ret H.
  pose proof (Z.mod_pos_bound v (b - a + 1)). lia.
Qed.

Lemma choice_In {A} (xs : list A) g x g' :
  Random.choice xs g = Ok (x, g') -> In x xs.
Proof.
  destruct xs as [| d xs]; unfold Random.choice; [discriminate |].
  intro H. gen_step H. gen_ret H.
  set (n := Z.to_nat _).
  destruct (nth_in_or_default n (d :: xs) d) as [Hin | Heq];
    [exact Hin | rewrite Heq; left; reflexivity].
Qed.

Lemma choice_total {A} (xs : list A) g :
  xs <> [] -> exists x g', Random.choice xs g = Ok (x, g') /\ In x xs.
Proof.
  intro Hne. destruct xs as [| d xs]; [contradiction |].
  destruct (Random.choice (d :: xs) g) as [[x g'] | e] eqn:H.
  - exists x, g'. split; [reflexivity | eapply choice_In; eassumption].
  - discriminate H.
Qed.

(** ** Lines of the dataset *)

Lemma In_firstn {A} n (xs : list A) x : In x (firstn n xs) -> In x xs.
Proof.
  intro H. rewrite <- (firstn_skipn n xs). apply in_or_app. left. exact H.
Qed.

Lemma In_skipn {A} n (xs : list A) x : In x (skipn n xs) -> In x xs.
Proof.
  intro H. rewrite <- (firstn_skipn n xs). apply in_or_app. right. exact H.
Qed.

Lemma py_slice_incl {A} (xs : list A) start stop x :
  In x (py_slice xs start stop) -> In x xs.
Proof.
  unfold py_slice. intro H.
  apply In_firstn in H. eapply In_skipn. exact H.
Qed.

Lemma split_rows_incl {A} (df : list A) k chunks c x :
  split_rows df k = Ok chunks -> In c chunks -> In x c -> In x df.
Proof.
  unfold split_rows. destruct (k =? 0); [discriminate |].
  intro H. injection H as <-. intros Hc Hx.
  apply in_map_iff in Hc. destruct Hc as (i & <- & _).
  unfold chunk in Hx. eapply py_slice_incl. exact Hx.
Qed.

(** Every row of the frame is a flattened item of a generated
    transaction. *)
Lemma generate_rows_lines cfg fuel self (P : line -> Prop) :
  (forall g t g', generate_transaction fuel self g = Ok (t, g') ->
                  Forall P (flatten_transaction t)) ->
  forall g df g', generate_rows cfg fuel self g = Ok (df, g') -> Forall P df.
Proof.
  intros Ht g df g' H. unfold generate_rows in H.
  eapply (foldM_invariant _ (Forall P)); [| constructor | exact H].
  intros acc x g0 acc' g0' Hacc Hf. gen_step Hf. gen_ret Hf.
  apply Forall_app. split; [exact Hacc | eapply Ht; eassumption].
Qed.

(** Every row of every file written is a row of the frame. *)
Lemma generate_dataset_lines cfg fuel self (P : line -> Prop) :
  (forall g t g', generate_transaction fuel self g = Ok (t, g') ->
                  Forall P (flatten_transaction t)) ->
  forall g files g', generate_dataset cfg fuel self g = Ok (files, g') ->
  forall name rows l, In (name, rows) files -> In l rows -> P l.
Proof.
  intros Ht g files g' H name rows l Hfile Hl.
  unfold generate_dataset in H. gen_step H.
  destruct (split_rows v (FILES_TO_SPLIT cfg)) as [chunks | e] eqn:Hsplit;
    [| discriminate].
  gen_ret H.
  apply in_combine_r in Hfile.
  pose proof (generate_rows_lines cfg fuel self P Ht _ _ _ Hstep) as Hall.
  rewrite Forall_forall in Hall. apply Hall.
  eapply split_rows_incl; eassumption.
Qed.

(** ** Quantities *)

Ltac gen_steps H := repeat gen_step H; gen_ret H.

(** Case analysis on the branches taken and the supports of the draws. *)
Ltac gen_branches :=
  repeat match goal with
         | H : (if ?c then _ else _) _ = Ok _ |- _ => destruct c
         | H : ret _ _ = Ok _ |- _ => gen_ret H
         | H : Random.randint _ _ _ = Ok _ |- _ => apply randint_range in H
         end.

Lemma generate_item_quantity self g it g' :
  generate_item self g = Ok (it, g') -> 1 <= i_quantity it <= 100.
Proof.
  unfold generate_item. intro H. gen_steps H. gen_branches; simpl; lia.
Qed.

Lemma generate_transaction_items fuel self g t g' :
  generate_transaction fuel self g = Ok (t, g') ->
  Forall (fun it => 1 <= i_quantity it <= 100) (t_products t).
Proof.
  unfold generate_transaction. intro H. gen_steps H. simpl.
  eapply mapM_Forall; [| eassumption].
  intros x ga y gb Hy. eapply generate_item_quantity. exact Hy.
Qed.

Lemma flatten_quantities (P : Z -> Prop) t :
  Forall (fun it => P (i_quantity it)) (t_products t) ->
  Forall (fun l => P (quantity l)) (flatten_transaction t).
Proof.
  unfold flatten_transaction. intro H. apply Forall_map.
  eapply Forall_impl; [| exact H]. intros it Hit. exact Hit.
Qed.

(** C10: every basket item of a generated transaction, every line it is
    flattened into, and every line of every file written by
    [generate_dataset] has a quantity between 1 and 100: never zero or
    negative, never above 100. *)
Theorem quantity_between_1_and_100 :
  (forall fuel self g t g',
      generate_transaction fuel self g = Ok (t, g') ->
      Forall (fun it => 1 <= i_quantity it <= 100) (t_products t)
      /\ Forall (fun l => 1 <= quantity l <= 100) (flatten_transaction t))
  /\ (forall cfg fuel self g files g',
         generate_dataset cfg fuel self g = Ok (files, g') ->
         forall name rows l,
           In (name, rows) files -> In l rows -> 1 <= quantity l <= 100).
Proof.
  split.
  - intros fuel self g t g' H.
    pose proof (generate_transaction_items _ _ _ _ _ H) as Hitems.
    split; [exact Hitems |].
    apply (flatten_quantities (fun q => 1 <= q <= 100)). exact Hitems.
  - intros cfg fuel self g files g' H.
    eapply (generate_dataset_lines cfg fuel self
              (fun l => 1 <= quantity l <= 100)); [| exact H].
    intros g0 t g0' Ht.
    apply (flatten_quantities (fun q => 1 <= q <= 100)).
    eapply generate_transaction_items. exact Ht.
Qed.

Lemma quantity_between_1_and_100_witness :
  (exists t g',
      generate_transaction 20 sample_generator sample_rng = Ok (t, g')
      /\ t_products t <> []
      /\ Forall (fun it => 1 <= i_quantity it <= 100) (t_products t)
      /\ Forall (fun l => 1 <= quantity l <= 100) (flatten_transaction t))
  /\ (exists files g',
         generate_dataset sample_config 20 sample_generator sample_rng
         = Ok (files, g')
         /\ files <> []
         /\ forall name rows l,
             In (name, rows) files -> In l rows -> 1 <= quantity l <= 100).
Proof.
  split.
  - destruct (generate_transaction 20 sample_generator sample_rng)
      as [[t g'] | e] eqn:H.
    + exists t, g'. split; [reflexivity | split].
      * vm_compute in H. injection H as <- _. discriminate.
      * exact (proj1 quantity_between_1_and_100 _ _ _ _ _ H).
    + vm_compute in H. discriminate H.
  - destruct (generate_dataset sample_config 20 sample_generator sample_rng)
      as [[files g'] | e] eqn:H.
    + exists files, g'. split; [reflexivity | split].
      * intro Hnil. subst files. vm_compute in H. discriminate H.
      * exact (proj2 quantity_between_1_and_100 _ _ _ _ _ _ H).
    + vm_compute in H. discriminate H.
Defined.

(** ** Discounts *)

Lemma discount_rate_cases d :
  In d DISCOUNT_RATES -> d = 0.05%float \/ d = 0.10%float \/ d = 0.15%float.
Proof.
  unfold DISCOUNT_RATES. simpl.
  intros [H | [H | [H | []]]]; subst; auto.
Qed.

(** C7: the discount of a generated transaction is [0] or one of 0.05, 0.10
    and 0.15, and every line the transaction is flattened into carries the
    discount of the transaction. *)
Theorem discount_of_transaction_and_lines fuel self g t g' :
  generate_transaction fuel self g = Ok (t, g') ->
  (t_discount_applied t = PyInt 0
   \/ t_discount_applied t = PyFloat 0.05
   \/ t_discount_applied t = PyFloat 0.10
   \/ t_discount_applied t = PyFloat 0.15)
  /\ Forall (fun l => discount_applied l = t_discount_applied t)
            (flatten_transaction t).
Proof.
  intro H. split.
  - unfold generate_transaction in H. gen_steps H. simpl.
    match goal with
    | Hd : (if ?c then _ else _) _ = Ok (?d, _) |- context [?d] =>
        destruct c; [gen_steps Hd | gen_ret Hd; left; reflexivity]
    end.
    match goal with
    | Hc : Random.choice DISCOUNT_RATES _ = Ok _ |- _ =>
        apply choice_In, discount_rate_cases in Hc;
        destruct Hc as [-> | [-> | ->]]; auto
    end.
  - unfold flatten_transaction. apply Forall_map.
    apply Forall_forall. intros it _. reflexivity.
Qed.

Lemma discount_of_transaction_and_lines_witness :
  exists t g',
    generate_transaction 20 sample_generator sample_rng = Ok (t, g')
    /\ flatten_transaction t <> []
    /\ Forall (fun l => discount_applied l = t_discount_applied t)
              (flatten_transaction t).
Proof.
  destruct (generate_transaction 20 sample_generator sample_rng)
    as [[t g'] | e] eqn:H.
  - exists t, g'. split; [reflexivity | split].
    + vm_compute in H. injection H as <- _. discriminate.
    + exact (proj2 (discount_of_transaction_and_lines _ _ _ _ _ H)).
  - vm_compute in H. discriminate H.
Defined.

(** ** The total price of a line *)

(** C1: a flattened line stores the quantity of its item, the base price of
    the product as unit price, the discount of the transaction, and as total
    price [round(quantity * unit_price * (1 - discount_applied), 2)]; so on
    every line of every file written by [generate_dataset] the total price is
    the value recomputed from the three other stored fields. *)
Theorem total_price_is_recomputed :
  (forall t item,
      let l := flatten_item t item in
      quantity l = i_quantity item
      /\ unit_price l = p_base_price (i_product item)
      /\ discount_applied l = t_discount_applied t
      /\ total_price l = recomputed_total l)
  /\ (forall cfg fuel self g files g',
         generate_dataset cfg fuel self g = Ok (files, g') ->
         forall name rows l,
           In (name, rows) files -> In l rows ->
           total_price l = recomputed_total l).
Proof.
  split.
  - intros t item. cbv zeta. repeat split; reflexivity.
  - intros cfg fuel self g files g' H.
    eapply (generate_dataset_lines cfg fuel self
              (fun l => total_price l = recomputed_total l)); [| exact H].
    intros ga t gb _. unfold flatten_transaction.
    apply Forall_map. apply Forall_forall. intros it _. reflexivity.
Qed.

Lemma total_price_is_recomputed_witness :
  exists files g',
    generate_dataset sample_config 20 sample_generator sample_rng
    = Ok (files, g')
    /\ files <> []
    /\ forall name rows l,
        In (name, rows) files -> In l rows ->
        total_price l = recomputed_total l.
Proof.
  destruct (generate_dataset sample_config 20 sample_generator sample_rng)
    as [[files g'] | e] eqn:H.
  - exists files, g'. split; [reflexivity | split].
    + intro Hnil. subst files. vm_compute in H. discriminate H.
    + exact (proj2 total_price_is_recomputed _ _ _ _ _ _ H).
  - vm_compute in H. discriminate H.
Defined.

(** ** The partitioner *)

Section Slices.
Context {A : Type}.
Implicit Types (xs df : list A).

Lemma py_slice_inner xs a b :
  0 <= a -> a <= b -> b <= Z.of_nat (List.length xs) ->
  py_slice xs a (Some b)
  = firstn (Z.to_nat (b - a)) (skipn (Z.to_nat a) xs).
Proof.
  intros Ha Hab Hb. unfold py_slice, clip_index.
  destruct (a <? 0) eqn:Ea; [apply Z.ltb_lt in Ea; lia |].
  destruct (b <? 0) eqn:Eb; [apply Z.ltb_lt in Eb; lia |].
  rewrite !Z.min_l by lia. reflexivity.
Qed.

Lemma py_slice_tail xs a :
  0 <= a -> a <= Z.of_nat (List.length xs) ->
  py_slice xs a None = skipn (Z.to_nat a) xs.
Proof.
  intros Ha Hb. unfold py_slice, clip_index.
  destruct (a <? 0) eqn:Ea; [apply Z.ltb_lt in Ea; lia |].
  rewrite Z.min_l by lia. apply firstn_all2.
  rewrite length_skipn. lia.
Qed.

(** Consecutive blocks of [r] rows, then the rest, give the list back. *)
Lemma concat_blocks xs (r m : nat) :
  List.concat (map (fun i => firstn r (skipn (i * r)%nat xs)) (seq 0 m))
  ++ skipn (m * r)%nat xs = xs.
Proof.
  induction m as [| m IH].
  - reflexivity.
  - rewrite seq_S, map_app, concat_app. simpl.
    rewrite app_nil_r, <- app_assoc.
    rewrite <- (skipn_skipn r (m * r) xs), firstn_skipn. exact IH.
Qed.

(** The chunks, position by position on natural numbers. *)
Lemma split_rows_blocks df k :
  1 <= k ->
  let r := Z.to_nat (Z.of_nat (List.length df) / k) in
  let m := Z.to_nat (k - 1) in
  split_rows df k
  = Ok (map (fun i => firstn r (skipn (i * r)%nat df)) (seq 0 m)
        ++ [skipn (m * r)%nat df]).
Proof.
  intros Hk r m. unfold split_rows.
  destruct (k =? 0) eqn:Ek; [apply Z.eqb_eq in Ek; lia |].
  f_equal. unfold range.
  replace (Z.to_nat k) with (S m) by lia.
  set (n := Z.of_nat (List.length df)) in *.
  set (q := n / k) in *.
  assert (Hq : 0 <= q) by (apply Z.div_pos; lia).
  assert (Hle : k * q <= n) by (apply Z.mul_div_le; lia).
  assert (Hm : Z.of_nat m = k - 1) by lia.
  rewrite seq_S, !map_app. simpl. f_equal.
  - rewrite map_map. apply map_ext_in. intros i Hi.
    apply in_seq in Hi. unfold chunk.
    assert (Hi' : Z.of_nat i + 1 <= k - 1) by lia.
    assert (Hiq : (Z.of_nat i + 1) * q <= (k - 1) * q)
      by (apply Z.mul_le_mono_nonneg_r; lia).
    replace (Z.of_nat i <? k - 1) with true by (symmetry; apply Z.ltb_lt; lia).
    rewrite py_slice_inner by nia.
    f_equal; [f_equal; lia |].
    f_equal. subst r. rewrite Z2Nat.inj_mul, Nat2Z.id by lia. reflexivity.
  - f_equal. unfold chunk.
    replace (Z.of_nat m <? k - 1) with false
      by (symmetry; apply Z.ltb_ge; lia).
    rewrite py_slice_tail by nia.
    f_equal. subst r. rewrite Hm.
    rewrite <- Hm at 1. rewrite Z2Nat.inj_mul, Nat2Z.id by lia. reflexivity.
Qed.
End Slices.

(** C2: for [k >= 1] the partitioner produces exactly [k] chunks; each of the
    first [k - 1] has [n / k] rows (floor division), the last has the
    remaining [n - (k - 1) * (n / k)] rows; the chunks concatenated in order
    are the table, and their sizes add up to [n]. *)
Theorem split_rows_partition {A : Type} (df : list A) (k : Z) :
  1 <= k ->
  let n := Z.of_nat (List.length df) in
  exists chunks,
    split_rows df k = Ok chunks
    /\ Z.of_nat (List.length chunks) = k
    /\ (forall i, 0 <= i < k - 1 ->
          exists c, nth_error chunks (Z.to_nat i) = Some c
                    /\ Z.of_nat (List.length c) = n / k)
    /\ (exists c, nth_error chunks (Z.to_nat (k - 1)) = Some c
                  /\ Z.of_nat (List.length c) = n - (k - 1) * (n / k))
    /\ List.concat chunks = df
    /\ Z.of_nat (list_sum (map (@List.length A) chunks)) = n.
Proof.
  intros Hk n. eexists. split; [apply split_rows_blocks; exact Hk |].
  set (r := Z.to_nat (Z.of_nat (List.length df) / k)).
  set (m := Z.to_nat (k - 1)).
  assert (Hq : 0 <= n / k) by (apply Z.div_pos; lia).
  assert (Hle : k * (n / k) <= n) by (apply Z.mul_div_le; lia).
  assert (Hr : Z.of_nat r = n / k) by (subst r n; lia).
  assert (Hm : Z.of_nat m = k - 1) by (subst m; lia).
  assert (Hlen : List.length (map (fun i => firstn r (skipn (i * r)%nat df))
                                  (seq 0 m)) = m)
    by (rewrite length_map, length_seq; reflexivity).
  assert (Hcat : List.concat (map (fun i => firstn r (skipn (i * r)%nat df)) (seq 0 m)
                         ++ [skipn (m * r)%nat df]) = df).
  { rewrite concat_app. simpl. rewrite app_nil_r. apply concat_blocks. }
  repeat split.
  - rewrite length_app, Hlen. simpl. lia.
  - intros i Hi. exists (firstn r (skipn (Z.to_nat i * r)%nat df)). split.
    + rewrite nth_error_app1 by (rewrite Hlen; lia).
      rewrite nth_error_map, nth_error_seq.
      destruct (Nat.ltb_spec (Z.to_nat i) m); [reflexivity | lia].
    + rewrite firstn_length_le; [exact Hr |].
      rewrite length_skipn. fold n in Hr. nia.
  - exists (skipn (m * r)%nat df). split.
    + rewrite nth_error_app2 by (rewrite Hlen; lia).
      rewrite Hlen. fold m. rewrite Nat.sub_diag. reflexivity.
    + rewrite length_skipn. nia.
  - exact Hcat.
  - rewrite <- length_concat, Hcat. reflexivity.
Qed.

Lemma split_rows_partition_witness :
  exists chunks,
    split_rows [10; 11; 12; 13; 14; 15; 16; 17; 18; 19; 20] 3 = Ok chunks
    /\ Z.of_nat (List.length chunks) = 3
    /\ (forall i, 0 <= i < 3 - 1 ->
          exists c, nth_error chunks (Z.to_nat i) = Some c
                    /\ Z.of_nat (List.length c) = 11 / 3)
    /\ (exists c, nth_error chunks (Z.to_nat (3 - 1)) = Some c
                  /\ Z.of_nat (List.length c) = 11 - (3 - 1) * (11 / 3))
    /\ List.concat chunks = [10; 11; 12; 13; 14; 15; 16; 17; 18; 19; 20]
    /\ Z.of_nat (list_sum (map (@List.length Z) chunks)) = 11.
Proof.
  apply (split_rows_partition [10; 11; 12; 13; 14; 15; 16; 17; 18; 19; 20] 3).
  lia.
Defined.

(** ** Binary64 rounding

    The conversion of an int to a float and the product of floats, read off
    the specification of binary64 the primitive operations satisfy. *)

Lemma digits2_pos_bounds p :
  2 ^ (Z.pos (digits2_pos p) - 1) <= Z.pos p < 2 ^ Z.pos (digits2_pos p).
Proof.
  induction p as [p IH | p IH |]; cbn [digits2_pos].
  - rewrite Pos2Z.inj_succ.
    replace (Z.succ (Z.pos (digits2_pos p)) - 1) with (Z.succ (Z.pos (digits2_pos p) - 1)) by lia.
    rewrite !Z.pow_succ_r by lia. lia.
  - rewrite Pos2Z.inj_succ.
    replace (Z.succ (Z.pos (digits2_pos p)) - 1) with (Z.succ (Z.pos (digits2_pos p) - 1)) by lia.
    rewrite !Z.pow_succ_r by lia. lia.
  - simpl. lia.
Qed.

Lemma Zdigits2_unique x k :
  2 ^ (k - 1) <= x < 2 ^ k -> 0 < x -> Zdigits2 x = k.
Proof.
  intros Hx Hpos. destruct x as [| p | p]; try lia. cbn [Zdigits2].
  pose proof (digits2_pos_bounds p) as Hd.
  set (d := Z.pos (digits2_pos p)) in *.
  assert (0 < d) by (unfold d; lia).
  assert (0 < k).
  { destruct (Z.ltb_spec 0 k); [assumption |].
    rewrite (Z.pow_neg_r 2 (k - 1)) in Hx by lia.
    destruct (Z.eq_dec k 0) as [-> |]; [simpl in Hx; lia |].
    rewrite (Z.pow_neg_r 2 k) in Hx by lia. lia. }
  destruct (Z.lt_trichotomy d k) as [Hlt | [Heq | Hgt]]; [| assumption |].
  - assert (2 ^ d <= 2 ^ (k - 1)) by (apply Z.pow_le_mono_r; lia). lia.
  - assert (2 ^ k <= 2 ^ (d - 1)) by (apply Z.pow_le_mono_r; lia). lia.
Qed.

Lemma Zdigits2_bounds x :
  0 < x -> 2 ^ (Zdigits2 x - 1) <= x < 2 ^ Zdigits2 x /\ 0 < Zdigits2 x.
Proof.
  intro H. destruct x as [| p | p]; try lia. cbn [Zdigits2].
  split; [apply digits2_pos_bounds | lia].
Qed.

Lemma iter_xO m d : Z.pos (Pos.iter xO m d) = Z.pos m * 2 ^ Z.pos d.
Proof.
  induction d as [| d IH] using Pos.peano_ind.
  - simpl. lia.
  - rewrite Pos.iter_succ, Pos2Z.inj_succ, Z.pow_succ_r by lia.
    rewrite Pos2Z.inj_xO, IH. lia.
Qed.

Lemma shr_1_m mrs : 0 <= shr_m mrs -> shr_m (shr_1 mrs) = shr_m mrs / 2.
Proof.
  destruct mrs as [m r s]. cbn [shr_m shr_1]. intro H.
  destruct m as [| [p | p |] | p]; cbn [shr_m]; try lia; try reflexivity.
  - rewrite Pos2Z.inj_xI. apply Z.div_unique with 1; lia.
  - rewrite Pos2Z.inj_xO. apply Z.div_unique with 0; lia.
Qed.

Lemma pow2_xI p : 2 ^ Z.pos p~1 = 2 * (2 ^ Z.pos p * 2 ^ Z.pos p).
Proof.
  rewrite (Pos2Z.inj_xI p).
  replace (2 * Z.pos p + 1) with (Z.succ (Z.pos p + Z.pos p)) by lia.
  rewrite Z.pow_succ_r by lia. rewrite Z.pow_add_r by lia. reflexivity.
Qed.

Lemma pow2_xO p : 2 ^ Z.pos p~0 = 2 ^ Z.pos p * 2 ^ Z.pos p.
Proof.
  rewrite (Pos2Z.inj_xO p).
  replace (2 * Z.pos p) with (Z.pos p + Z.pos p) by lia.
  rewrite Z.pow_add_r by lia. reflexivity.
Qed.

Lemma iter_shr_1_m p :
  forall mrs, 0 <= shr_m mrs ->
    shr_m (iter_pos shr_1 p mrs) = shr_m mrs / 2 ^ Z.pos p.
Proof.
  assert (Hpw : forall q, 0 < 2 ^ Z.pos q) by (intro q; apply Z.pow_pos_nonneg; lia).
  induction p as [p IH | p IH |]; intros mrs H; cbn [iter_pos].
  - assert (H1 : 0 <= shr_m (shr_1 mrs))
      by (rewrite shr_1_m by assumption; apply Z.div_pos; lia).
    assert (H2 : 0 <= shr_m (iter_pos shr_1 p (shr_1 mrs)))
      by (rewrite IH by assumption; apply Z.div_pos; [assumption | apply Hpw]).
    rewrite (IH _ H2), (IH _ H1), (shr_1_m _ H).
    rewrite !Z.div_div by (try apply Hpw; lia).
    rewrite pow2_xI. reflexivity.
  - assert (H2 : 0 <= shr_m (iter_pos shr_1 p mrs))
      by (rewrite IH by assumption; apply Z.div_pos; [assumption | apply Hpw]).
    rewrite (IH _ H2), (IH _ H).
    rewrite !Z.div_div by (try apply Hpw; lia).
    rewrite pow2_xO. reflexivity.
  - rewrite shr_1_m by assumption. reflexivity.
Qed.

(** [shr_fexp] on a mantissa that fits: nothing is shifted out. *)
Lemma shr_fexp_fits mx ex :
  0 < mx -> Zdigits2 mx <= prec -> emin <= ex ->
  shr_fexp prec emax mx ex loc_Exact = (Build_shr_record mx false false, ex).
Proof.
  intros Hm Hd He. unfold shr_fexp, fexp, shr.
  cbn [shr_record_of_loc].
  destruct (Z.max (Zdigits2 mx + ex - prec) emin - ex) eqn:E; try reflexivity.
  exfalso. lia.
Qed.

(** [shr_fexp] on a longer mantissa: the low digits are shifted out. *)
Lemma shr_fexp_shifts mx ex :
  0 < mx -> prec < Zdigits2 mx -> emin <= Zdigits2 mx + ex - prec ->
  exists mrs,
    shr_fexp prec emax mx ex loc_Exact = (mrs, ex + (Zdigits2 mx - prec))
    /\ shr_m mrs = mx / 2 ^ (Zdigits2 mx - prec).
Proof.
  intros Hm Hd He. unfold shr_fexp, fexp, shr.
  cbn [shr_record_of_loc].
  replace (Z.max (Zdigits2 mx + ex - prec) emin - ex) with (Zdigits2 mx - prec) by lia.
  destruct (Zdigits2 mx - prec) as [| n | n] eqn:E; try lia.
  eexists. split; [reflexivity |].
  rewrite iter_shr_1_m by (cbn; lia). reflexivity.
Qed.

Lemma round_nearest_even_bounds mrs :
  shr_m mrs <= round_nearest_even (shr_m mrs) (loc_of_shr_record mrs)
            <= shr_m mrs + 1.
Proof.
  destruct mrs as [m [|] [|]]; cbn [shr_m loc_of_shr_record round_nearest_even];
    try destruct (Z.even m); lia.
Qed.

Lemma prec_value : prec = 53.
Proof. reflexivity. Qed.

Lemma emax_value : emax = 1024.
Proof. reflexivity. Qed.

Lemma emin_value : emin = -1074.
Proof. reflexivity. Qed.

(** Rounding a mantissa that fits leaves it as it is. *)
Lemma binary_round_aux_fits sx mx ex :
  0 < mx -> Zdigits2 mx <= prec -> emin <= ex ->
  binary_round_aux prec emax sx mx ex loc_Exact
  = if ex <=? emax - prec then S754_finite sx (Z.to_pos mx) ex
    else S754_infinity sx.
Proof.
  intros Hm Hd He. unfold binary_round_aux.
  rewrite (shr_fexp_fits mx ex Hm Hd He).
  cbn [shr_m loc_of_shr_record round_nearest_even].
  rewrite (shr_fexp_fits mx ex Hm Hd He). cbn [shr_m].
  destruct mx; try lia. reflexivity.
Qed.

(** Rounding a longer mantissa: the result has 53 digits and is the
    quotient by the power of two shifted out, or the next integer. *)
Lemma binary_round_aux_rounds sx mx ex :
  0 < mx -> prec < Zdigits2 mx -> emin <= Zdigits2 mx + ex - prec ->
  exists m e,
    binary_round_aux prec emax sx mx ex loc_Exact
    = (if e <=? emax - prec then S754_finite sx m e else S754_infinity sx)
    /\ 2 ^ 52 <= Z.pos m < 2 ^ 53
    /\ 0 <= e - ex - (Zdigits2 mx - prec) <= 1
    /\ mx / 2 ^ (Zdigits2 mx - prec)
       <= Z.pos m * 2 ^ (e - ex - (Zdigits2 mx - prec))
       <= mx / 2 ^ (Zdigits2 mx - prec) + 1.
Proof.
  intros Hm Hd He.
  destruct (shr_fexp_shifts mx ex Hm Hd He) as (mrs & E & Hq).
  destruct (Zdigits2_bounds mx Hm) as [Hmx _].
  set (n := Zdigits2 mx - prec) in *.
  assert (Hn53 : n = Zdigits2 mx - 53) by reflexivity.
  assert (Hd' : 53 < Zdigits2 mx) by exact Hd.
  assert (He' : -1074 <= Zdigits2 mx + ex - 53) by exact He.
  clearbody n. clear Hd He.
  assert (Hn : 0 < n) by lia.
  assert (Hpn : 0 < 2 ^ n) by (apply Z.pow_pos_nonneg; lia).
  set (q := mx / 2 ^ n) in *.
  assert (Hqb : 2 ^ 52 <= q < 2 ^ 53).
  { replace (Zdigits2 mx - 1) with (52 + n) in Hmx by lia.
    replace (Zdigits2 mx) with (53 + n) in Hmx by lia.
    rewrite !Z.pow_add_r in Hmx by lia.
    unfold q. split.
    - apply Z.div_le_lower_bound; lia.
    - apply Z.div_lt_upper_bound; lia. }
  pose proof (round_nearest_even_bounds mrs) as Hr.
  unfold binary_round_aux. rewrite E.
  set (r := round_nearest_even (shr_m mrs) (loc_of_shr_record mrs)) in *.
  rewrite Hq in Hr.
  change (2 ^ 52) with 4503599627370496 in *.
  change (2 ^ 53) with 9007199254740992 in *.
  destruct (Z.ltb_spec r 9007199254740992) as [Hlt | Hge].
  - assert (Hdr : Zdigits2 r = 53)
      by (apply Zdigits2_unique;
          [change (2 ^ (53 - 1)) with 4503599627370496;
           change (2 ^ 53) with 9007199254740992; lia | lia]).
    rewrite (shr_fexp_fits r (ex + n));
      [| lia | rewrite Hdr, prec_value; lia | rewrite emin_value; lia].
    cbn [shr_m]. destruct r as [| m |] eqn:Er; try lia.
    exists m, (ex + n). split; [reflexivity |].
    replace (ex + n - ex - n) with 0 by lia. rewrite Z.pow_0_r. lia.
  - assert (Er : r = 9007199254740992) by lia.
    assert (Hdr : Zdigits2 r = 54) by (rewrite Er; reflexivity).
    destruct (shr_fexp_shifts r (ex + n)) as (mrs2 & E2 & Hq2);
      [lia | rewrite Hdr, prec_value; lia
       | rewrite Hdr, emin_value, prec_value; lia |].
    rewrite E2, Hq2, Hdr, Er.
    change (9007199254740992 / 2 ^ (54 - prec)) with (Z.pos 4503599627370496).
    cbv beta iota.
    exists 4503599627370496%positive, (ex + n + (54 - prec)). split; [reflexivity |].
    replace (ex + n + (54 - prec) - ex - n) with 1 by (rewrite prec_value; lia).
    change (2 ^ 1) with 2. lia.
Qed.

Lemma valid_binary_normal s m e :
  2 ^ 52 <= Z.pos m < 2 ^ 53 -> emin <= e <= emax - prec ->
  valid_binary (S754_finite s m e) = true.
Proof.
  intros Hm He. unfold SpecFloat.valid_binary, bounded, canonical_mantissa, fexp.
  assert (Hd : Zdigits2 (Z.pos m) = 53)
    by (apply Zdigits2_unique; [exact Hm | lia]).
  cbn [Zdigits2] in Hd. rewrite Hd.
  rewrite emin_value, emax_value, prec_value in *.
  apply andb_true_intro. split; [apply Z.eqb_eq | apply Z.leb_le]; lia.
Qed.

(** [float(M)] for a positive int [M]: a mantissa of 53 digits; the value
    is [M] itself below [2^53] and at most [2 * M] beyond. *)
Lemma binary_normalize_positive M :
  0 < M ->
  exists m e,
    binary_normalize prec emax M 0 false
    = (if e <=? emax - prec then S754_finite false m e
       else S754_infinity false)
    /\ 2 ^ 52 <= Z.pos m < 2 ^ 53
    /\ -52 <= e
    /\ (M < 2 ^ 53 -> e <= 0 /\ Z.pos m = M * 2 ^ (- e))
    /\ (2 ^ 52 <= M -> 0 <= e /\ Z.pos m * 2 ^ e <= 2 * M).
Proof.
  intro HM. destruct M as [| p | p]; try lia.
  destruct (Zdigits2_bounds (Z.pos p) HM) as [Hb Hdpos].
  unfold binary_normalize, binary_round, shl_align, fexp.
  change (Z.pos (digits2_pos p)) with (Zdigits2 (Z.pos p)).
  set (d := Zdigits2 (Z.pos p)) in *. clearbody d.
  assert (Hmono : forall a b, 0 <= a -> 2 ^ a <= Z.pos p < 2 ^ b -> a < b).
  { intros a b Ha [H1 H2]. apply (Z.pow_lt_mono_r_iff 2); lia || idtac.
    destruct (Z.ltb_spec b 0); [rewrite Z.pow_neg_r in H2 by lia; lia | lia]. }
  replace (Z.max (d + 0 - prec) emin - 0) with (d - 53)
    by (rewrite emin_value, prec_value; lia).
  replace (Z.max (d + 0 - prec) emin) with (d - 53)
    by (rewrite emin_value, prec_value; lia).
  destruct (d - 53) as [| k | k] eqn:Ek.
  - (* 53 digits *)
    assert (Hd : d = 53) by lia. subst d.
    rewrite binary_round_aux_fits;
      [| lia | rewrite (Zdigits2_unique (Z.pos p) 53 Hb HM), prec_value; lia
       | rewrite emin_value; lia].
    exists p, 0. split; [reflexivity |].
    change (53 - 1) with 52 in Hb.
    repeat split; lia.
  - (* more than 53 digits *)
    assert (Hd53 : Zdigits2 (Z.pos p) = d)
      by (apply Zdigits2_unique; [exact Hb | lia]).
    destruct (binary_round_aux_rounds false (Z.pos p) 0)
      as (m & e & E & Hm & He & Hval);
      [lia | rewrite Hd53, prec_value; lia
       | rewrite Hd53, emin_value, prec_value; lia |].
    rewrite Hd53, prec_value in He, Hval.
    exists m, e. split; [exact E |].
    split; [exact Hm |]. split; [lia |]. split.
    + intro Hlt. exfalso.
      assert (d - 1 < 53) by (apply Hmono; lia). lia.
    + intros _. split; [lia |].
      set (n := d - 53) in *.
      assert (Hpn : 0 < 2 ^ n) by (apply Z.pow_pos_nonneg; lia).
      assert (Hnle : 2 ^ n <= Z.pos p).
      { apply Z.le_trans with (2 ^ (d - 1)); [| lia].
        apply Z.pow_le_mono_r; lia. }
      replace e with ((e - 0 - n) + n) by lia.
      rewrite Z.pow_add_r by lia.
      pose proof (Z.mul_div_le (Z.pos p) (2 ^ n) Hpn) as Hdiv.
      rewrite Z.mul_assoc.
      apply Z.le_trans with ((Z.pos p / 2 ^ n + 1) * 2 ^ n).
      * apply Z.mul_le_mono_nonneg_r; lia.
      * lia.
  - (* fewer than 53 digits *)
    assert (Hk : Z.pos k = 53 - d) by lia.
    assert (Hz : Z.pos (Pos.iter xO p k) = Z.pos p * 2 ^ (53 - d))
      by (rewrite iter_xO, Hk; reflexivity).
    assert (Hpk : 0 < 2 ^ (53 - d)) by (apply Z.pow_pos_nonneg; lia).
    assert (Hzb : 2 ^ 52 <= Z.pos (Pos.iter xO p k) < 2 ^ 53).
    { assert (E52 : 2 ^ 52 = 2 ^ (d - 1) * 2 ^ (53 - d))
        by (rewrite <- Z.pow_add_r by lia; f_equal; lia).
      assert (E53 : 2 ^ 53 = 2 ^ d * 2 ^ (53 - d))
        by (rewrite <- Z.pow_add_r by lia; f_equal; lia).
      rewrite Hz, E52, E53. split.
      - apply Z.mul_le_mono_nonneg_r; lia.
      - apply Z.mul_lt_mono_pos_r; lia. }
    rewrite binary_round_aux_fits;
      [| lia
       | rewrite (Zdigits2_unique _ 53 Hzb), prec_value; lia
       | rewrite emin_value; lia].
    replace (Z.neg k) with (d - 53) by lia.
    exists (Pos.iter xO p k), (d - 53). split; [reflexivity |].
    split; [exact Hzb |]. split; [lia |]. split.
    + intros _. split; [lia |]. rewrite Hz. f_equal. f_equal. lia.
    + intro Hge. exfalso.
      assert (52 < d) by (apply Hmono; lia). lia.
Qed.

Lemma Prim2SF_fifth :
  Prim2SF 0.2 = S754_finite false 7205759403792794 (-55).
Proof. reflexivity. Qed.

(** The product of a float of 53 digits by [0.2]. *)
Lemma mul_fifth_shape m e :
  2 ^ 52 <= Z.pos m < 2 ^ 53 -> -52 <= e <= emax - prec ->
  exists m' e' n t,
    SF64mul (S754_finite false m e) (S754_finite false 7205759403792794 (-55))
    = S754_finite false m' e'
    /\ 2 ^ 52 <= Z.pos m' < 2 ^ 53
    /\ 52 <= n <= 53 /\ 0 <= t <= 1 /\ e' = e - 55 + n + t
    /\ Z.pos m * 7205759403792794 / 2 ^ n
       <= Z.pos m' * 2 ^ t
       <= Z.pos m * 7205759403792794 / 2 ^ n + 1.
Proof.
  intros Hm He. unfold SF64mul, SFmul. cbn [xorb].
  rewrite Pos2Z.inj_mul.
  set (P := Z.pos m * 7205759403792794).
  assert (HP : 2 ^ 104 <= P < 2 ^ 106).
  { unfold P. change (2 ^ 52) with 4503599627370496 in Hm.
    change (2 ^ 53) with 9007199254740992 in Hm.
    change (2 ^ 104) with 20282409603651670423947251286016.
    change (2 ^ 106) with 81129638414606681695789005144064. lia. }
  assert (HP0 : 0 < P) by (unfold P; lia).
  destruct (Zdigits2_bounds P HP0) as [Hb Hdpos].
  assert (Hd : 105 <= Zdigits2 P <= 106).
  { split.
    - assert (104 < Zdigits2 P); [| lia].
      apply (Z.pow_lt_mono_r_iff 2); lia.
    - assert (Zdigits2 P - 1 < 106); [| lia].
      apply (Z.pow_lt_mono_r_iff 2); lia. }
  rewrite emax_value, prec_value in He.
  destruct (binary_round_aux_rounds false P (e + -55))
    as (m' & e' & E & Hm' & Het & Hval);
    [exact HP0 | rewrite prec_value; lia
     | rewrite emin_value, prec_value; lia |].
  rewrite prec_value in Het, Hval.
  exists m', e', (Zdigits2 P - 53), (e' - (e + -55) - (Zdigits2 P - 53)).
  split.
  - rewrite E. rewrite emax_value, prec_value.
    destruct (Z.leb_spec e' (1024 - 53)); [reflexivity | lia].
  - repeat split; try lia; apply Hval.
Qed.

(** [int(M * 0.2)] for a positive [M], step by step: the conversion of [M],
    the product and the truncation. *)
Lemma high_demand_count_positive M :
  0 < M ->
  exists m e,
    2 ^ 52 <= Z.pos m < 2 ^ 53
    /\ -52 <= e
    /\ (M < 2 ^ 53 -> e <= 0 /\ Z.pos m = M * 2 ^ (- e))
    /\ (2 ^ 52 <= M -> 0 <= e /\ Z.pos m * 2 ^ e <= 2 * M)
    /\ (emax - prec < e -> high_demand_count_of M = None)
    /\ (e <= emax - prec ->
        exists m' n t,
          high_demand_count_of M
          = Some (if 0 <=? e - 55 + n + t
                  then Z.pos m' * 2 ^ (e - 55 + n + t)
                  else Z.pos m' / 2 ^ (- (e - 55 + n + t)))
          /\ 2 ^ 52 <= Z.pos m' < 2 ^ 53
          /\ 52 <= n <= 53 /\ 0 <= t <= 1
          /\ Z.pos m * 7205759403792794 / 2 ^ n
             <= Z.pos m' * 2 ^ t
             <= Z.pos m * 7205759403792794 / 2 ^ n + 1).
Proof.
  intro HM.
  destruct (binary_normalize_positive M HM) as (m & e & E & Hm & He & Hsmall & Hlarge).
  exists m, e. repeat (split; [assumption |]).
  unfold high_demand_count_of, float_of_long. rewrite E. split.
  - intro Hover. destruct (Z.leb_spec e (emax - prec)); [lia | reflexivity].
  - intro Hfin. destruct (Z.leb_spec e (emax - prec)); [| lia].
    destruct (mul_fifth_shape m e Hm (conj He Hfin))
      as (m' & e' & n & t & Emul & Hm' & Hn & Ht & -> & Hval).
    exists m', n, t. split; [| repeat split; try lia; apply Hval].
    unfold int_of_float.
    rewrite FloatAxioms.mul_spec, Prim2SF_SF2Prim, Prim2SF_fifth, Emul; [reflexivity |].
    apply valid_binary_normal; [exact Hm | rewrite emin_value; lia].
Qed.

(** Below [2^52], [int(M * 0.2)] is [M // 5]. *)
Lemma high_demand_count_exact M :
  0 <= M < 2 ^ 52 -> high_demand_count_of M = Some (M / 5).
Proof.
  intros [H0 HM]. destruct (Z.eq_dec M 0) as [-> | Hnz]; [reflexivity |].
  destruct (high_demand_count_positive M) as (m & e & Hm & He & Hsmall & _ & _ & Hfin);
    [lia |].
  change (2 ^ 52) with 4503599627370496 in *.
  change (2 ^ 53) with 9007199254740992 in *.
  destruct Hsmall as [He0 Em]; [lia |].
  destruct Hfin as (m' & n & t & Eh & Hm' & Hn & Ht & Hval);
    [rewrite emax_value, prec_value; lia |].
  rewrite Eh. f_equal.
  set (a := 2 ^ (- e)) in *.
  assert (Ha : 0 < a) by (apply Z.pow_pos_nonneg; lia).
  assert (Ha2 : 2 <= a).
  { destruct (Z.eq_dec a 1) as [E1 | ]; [| lia]. rewrite E1 in Em. lia. }
  assert (He1 : e <= -1).
  { destruct (Z.eq_dec e 0) as [-> | ]; [| lia]. unfold a in Ha2. simpl in Ha2. lia. }
  destruct (Z.leb_spec 0 (e - 55 + n + t)) as [Hpos | Hneg]; [lia |].
  set (s := - e + 55 - n) in *.
  assert (Hs : 3 <= s) by (unfold s; lia).
  replace (- (e - 55 + n + t)) with (s - t) by (unfold s; lia).
  set (N := 2 ^ n) in *. set (Sc := 2 ^ s).
  assert (HN : 0 < N) by (apply Z.pow_pos_nonneg; lia).
  assert (HS : 0 < Sc) by (apply Z.pow_pos_nonneg; lia).
  assert (HN53 : N <= 9007199254740992).
  { change 9007199254740992 with (2 ^ 53). apply Z.pow_le_mono_r; lia. }
  assert (HSN : Sc * N = a * 36028797018963968).
  { unfold Sc, N, a. change 36028797018963968 with (2 ^ 55).
    rewrite <- !Z.pow_add_r by lia. f_equal. unfold s. lia. }
  assert (Hpt : 0 < 2 ^ t) by (apply Z.pow_pos_nonneg; lia).
  assert (HSt : Sc = 2 ^ (s - t) * 2 ^ t).
  { unfold Sc. rewrite <- Z.pow_add_r by lia. f_equal. lia. }
  assert (Hpst : 0 < 2 ^ (s - t)) by (apply Z.pow_pos_nonneg; lia).
  (* the quotient the truncation takes *)
  rewrite <- (Z.div_mul_cancel_r (Z.pos m') (2 ^ (s - t)) (2 ^ t)) by lia.
  rewrite <- HSt.
  set (r := Z.pos m' * 2 ^ t) in *.
  set (q := M / 5).
  assert (Hq : 5 * q <= M < 5 * q + 5).
  { unfold q. pose proof (Z.mul_div_le M 5). pose proof (Z.mul_succ_div_gt M 5). lia. }
  set (X := Z.pos m) in *.
  set (Y := q * a).
  assert (HY : 5 * Y <= X) by (unfold Y; rewrite Em; nia).
  assert (HY' : X + a <= 5 * Y + 5 * a) by (unfold Y; rewrite Em; nia).
  set (P := X * 7205759403792794) in *.
  assert (Hlow : q * Sc <= P / N).
  { apply Z.div_le_lower_bound; [exact HN |].
    replace (N * (q * Sc)) with (q * (Sc * N)) by ring.
    rewrite HSN. replace (q * (a * 36028797018963968)) with (Y * 36028797018963968)
      by (unfold Y; ring).
    unfold P. lia. }
  assert (Hhigh : P / N < (q + 1) * Sc - 1).
  { apply Z.div_lt_upper_bound; [exact HN |].
    replace (N * ((q + 1) * Sc - 1)) with ((q + 1) * (Sc * N) - N) by ring.
    rewrite HSN.
    replace ((q + 1) * (a * 36028797018963968))
      with ((Y + a) * 36028797018963968) by (unfold Y; ring).
    unfold P. lia. }
  symmetry. apply Z.div_unique with (r - Sc * q); lia.
Qed.

(** From [2^52] on, [int(M * 0.2)], where it is defined, is positive and
    at most [M]. *)
Lemma high_demand_count_large M h :
  2 ^ 52 <= M -> high_demand_count_of M = Some h -> 1 <= h <= M.
Proof.
  intros HM Hh.
  destruct (high_demand_count_positive M)
    as (m & e & Hm & _ & _ & Hlarge & Hover & Hfin);
    [change (2 ^ 52) with 4503599627370496 in HM; lia |].
  destruct (Hlarge HM) as [He HW]. clear Hlarge.
  destruct (Z.le_gt_cases e (emax - prec)) as [Hle | Hgt];
    [| rewrite (Hover Hgt) in Hh; discriminate Hh].
  destruct (Hfin Hle) as (m' & n & t & Eh & Hm' & Hn & Ht & Hval).
  rewrite Eh in Hh.
  apply (f_equal (fun o => match o with Some x => x | None => 0 end)) in Hh.
  cbv beta iota in Hh. clear Eh.
  change (2 ^ 52) with 4503599627370496 in *.
  change (2 ^ 53) with 9007199254740992 in *.
  set (u := n - 52) in *.
  assert (Hu : 0 <= u <= 1) by (unfold u; lia).
  set (E2 := 2 ^ e) in *.
  assert (HE2 : 0 < E2) by (apply Z.pow_pos_nonneg; lia).
  set (U := 2 ^ u).
  assert (HU : 1 <= U <= 2).
  { unfold U. destruct (Z.eq_dec u 0) as [-> | ]; [simpl; lia |].
    replace u with 1 by lia. simpl. lia. }
  set (r := Z.pos m' * 2 ^ t) in *.
  set (P := Z.pos m * 7205759403792794) in *.
  assert (HN : 2 ^ n = 4503599627370496 * U).
  { unfold U, u. change 4503599627370496 with (2 ^ 52).
    rewrite <- Z.pow_add_r by lia. f_equal. lia. }
  assert (HQ : U * (P / 2 ^ n) <= 2 * Z.pos m).
  { assert (0 < 2 ^ n) by (apply Z.pow_pos_nonneg; lia).
    pose proof (Z.mul_div_le P (2 ^ n) H) as Hdiv.
    rewrite HN in Hdiv at 1. unfold P in Hdiv at 2.
    set (Q := P / 2 ^ n) in *.
    assert (4503599627370496 * (U * Q) <= 4503599627370496 * (2 * Z.pos m)); [| lia].
    replace (4503599627370496 * (U * Q)) with (4503599627370496 * U * Q) by ring.
    lia. }
  assert (HrU : r * U <= 2 * Z.pos m + 2).
  { apply Z.le_trans with ((P / 2 ^ n + 1) * U).
    - apply Z.mul_le_mono_nonneg_r; lia.
    - replace ((P / 2 ^ n + 1) * U) with (U * (P / 2 ^ n) + U) by ring. lia. }
  assert (HrUE : r * U * E2 <= 2 * (Z.pos m * E2) + 2 * E2).
  { replace (2 * (Z.pos m * E2) + 2 * E2) with ((2 * Z.pos m + 2) * E2) by ring.
    apply Z.mul_le_mono_nonneg_r; lia. }
  assert (HE2W : 4503599627370496 * E2 <= Z.pos m * E2)
    by (apply Z.mul_le_mono_nonneg_r; lia).
  assert (Hpt : 0 < 2 ^ t) by (apply Z.pow_pos_nonneg; lia).
  assert (Hr : 4503599627370496 <= r) by (unfold r; nia).
  destruct (Z.leb_spec 0 (e - 55 + n + t)) as [Hpos | Hneg].
  - (* an integer product *)
    assert (Ev : 8 * h = r * U * E2).
    { rewrite <- Hh. unfold r, U, E2, u.
      replace (Z.pos m' * 2 ^ t * 2 ^ (n - 52) * 2 ^ e)
        with (Z.pos m' * (2 ^ t * 2 ^ (n - 52) * 2 ^ e)) by ring.
      rewrite <- !Z.pow_add_r by lia.
      replace (t + (n - 52) + e) with (3 + (e - 55 + n + t)) by lia.
      rewrite (Z.pow_add_r 2 3 (e - 55 + n + t)) by lia.
      change (2 ^ 3) with 8. ring. }
    assert (0 < r * U * E2) by nia.
    split; [| lia].
    assert (Hp : 0 < 2 ^ (e - 55 + n + t)) by (apply Z.pow_pos_nonneg; lia).
    rewrite <- Hh. nia.
  - (* the truncation of a quotient *)
    set (k := - (e - 55 + n + t)) in *.
    assert (Hk : 1 <= k <= 3) by (unfold k; lia).
    assert (Hpk : 0 < 2 ^ k) by (apply Z.pow_pos_nonneg; lia).
    assert (Hpk8 : 2 ^ k <= 8).
    { change 8 with (2 ^ 3). apply Z.pow_le_mono_r; lia. }
    split.
    + rewrite <- Hh. apply Z.div_le_lower_bound; lia.
    + assert (Hdiv : 2 ^ k * h <= Z.pos m').
      { rewrite <- Hh. apply Z.mul_div_le. exact Hpk. }
      assert (Ev : 8 * Z.pos m' = r * U * E2 * 2 ^ k).
      { unfold r, U, E2, u, k.
        replace (Z.pos m' * 2 ^ t * 2 ^ (n - 52) * 2 ^ e * 2 ^ (- (e - 55 + n + t)))
          with (Z.pos m' * (2 ^ t * 2 ^ (n - 52) * 2 ^ e * 2 ^ (- (e - 55 + n + t))))
          by ring.
        rewrite <- !Z.pow_add_r by lia.
        replace (t + (n - 52) + e + - (e - 55 + n + t)) with 3 by lia.
        change (2 ^ 3) with 8. ring. }
      assert (8 * (2 ^ k * h) <= r * U * E2 * 2 ^ k) by lia.
      assert (8 * h <= r * U * E2) by nia.
      lia.
Qed.

(** [int(M * 0.2)], where it is defined: between 0 and [M], at least 1 from
    [M = 5] on, and [M // 5] below [2^52]. *)
Lemma high_demand_count_spec M h :
  0 <= M -> high_demand_count_of M = Some h ->
  0 <= h <= M /\ (5 <= M -> 1 <= h) /\ (M < 2 ^ 52 -> h = M / 5).
Proof.
  intros HM Hh.
  destruct (Z.lt_ge_cases M (2 ^ 52)) as [Hlt | Hge].
  - rewrite (high_demand_count_exact M (conj HM Hlt)) in Hh.
    injection Hh as <-.
    pose proof (Z.mul_div_le M 5). pose proof (Z.mul_succ_div_gt M 5).
    repeat split; try lia.
  - destruct (high_demand_count_large M h Hge Hh).
    repeat split; try lia.
Qed.

(** The sign of a rounded value is the sign it is given. *)
Lemma binary_round_sign m e :
  binary_round prec emax true m e = SFopp (binary_round prec emax false m e).
Proof.
  unfold binary_round, binary_round_aux.
  destruct (shl_align m e _) as [mz ez].
  destruct (shr_fexp prec emax (Z.pos mz) ez loc_Exact) as [mrs1 e1].
  destruct (shr_fexp prec emax _ e1 loc_Exact) as [mrs2 e2].
  destruct (shr_m mrs2); try reflexivity.
  destruct (e2 <=? emax - prec); reflexivity.
Qed.

Lemma binary_normalize_small M :
  0 < M < 2 ^ 63 ->
  exists m e, binary_normalize prec emax M 0 false = S754_finite false m e.
Proof.
  intros [H0 HM].
  destruct (binary_normalize_positive M H0) as (m & e & E & Hm & He & Hsmall & Hlarge).
  exists m, e. rewrite E.
  destruct (Z.leb_spec e (emax - prec)) as [| Hgt]; [reflexivity | exfalso].
  rewrite emax_value, prec_value in Hgt.
  change (2 ^ 52) with 4503599627370496 in *.
  change (2 ^ 53) with 9007199254740992 in *.
  change (2 ^ 63) with 9223372036854775808 in *.
  destruct (Z.lt_ge_cases M 4503599627370496) as [Hlt | Hge].
  - destruct Hsmall; lia.
  - destruct (Hlarge Hge) as [_ HW].
    assert (2 ^ 12 <= 2 ^ e) by (apply Z.pow_le_mono_r; lia).
    change (2 ^ 12) with 4096 in *. nia.
Qed.

(** Below [2^63] in magnitude the two conversions agree. *)
Lemma float_of_long_small z :
  - 2 ^ 63 < z < 2 ^ 63 -> float_of_long z = Some (float_of_int z).
Proof.
  intro Hz. unfold float_of_long, float_of_int.
  change (2 ^ 63) with 9223372036854775808 in Hz.
  assert (Hof : forall n, 0 <= n < 9223372036854775808 ->
            of_uint63 (of_Z n) = SF2Prim (binary_normalize prec emax n 0 false)).
  { intros n Hn. rewrite <- (SF2Prim_Prim2SF (of_uint63 (of_Z n))).
    rewrite of_uint63_spec, of_Z_spec.
    rewrite Z.mod_small by (change wB with 9223372036854775808; lia).
    reflexivity. }
  destruct z as [| p | p].
  - reflexivity.
  - destruct (binary_normalize_small (Z.pos p)) as (m & e & E);
      [change (2 ^ 63) with 9223372036854775808; lia |].
    rewrite E. cbv beta iota. rewrite <- E.
    change (Z.pos p <? 0) with false. cbv iota.
    rewrite Hof by lia. reflexivity.
  - destruct (binary_normalize_small (Z.pos p)) as (m & e & E);
      [change (2 ^ 63) with 9223372036854775808; lia |].
    change (binary_normalize prec emax (Z.neg p) 0 false)
      with (binary_round prec emax true p 0).
    rewrite binary_round_sign.
    change (binary_round prec emax false p 0)
      with (binary_normalize prec emax (Z.pos p) 0 false).
    rewrite E. cbn [SFopp negb]. cbv beta iota.
    change (Z.neg p <? 0) with true. cbv iota.
    change (- Z.neg p) with (Z.pos p).
    rewrite Hof by lia. rewrite E. reflexivity.
Qed.

(** ** High-demand products *)

Lemma In_range n i : 0 <= i < n -> In i (range n).
Proof.
  intro H. unfold range. apply in_map_iff. exists (Z.to_nat i).
  split; [lia | apply in_seq; lia].
Qed.

(** The float product [M * 0.2] truncates to [M // 5] on every catalog size
    up to the bound. *)
Lemma high_demand_count_floor M :
  0 <= M <= catalog_bound -> high_demand_count_of M = Some (M / 5).
Proof.
  intro HM. apply high_demand_count_exact.
  unfold catalog_bound in HM. change (2 ^ 52) with 4503599627370496. lia.
Qed.

(** [int(M * 0.2)] is defined for every size below [2^1023]. *)
Lemma high_demand_count_defined M :
  0 <= M < 2 ^ 1023 -> exists h, high_demand_count_of M = Some h.
Proof.
  intros [H0 HM]. destruct (Z.eq_dec M 0) as [-> | Hnz];
    [exists 0; reflexivity |].
  destruct (high_demand_count_positive M)
    as (m & e & Hm & _ & Hsmall & Hlarge & _ & Hfin); [lia |].
  assert (He : e <= emax - prec).
  { rewrite emax_value, prec_value.
    destruct (Z.lt_ge_cases M (2 ^ 52)) as [Hlt | Hge].
    - assert (M < 2 ^ 53)
        by (change (2 ^ 52) with 4503599627370496 in Hlt;
            change (2 ^ 53) with 9007199254740992; lia).
      destruct Hsmall; lia.
    - destruct (Hlarge Hge) as [He0 HW].
      destruct (Z.le_gt_cases e 971) as [| Hgt]; [lia | exfalso].
      assert (Hp : 2 ^ 972 <= 2 ^ e) by (apply Z.pow_le_mono_r; lia).
      assert (H1024 : 2 ^ 52 * 2 ^ 972 = 2 * 2 ^ 1023) by reflexivity.
      assert (2 ^ 52 * 2 ^ 972 <= Z.pos m * 2 ^ e).
      { apply Z.mul_le_mono_nonneg; try lia; apply Z.pow_nonneg; lia. }
      lia. }
  destruct (Hfin He) as (m' & n & t & Eh & _). eexists. exact Eh.
Qed.

(** A size beyond the float range: the conversion fails and no product is
    generated. *)
Lemma generate_products_overflow g :
  _generate_products (mkConfig 1 1 (2 ^ 1024) 1) g = Raise OverflowError.
Proof.
  unfold _generate_products.
  replace (high_demand_count_of (TOTAL_PRODUCTS (mkConfig 1 1 (2 ^ 1024) 1)))
    with (@None Z) by (vm_compute; reflexivity).
  reflexivity.
Qed.

(** Beyond [2^52] the truncated float product can exceed [M // 5], as at
    [3 * 2^51]. *)
Lemma high_demand_count_above_floor :
  high_demand_count_of 6755399441055744 = Some (6755399441055744 / 5 + 1).
Proof. vm_compute. reflexivity. Qed.

Lemma categories_wellformed c :
  In c (map fst PRODUCT_CATEGORIES) ->
  exists info, lookup_category PRODUCT_CATEGORIES c = Some info
               /\ items info <> [].
Proof.
  simpl. intro H.
  repeat (destruct H as [<- | H];
          [eexists; split; [reflexivity | discriminate] |]).
  contradiction.
Qed.

Lemma random_total g : exists r g', Random.random g = Ok (r, g').
Proof. eexists. eexists. reflexivity. Qed.

(** The loop body of [_generate_products] never fails, and flags the product
    by its position alone. *)
Lemma generate_product_total h i g :
  exists p g', generate_product h i g = Ok (p, g')
               /\ p_is_high_demand p = (i <? h).
Proof.
  unfold generate_product.
  destruct (choice_total (map fst PRODUCT_CATEGORIES) g) as (c & g1 & Hc & Hin);
    [discriminate |].
  destruct (categories_wellformed c Hin) as (info & Hinfo & Hitems).
  destruct (choice_total (items info) g1 Hitems) as (b & g2 & Hb & _).
  unfold bind at 1. rewrite Hc.
  unfold bind at 1. rewrite Hinfo. unfold of_option, ret at 1.
  unfold bind at 1. rewrite Hb.
  destruct (price_range info) as [min_price max_price].
  destruct (String.eqb c "Organic");
    unfold bind, Random.uniform, Random.random, next_raw, bind, ret;
    eexists; eexists; split; reflexivity.
Qed.

Lemma Forall2_seq_nth {B} (Q : Z -> B -> Prop) len :
  forall s ys, Forall2 Q (map Z.of_nat (seq s len)) ys ->
  forall i y, nth_error ys i = Some y -> Q (Z.of_nat (s + i)) y.
Proof.
  induction len as [| len IH]; intros s ys H i y Hy; simpl in H;
    inversion H; subst.
  - destruct i; discriminate Hy.
  - destruct i as [| i]; simpl in Hy.
    + injection Hy as <-. rewrite Nat.add_0_r. assumption.
    + replace (s + S i)%nat with (S s + i)%nat by lia.
      eapply IH; eassumption.
Qed.

Lemma count_flagged_seq h len :
  forall s ps,
    Forall2 (fun i p => p_is_high_demand p = (i <? h))
            (map Z.of_nat (seq s len)) ps ->
    count_high_demand ps
    = Z.max 0 (Z.min (Z.of_nat (s + len)) h - Z.of_nat s).
Proof.
  unfold count_high_demand.
  induction len as [| len IH]; intros s ps H; simpl in H; inversion H; subst.
  - simpl. lia.
  - simpl. match goal with Hp : p_is_high_demand _ = _ |- _ => rewrite Hp end.
    match goal with
    | Hr : Forall2 _ (map Z.of_nat (seq (S s) len)) _ |- _ =>
        specialize (IH _ _ Hr)
    end.
    destruct (Z.ltb_spec (Z.of_nat s) h); simpl List.length; lia.
Qed.

(** What [_generate_products] returns, in terms of [int(M * 0.2)]. *)
Lemma generate_products_spec cfg g h :
  high_demand_count_of (TOTAL_PRODUCTS cfg) = Some h ->
  exists ps g',
    _generate_products cfg g = Ok (ps, g')
    /\ Z.of_nat (List.length ps) = Z.max 0 (TOTAL_PRODUCTS cfg)
    /\ (forall i p, nth_error ps i = Some p ->
                    p_is_high_demand p = (Z.of_nat i <? h))
    /\ count_high_demand ps = Z.max 0 (Z.min (Z.max 0 (TOTAL_PRODUCTS cfg)) h).
Proof.
  intro Hh. unfold _generate_products. rewrite Hh.
  destruct (mapM_total (generate_product h)
              (fun i p => p_is_high_demand p = (i <? h))
              (generate_product_total h)
              (range (TOTAL_PRODUCTS cfg)) g) as (ps & g' & Hps & Hall).
  exists ps, g'. split; [| split; [| split]].
  - unfold bind, of_option, ret. exact Hps.
  - apply Forall2_length in Hall. rewrite <- Hall.
    unfold range. rewrite length_map, length_seq. lia.
  - intros i p Hp. exact (Forall2_seq_nth _ _ _ _ Hall i p Hp).
  - unfold range in Hall. rewrite (count_flagged_seq _ _ _ _ Hall). lia.
Qed.

(** C3, as the code has it: for every catalog of [M >= 1] products,
    [_generate_products] flags exactly [h = int(M * 0.2)] products, the
    float product truncated and not the ceiling of [0.2 * M]: those at
    positions [0 .. h - 1] of the generation order, and no others.  [h] is
    at most [M], and it is [M // 5] for every [M] below [2^52]. *)
Theorem high_demand_products_are_the_first_fifth cfg g h :
  1 <= TOTAL_PRODUCTS cfg ->
  high_demand_count_of (TOTAL_PRODUCTS cfg) = Some h ->
  let M := TOTAL_PRODUCTS cfg in
  exists ps g',
    _generate_products cfg g = Ok (ps, g')
    /\ Z.of_nat (List.length ps) = M
    /\ (forall i p, nth_error ps i = Some p ->
                    p_is_high_demand p = (Z.of_nat i <? h))
    /\ count_high_demand ps = h
    /\ 0 <= h <= M
    /\ (M < 2 ^ 52 -> h = M / 5).
Proof.
  intros HM Hh M.
  destruct (high_demand_count_spec M h) as (Hb & _ & Hfloor);
    [unfold M; lia | exact Hh |].
  destruct (generate_products_spec cfg g h Hh) as (ps & g' & H1 & H2 & H3 & H4).
  exists ps, g'. fold M in H2, H4.
  repeat split; [exact H1 | lia | exact H3 | lia | lia | lia | exact Hfloor].
Qed.

Lemma high_demand_products_are_the_first_fifth_witness :
  exists ps g',
    _generate_products default_config sample_rng = Ok (ps, g')
    /\ Z.of_nat (List.length ps) = 2000
    /\ (forall i p, nth_error ps i = Some p ->
                    p_is_high_demand p = (Z.of_nat i <? 400))
    /\ count_high_demand ps = 400
    /\ 0 <= 400 <= 2000
    /\ (2000 < 2 ^ 52 -> 400 = 2000 / 5).
Proof.
  apply (high_demand_products_are_the_first_fifth default_config sample_rng 400).
  - simpl. lia.
  - vm_compute. reflexivity.
Defined.

(** C3 as stated fails: with one product the code flags none, and
    [ceil(0.2 * 1)] is 1. *)
Lemma one_product_none_flagged :
  exists ps g',
    _generate_products (mkConfig 1 1 1 1) zero_rng = Ok (ps, g')
    /\ count_high_demand ps = 0
    /\ claimed_high_demand_count 1 = 1
    /\ count_high_demand ps <> claimed_high_demand_count 1.
Proof.
  eexists. eexists. split; [vm_compute; reflexivity |].
  repeat split. discriminate.
Qed.

(** C4, as the code has it: for every catalog of [M >= 5] products for
    which [int(M * 0.2)] is computed at all (the conversion of [M] to a
    float raises [OverflowError] beyond the float range), the products
    flagged high-demand are not the empty list, and the [random.choice] over
    them in [generate_transaction] succeeds on every random source, with a
    flagged product. *)
Theorem high_demand_subset_nonempty cfg g h :
  5 <= TOTAL_PRODUCTS cfg ->
  high_demand_count_of (TOTAL_PRODUCTS cfg) = Some h ->
  exists ps g',
    _generate_products cfg g = Ok (ps, g')
    /\ filter p_is_high_demand ps <> []
    /\ forall g1, exists p g2,
        Random.choice (filter p_is_high_demand ps) g1 = Ok (p, g2)
        /\ p_is_high_demand p = true.
Proof.
  intros HM Hh. set (M := TOTAL_PRODUCTS cfg) in *.
  destruct (high_demand_count_spec M h) as (Hb & Hpos & _);
    [lia | exact Hh |].
  specialize (Hpos HM).
  destruct (generate_products_spec cfg g h Hh) as (ps & g' & H1 & _ & _ & H4).
  fold M in H4.
  assert (Hne : filter p_is_high_demand ps <> []).
  { intro Hnil. unfold count_high_demand in H4. rewrite Hnil in H4.
    simpl in H4. lia. }
  exists ps, g'. split; [exact H1 | split; [exact Hne |]].
  intro g1. destruct (choice_total _ g1 Hne) as (p & g2 & Hp & Hin).
  exists p, g2. split; [exact Hp |].
  apply filter_In in Hin. apply Hin.
Qed.

Lemma high_demand_subset_nonempty_witness :
  exists ps g',
    _generate_products sample_config sample_rng = Ok (ps, g')
    /\ filter p_is_high_demand ps <> []
    /\ forall g1, exists p g2,
        Random.choice (filter p_is_high_demand ps) g1 = Ok (p, g2)
        /\ p_is_high_demand p = true.
Proof.
  apply (high_demand_subset_nonempty sample_config sample_rng 2).
  - simpl. lia.
  - vm_compute. reflexivity.
Defined.

(** C4 as stated fails: with one product no product is flagged, and the
    first basket slot that takes the high-demand branch raises
    [IndexError]. *)
Lemma one_product_choice_fails :
  exists self g,
    init (mkConfig 1 1 1 1) zero_rng = Ok (self, g)
    /\ filter p_is_high_demand (products self) = []
    /\ generate_transaction 5 self g = Raise IndexError.
Proof.
  eexists. eexists. split; [vm_compute; reflexivity |].
  split; vm_compute; reflexivity.
Qed.

(** ** Holiday weeks *)

Lemma dt_add_whole_days o n :
  dt_add (mkDatetime o 0) (days n) = mkDatetime (o + n) 0.
Proof.
  unfold dt_add, total_seconds, days. simpl.
  replace (o * 86400 + 0 + n * 86400) with ((o + n) * 86400) by lia.
  rewrite Z.div_mul, Z.mod_mul by lia. reflexivity.
Qed.

(** Between two midnights: from the first date on, and before the last date
    or at its very first second. *)
Lemma between_midnights a b dt :
  0 <= dt_second dt ->
  dt_leb (mkDatetime a 0) dt && dt_leb dt (mkDatetime b 0)
  = (a <=? dt_ordinal dt)
    && ((dt_ordinal dt <? b) || ((dt_ordinal dt =? b) && (dt_second dt =? 0))).
Proof.
  intro Hs. destruct dt as [o s]. unfold dt_leb. simpl in *.
  destruct (Z.ltb_spec a o), (Z.eqb_spec a o), (Z.leb_spec 0 s),
    (Z.leb_spec a o), (Z.ltb_spec o b), (Z.eqb_spec o b), (Z.leb_spec s 0),
    (Z.eqb_spec s 0); simpl; try reflexivity; lia.
Qed.

Lemma holiday_week_bounds y m d :
  let monday := ymd2ord y m d - weekday (datetime_ymd y m d) in
  holiday_week (y, m, d) = (mkDatetime monday 0, mkDatetime (monday + 6) 0).
Proof.
  cbv zeta. unfold holiday_week, datetime_ymd.
  replace (- days (weekday (mkDatetime (ymd2ord y m d) 0)))
    with (days (- weekday (mkDatetime (ymd2ord y m d) 0)))
    by (unfold days; lia).
  rewrite !dt_add_whole_days. reflexivity.
Qed.

Lemma is_holiday_week_cons a b ws dt :
  _is_holiday_week ((a, b) :: ws) dt
  = (dt_leb a dt && dt_leb dt b) || _is_holiday_week ws dt.
Proof. simpl. destruct (dt_leb a dt && dt_leb dt b); reflexivity. Qed.

(** What [_is_holiday_week] decides: the timestamp lies between the midnight
    that starts the Monday of a holiday's week and the midnight that starts
    its Sunday, both included. *)
Lemma is_holiday_week_decides dt :
  0 <= dt_second dt ->
  _is_holiday_week _get_holiday_weeks dt
  = existsb (fun '(y, m, d) =>
               let monday := ymd2ord y m d - weekday (datetime_ymd y m d) in
               (monday <=? dt_ordinal dt)
               && ((dt_ordinal dt <? monday + 6)
                   || ((dt_ordinal dt =? monday + 6) && (dt_second dt =? 0))))
            holidays.
Proof.
  intro Hs. unfold _get_holiday_weeks.
  induction holidays as [| [[y m] d] hs IH]; [reflexivity |].
  rewrite map_cons, holiday_week_bounds, is_holiday_week_cons.
  rewrite between_midnights by exact Hs.
  rewrite IH. reflexivity.
Qed.

(** C5 fails on the code: New Year's Day 2023 is a Sunday and one of the six
    holidays, and its noon is a candidate the date loop can draw; its date
    lies in the Monday to Sunday week of the holiday, yet
    [_is_holiday_week] answers [False], because the week ends at the
    midnight that starts the Sunday. *)
Theorem new_years_noon_is_outside_the_holiday_week :
  let noon := datetime_ymd_hms 2023 1 1 12 0 0 in
  noon = dt_add start_date 43200
  /\ 0 <= 43200 <= dt_diff end_date start_date
  /\ weekday noon = 6
  /\ In (2023, 1, 1) holidays
  /\ in_holiday_calendar_week noon = true
  /\ _is_holiday_week _get_holiday_weeks noon = false
  /\ _is_holiday_week _get_holiday_weeks (datetime_ymd 2023 1 1) = true.
Proof.
  cbv zeta. repeat split; try (vm_compute; reflexivity).
  - vm_compute. discriminate.
  - vm_compute. discriminate.
  - left. reflexivity.
Qed.

(** ** The date loop *)

(** A weekend candidate outside the holiday weeks whose weekend draw fails is
    decided by the next draw, against 0.5. *)
Lemma accept_date_weekend_falls_through g :
  let r1 := tape g (pos g) in
  let r2 := tape g (S (pos g)) in
  let u (r : Z) := (float_of_int (r mod 9007199254740992)
                    / 9007199254740992)%float in
  run (accept_date true false) g
  = if PrimFloat.ltb (u r1) 0.3 then Ok (true, 1%nat)
    else Ok (PrimFloat.ltb (u r2) 0.5, 2%nat).
Proof.
  cbv zeta. unfold run, accept_date, Random.random, next_raw, bind, ret.
  simpl.
  destruct (PrimFloat.ltb _ 0.3); cbv beta iota; cbn [pos tape];
    do 2 f_equal; lia.
Qed.

(** C6 fails on the code: Saturday 2023-01-07 is a weekend candidate outside
    the holiday weeks.  When its weekend draw is 0.4, not below 0.3, the
    candidate is not rejected: a second draw is read and compared with 0.5,
    the draw commented [Regular days]; at 0.4 the candidate is accepted, at
    0.6 it is rejected.  A weekend draw below 0.3 accepts at once. *)
Theorem weekend_candidate_reaches_the_regular_draw :
  let saturday := datetime_ymd 2023 1 7 in
  (5 <=? weekday saturday) = true
  /\ _is_holiday_week _get_holiday_weeks saturday = false
  /\ run Random.random (rng_of [raw_04]) = Ok (0.40000000000000002%float, 1%nat)
  /\ run Random.random (rng_of [raw_06]) = Ok (0.59999999999999998%float, 1%nat)
  /\ run (accept_date true false) (rng_of [raw_04; raw_04]) = Ok (true, 2%nat)
  /\ run (accept_date true false) (rng_of [raw_04; raw_06]) = Ok (false, 2%nat)
  /\ run (accept_date true false) (rng_of [0; raw_06]) = Ok (true, 1%nat).
Proof.
  cbv zeta. repeat split; vm_compute; reflexivity.
Qed.

(** ** Anomaly z-scores *)

(** In [get_anomaly_metrics] a standard deviation that is exactly zero is
    replaced by 1 before the division. *)
Lemma replace_zero_by_one_at_zero : replace_zero_by_one 0 = 1%float.
Proof. reflexivity. Qed.

Lemma replace_zero_by_one_nonzero x :
  PrimFloat.eqb (replace_zero_by_one x) 0 = false.
Proof.
  unfold replace_zero_by_one.
  destruct (PrimFloat.eqb x 0) eqn:E; [reflexivity | exact E].
Qed.

(** No row of the frame of [get_anomaly_metrics] is divided by a zero
    standard deviation. *)
Lemma anomaly_metrics_divisors_nonzero df :
  Forall (fun s => PrimFloat.eqb (qty_std (sl_stat s)) 0 = false
                   /\ PrimFloat.eqb (price_std (sl_stat s)) 0 = false)
         (anomaly_metrics_frame df).
Proof.
  unfold anomaly_metrics_frame. apply Forall_map, Forall_forall.
  intros [r s] _. simpl. split; apply replace_zero_by_one_nonzero.
Qed.

(** C8 fails on the code: on two lines of one product, both with quantity 3,
    the standard deviation of the quantity is exactly zero.
    [get_anomaly_metrics] replaces it by 1 and both z-scores are 0;
    [create_anomaly_detection] divides by the zero as it is, and both
    z-scores are NaN.  On a product with a single line the standard
    deviation is NaN, which [get_anomaly_metrics] does not replace, and the
    z-score is NaN as well. *)
Theorem zero_deviation_is_not_replaced_in_the_figure :
  map (fun s => (qty_std (sl_stat s), quantity_zscore s))
      (anomaly_metrics_frame constant_quantity_frame)
  = [(1, 0); (1, 0)]%float
  /\ map (fun s => (qty_std (sl_stat s), PrimFloat.is_nan (quantity_zscore s)))
         (create_anomaly_detection constant_quantity_frame)
     = [(0%float, true); (0%float, true)]
  /\ map (fun s => (PrimFloat.is_nan (qty_std (sl_stat s)),
                    PrimFloat.is_nan (quantity_zscore s)))
         (anomaly_metrics_frame single_line_frame)
     = [(true, true)].
Proof.
  repeat split; vm_compute; reflexivity.
Qed.

(** ** Retention metrics *)

Lemma bool_mean_map {X} (f : X -> bool) (xs : list X) :
  bool_mean (map f xs)
  = (float_of_int (Z.of_nat (List.length (filter f xs)))
     / float_of_int (Z.of_nat (List.length xs)))%float.
Proof.
  unfold bool_mean. rewrite length_map. do 3 f_equal.
  induction xs as [| x xs IH]; [reflexivity |].
  simpl. destruct (f x); simpl; rewrite IH; reflexivity.
Qed.

Lemma fraction_ext (P Q : Z -> bool) cs :
  (forall c, P c = Q c) -> fraction P cs = fraction Q cs.
Proof.
  intro H. unfold fraction. rewrite (filter_ext P Q H). reflexivity.
Qed.

(** More than 90 whole days is at least 91 days. *)
Lemma more_than_90_whole_days (delta : timedelta) :
  (90 <? td_days delta) = (days 91 <=? delta).
Proof.
  unfold td_days, days.
  pose proof (Z.div_mod delta 86400 ltac:(lia)) as Hdm.
  pose proof (Z.mod_pos_bound delta 86400 ltac:(lia)) as Hmod.
  destruct (Z.ltb_spec 90 (delta / 86400)), (Z.leb_spec (91 * 86400) delta);
    try reflexivity; lia.
Qed.

Lemma max_datetime_nonempty (xs : list datetime) :
  xs <> [] -> exists d, max_datetime xs = Some d.
Proof.
  destruct xs as [| x xs]; [contradiction |]. intros _. eexists. reflexivity.
Qed.

Lemma min_datetime_nonempty (xs : list datetime) :
  xs <> [] -> exists d, min_datetime xs = Some d.
Proof.
  destruct xs as [| x xs]; [contradiction |]. intros _. eexists. reflexivity.
Qed.

(** C9, as the code has it: on a non-empty table the repeat-purchase rate is
    100 times the fraction of the distinct customers with more than one
    distinct transaction id, and the churn risk is 100 times the fraction of
    the distinct customers whose latest timestamp precedes the global maximum
    timestamp by at least 91 days, that is by more than 90 whole days. *)
Theorem retention_metrics_are_percentages (df : list line) :
  df <> [] ->
  exists avg_monthly_frequency,
    get_retention_metrics df
    = ((claimed_repeat_rate df * 100)%float,
       avg_monthly_frequency,
       (churn_fraction_whole_days df * 100)%float).
Proof.
  intro Hne.
  assert (Hstamps : map transaction_datetime df <> [])
    by (destruct df; [contradiction | discriminate]).
  destruct (max_datetime_nonempty _ Hstamps) as (latest & Hmax).
  destruct (min_datetime_nonempty _ Hstamps) as (earliest & Hmin).
  unfold get_retention_metrics. rewrite Hmax, Hmin.
  eexists. f_equal; [f_equal |].
  - unfold repeat_customers, groupby. rewrite !map_map. cbn beta iota.
    rewrite bool_mean_map. reflexivity.
  - unfold customer_last_purchase, groupby. rewrite !map_map. cbn beta iota.
    rewrite bool_mean_map. f_equal.
    unfold churn_fraction_whole_days. apply fraction_ext. intro c.
    unfold seconds_behind, rows_of_customer. rewrite Hmax.
    destruct (max_datetime (map transaction_datetime (filter _ df)))
      as [last |].
    + apply more_than_90_whole_days.
    + reflexivity.
Qed.

Lemma retention_metrics_are_percentages_witness :
  exists avg_monthly_frequency,
    get_retention_metrics retention_frame
    = ((claimed_repeat_rate retention_frame * 100)%float,
       avg_monthly_frequency,
       (churn_fraction_whole_days retention_frame * 100)%float).
Proof.
  apply (retention_metrics_are_percentages retention_frame).
  unfold retention_frame. discriminate.
Defined.

(** C9 as stated fails: in [retention_frame] customer 2 is 90 days and one
    hour behind the latest timestamp, so half of the customers are more than
    90 days behind, yet the churn risk computed is 0; and half of the
    customers bought more than once, yet the repeat rate computed is 50, the
    percentage, not the fraction 0.5. *)
Lemma churn_risk_counts_whole_days :
  seconds_behind retention_frame 2 = days 90 + 3600
  /\ claimed_churn_risk retention_frame = 0.5%float
  /\ claimed_repeat_rate retention_frame = 0.5%float
  /\ get_retention_metrics retention_frame = (50, 0.5, 0)%float
  /\ get_retention_metrics retention_frame
     <> (claimed_repeat_rate retention_frame, 0.5%float,
         claimed_churn_risk retention_frame).
Proof.
  repeat split; try (vm_compute; reflexivity).
  intro H.
  apply (f_equal (fun m => PrimFloat.eqb (snd m) 0)) in H.
  vm_compute in H. discriminate H.
Qed.

(** ** The bound on the date loop *)

(** A date found within [n] candidates is the date found within any larger
    bound: the bound only cuts runs short, it never changes a result. *)
Lemma draw_transaction_date_fuel self n :
  forall m g r,
    (n <= m)%nat ->
    draw_transaction_date n self g = Ok r ->
    draw_transaction_date m self g = Ok r.
Proof.
  induction n as [| n IH]; intros m g r Hle H; [discriminate H |].
  destruct m as [| m]; [lia |].
  simpl in *. unfold bind in *.
  destruct (Random.randint 0 (dt_diff end_date start_date) g)
    as [[s g1] | e]; [| discriminate H].
  destruct (accept_date _ _ g1) as [[accepted g2] | e]; [| discriminate H].
  destruct accepted; [exact H |].
  apply IH; [lia | exact H].
Qed.

(** The same for a whole transaction. *)
Lemma generate_transaction_fuel self n m g r :
  (n <= m)%nat ->
  generate_transaction n self g = Ok r ->
  generate_transaction m self g = Ok r.
Proof.
  intros Hle H. unfold generate_transaction in *. unfold bind at 1 in H.
  unfold bind at 1.
  destruct (Random.choice (customers self) g) as [[c g1] | e];
    [| discriminate H].
  unfold bind at 1 in H. unfold bind at 1.
  destruct (draw_transaction_date n self g1) as [[d g2] | e] eqn:Hd;
    [| discriminate H].
  rewrite (draw_transaction_date_fuel self n m g1 (d, g2) Hle Hd).
  exact H.
Qed.

(** * Further properties of the generator *)

(** ** The product catalog *)

Lemma mapM_Forall2 {A B} (f : A -> Gen B) (Q : A -> B -> Prop) :
  (forall x g y g', f x g = Ok (y, g') -> Q x y) ->
  forall xs g ys g', mapM f xs g = Ok (ys, g') -> Forall2 Q xs ys.
Proof.
  intros Hf xs. induction xs as [| x xs IH]; intros g ys g' H; simpl in H.
  - gen_ret H. constructor.
  - gen_step H. gen_step H. gen_ret H.
    constructor; [eapply Hf | eapply IH]; eassumption.
Qed.

Lemma generate_product_shape h i g p g' :
  generate_product h i g = Ok (p, g') -> product_at i p.
Proof.
  unfold generate_product. intro H.
  gen_step H. rename v into c.
  pose proof (choice_In _ _ _ _ Hstep) as Hin.
  destruct (categories_wellformed c Hin) as (info & Hinfo & _).
  gen_step H. rewrite Hinfo in Hstep0. simpl in Hstep0.
  apply ret_ok in Hstep0. destruct Hstep0 as [<- <-].
  gen_step H. rename v into base_name.
  pose proof (choice_In _ _ _ _ Hstep0) as Hbase.
  destruct (price_range info) as [min_price max_price].
  destruct (String.eqb c "Organic"); gen_step H; gen_ret H;
    (split; [reflexivity |]); exists info, base_name; simpl; auto.
Qed.

Lemma uint_of_zeros k s :
  NilEmpty.uint_of_string (zeros k ++ s)
  = option_map (Nat.iter k Decimal.D0) (NilEmpty.uint_of_string s).
Proof.
  induction k as [| k IH]; simpl.
  - destruct (NilEmpty.uint_of_string s); reflexivity.
  - rewrite IH. destruct (NilEmpty.uint_of_string s); reflexivity.
Qed.

Lemma of_uint_leading_zeros k d :
  N.of_uint (Nat.iter k Decimal.D0 d) = N.of_uint d.
Proof. induction k as [| k IH]; [reflexivity | simpl; exact IH]. Qed.

Lemma str_of_positive n :
  0 < n -> str_of_int n = NilEmpty.string_of_uint (N.to_uint (Z.to_N n)).
Proof.
  intro Hn. unfold str_of_int.
  destruct (Z.ltb_spec n 0); [lia |].
  destruct n as [| q | q]; try lia. simpl.
  pose proof (DecimalPos.Unsigned.to_uint_nonnil q) as Hq.
  unfold NilZero.string_of_uint. destruct (Pos.to_uint q); [contradiction | ..];
    reflexivity.
Qed.

(** The number printed in the id of the product generated at index [i] is
    [i + 1], whatever the padding. *)
Lemma product_number_of_id i :
  0 <= i ->
  product_number ("PROD_" ++ zfill 4 (str_of_int (i + 1)))%string
  = Some (i + 1).
Proof.
  intro Hi. simpl. unfold zfill.
  rewrite str_of_positive by lia.
  rewrite uint_of_zeros, NilEmpty.usu. simpl.
  rewrite of_uint_leading_zeros, DecimalN.Unsigned.of_to.
  f_equal. lia.
Qed.

Lemma Forall2_range_product_ids len :
  forall s ps,
    Forall2 product_at (map Z.of_nat (seq s len)) ps ->
    map (fun p => product_number (p_product_id p)) ps
    = map (fun i => Some (Z.of_nat i + 1)) (seq s len).
Proof.
  induction len as [| len IH]; intros s ps H; simpl in H; inversion H; subst.
  - reflexivity.
  - simpl. f_equal.
    + match goal with Hp : product_at _ _ |- _ => destruct Hp as [-> _] end.
      apply product_number_of_id. lia.
    + apply IH. assumption.
Qed.

Lemma NoDup_map_of_injective_image {A B C} (f : A -> B) (h : B -> C) l :
  NoDup (map (fun x => h (f x)) l) -> NoDup (map f l).
Proof.
  induction l as [| a l IH]; simpl; intro H; inversion H; subst.
  - constructor.
  - constructor; [| apply IH; assumption].
    intro Hin. match goal with Hn : ~ In _ _ |- _ => apply Hn end.
    apply in_map_iff in Hin. destruct Hin as (x & Hx & Hxin).
    apply in_map_iff. exists x. split; [rewrite Hx; reflexivity | exact Hxin].
Qed.

Lemma NoDup_successors s len :
  NoDup (map (fun i => Some (Z.of_nat i + 1)) (seq s len)).
Proof.
  apply NoDup_map_NoDup_ForallPairs; [| apply seq_NoDup].
  intros x y _ _ H. injection H. lia.
Qed.

(** What [_generate_products] returns, position by position. *)
Lemma generate_products_catalog cfg g ps g' :
  _generate_products cfg g = Ok (ps, g') ->
  Z.of_nat (List.length ps) = Z.max 0 (TOTAL_PRODUCTS cfg)
  /\ (forall i p, nth_error ps i = Some p ->
                  product_at (Z.of_nat i) p
                  /\ product_number (p_product_id p) = Some (Z.of_nat i + 1))
  /\ NoDup (map p_product_id ps)
  /\ Forall (fun p => In (p_category p) (map fst PRODUCT_CATEGORIES)) ps.
Proof.
  unfold _generate_products. intro H. gen_step H.
  pose proof (mapM_Forall2 _ product_at
                (fun i g0 p g1 => generate_product_shape v i g0 p g1)
                _ _ _ _ H) as Hall.
  split; [| split; [| split]].
  - apply Forall2_length in Hall. rewrite <- Hall.
    unfold range. rewrite length_map, length_seq. lia.
  - intros i p Hp.
    pose proof (Forall2_seq_nth _ _ _ _ Hall i p Hp) as Hat.
    split; [exact Hat |]. destruct Hat as [-> _].
    apply product_number_of_id. lia.
  - apply (NoDup_map_of_injective_image p_product_id product_number).
    unfold range in Hall. rewrite (Forall2_range_product_ids _ _ _ Hall).
    apply NoDup_successors.
  - eapply mapM_Forall; [| exact H].
    intros i ga p gb Hp. apply generate_product_shape in Hp.
    destruct Hp as (_ & info & base & _ & Hin & _). exact Hin.
Qed.

(** The catalog [_generate_products] returns holds [TOTAL_PRODUCTS] products;
    the product at position [i] has the id [PROD_] followed by [i + 1] padded
    to four digits, from which [i + 1] is read back; its category is one of
    the ten of [PRODUCT_CATEGORIES] and its name an item of that category
    followed by [i + 1]; no two products share an id. *)
Theorem product_catalog_ids_are_distinct cfg g ps g' :
  _generate_products cfg g = Ok (ps, g') ->
  Z.of_nat (List.length ps) = Z.max 0 (TOTAL_PRODUCTS cfg)
  /\ (forall i p, nth_error ps i = Some p ->
                  product_at (Z.of_nat i) p
                  /\ product_number (p_product_id p) = Some (Z.of_nat i + 1))
  /\ NoDup (map p_product_id ps).
Proof.
  intro H.
  destruct (generate_products_catalog _ _ _ _ H) as (H1 & H2 & H3 & _).
  split; [exact H1 | split; [exact H2 | exact H3]].
Qed.

Lemma product_catalog_ids_are_distinct_witness :
  exists ps g',
    _generate_products sample_config sample_rng = Ok (ps, g')
    /\ Z.of_nat (List.length ps) = 10
    /\ NoDup (map p_product_id ps).
Proof.
  destruct (_generate_products sample_config sample_rng)
    as [[ps g'] | e] eqn:H.
  - exists ps, g'. split; [reflexivity |].
    destruct (product_catalog_ids_are_distinct _ _ _ _ H) as (Hlen & _ & Hnd).
    split; [exact Hlen | exact Hnd].
  - vm_compute in H. discriminate H.
Defined.

(** ** What a generated transaction holds *)

Lemma mapM_length {A B} (f : A -> Gen B) :
  forall xs g ys g', mapM f xs g = Ok (ys, g') ->
                     List.length ys = List.length xs.
Proof.
  intro xs. induction xs as [| x xs IH]; intros g ys g' H; simpl in H.
  - gen_ret H. reflexivity.
  - gen_step H. gen_step H. gen_ret H. simpl. f_equal. eapply IH. eassumption.
Qed.

Lemma length_range n : Z.of_nat (List.length (range n)) = Z.max 0 n.
Proof. unfold range. rewrite length_map, length_seq. lia. Qed.

(** The date the loop returns is a candidate: the start date plus a number of
    seconds of the year's window. *)
Lemma draw_transaction_date_candidate self fuel :
  forall g d g',
    draw_transaction_date fuel self g = Ok (d, g') ->
    exists s, 0 <= s <= dt_diff end_date start_date /\ d = dt_add start_date s.
Proof.
  induction fuel as [| fuel IH]; intros g d g' H; [discriminate H |].
  simpl in H. gen_step H. gen_step H.
  apply randint_range in Hstep.
  destruct v0.
  - gen_ret H. eexists. split; [exact Hstep | reflexivity].
  - eapply IH. exact H.
Qed.

Lemma window_of_candidate s :
  0 <= s <= dt_diff end_date start_date ->
  let d := dt_add start_date s in
  dt_leb start_date d = true /\ dt_leb d end_date = true
  /\ 0 <= dt_second d < 86400.
Proof.
  replace (dt_diff end_date start_date) with 31449600
    by (vm_compute; reflexivity).
  intro Hs. cbv zeta. unfold dt_add, dt_leb.
  replace (total_seconds start_date) with (738521 * 86400)
    by (vm_compute; reflexivity).
  replace (dt_ordinal start_date) with 738521 by (vm_compute; reflexivity).
  replace (dt_second start_date) with 0 by (vm_compute; reflexivity).
  replace (dt_ordinal end_date) with 738885 by (vm_compute; reflexivity).
  replace (dt_second end_date) with 0 by (vm_compute; reflexivity).
  cbn [dt_ordinal dt_second].
  assert (Ediv : (738521 * 86400 + s) / 86400 = 738521 + s / 86400)
    by (apply Z.div_add_l; lia).
  assert (Emod : (738521 * 86400 + s) mod 86400 = s mod 86400)
    by (rewrite Z.add_comm; apply Z.mod_add; lia).
  rewrite Ediv, Emod.
  pose proof (Z.div_mod s 86400 ltac:(lia)) as Hdm.
  pose proof (Z.mod_pos_bound s 86400 ltac:(lia)) as Hmod.
  assert (Hq : 0 <= s / 86400) by (apply Z.div_pos; lia).
  repeat split; lia.
Qed.

Lemma generate_item_product self g it g' :
  generate_item self g = Ok (it, g') -> In (i_product it) (products self).
Proof.
  unfold generate_item. intro H. gen_steps H. simpl.
  match goal with
  | Hp : (if ?c then _ else _) _ = Ok (?p, _) |- In ?p _ =>
      destruct c; apply choice_In in Hp
  end.
  - apply filter_In in Hstep0. apply Hstep0.
  - exact Hstep0.
Qed.

Lemma bisect_le cum x : forall hi, (Random.bisect cum x hi <= hi)%nat.
Proof.
  induction cum as [| c cum IH]; intro hi; destruct hi as [| hi]; simpl;
    try lia.
  destruct (PrimFloat.ltb x c); [lia |]. specialize (IH hi). lia.
Qed.

Lemma choices1_In {A} (population : list A) weights g x g' :
  Random.choices1 population weights g = Ok (x, g') -> In x population.
Proof.
  unfold Random.choices1.
  destruct population as [| a population]; [discriminate |].
  destruct (rev (Random.accumulate weights)) as [| last rest]; [discriminate |].
  intro H. gen_step H. gen_ret H.
  apply nth_In.
  pose proof (bisect_le (Random.accumulate weights)
                        (v * (last + 0))%float
                        (List.length (a :: population) - 1)) as Hb.
  simpl in *. lia.
Qed.

(** The parts of a generated transaction and where each comes from. *)
Lemma generate_transaction_parts fuel self g t g' :
  generate_transaction fuel self g = Ok (t, g') ->
  (exists c, In c (customers self)
             /\ t_customer_id t = c_customer_id c
             /\ t_loyalty_member t = c_is_loyalty c)
  /\ (exists s, 0 <= s <= dt_diff end_date start_date
                /\ t_transaction_datetime t = dt_add start_date s)
  /\ 1 <= Z.of_nat (List.length (t_products t)) <= 15
  /\ Forall (fun it => In (i_product it) (products self)) (t_products t)
  /\ In (t_store_location t) (map fst STORE_LOCATIONS)
  /\ In (t_payment_method t) PAYMENT_METHODS.
Proof.
  unfold generate_transaction. intro H. gen_steps H.
  cbn [t_customer_id t_loyalty_member t_transaction_datetime t_products
       t_store_location t_payment_method].
  apply mapM_length in Hstep2 as Hlen.
  pose proof (length_range v1) as Hrange. rewrite <- Hlen in Hrange.
  apply randint_range in Hstep1.
  split; [| split; [| split; [| split; [| split]]]].
  - exists v. split; [eapply choice_In; eassumption | split; reflexivity].
  - eapply draw_transaction_date_candidate. eassumption.
  - lia.
  - eapply mapM_Forall; [| eassumption].
    intros x ga y gb Hy. eapply generate_item_product. exact Hy.
  - eapply choices1_In. eassumption.
  - eapply choice_In. eassumption.
Qed.

(** A generated transaction has between 1 and 15 basket items, never none,
    and is flattened into as many lines. *)
Theorem basket_size_between_1_and_15 fuel self g t g' :
  generate_transaction fuel self g = Ok (t, g') ->
  1 <= Z.of_nat (List.length (t_products t)) <= 15
  /\ List.length (flatten_transaction t) = List.length (t_products t).
Proof.
  intro H. split.
  - apply (generate_transaction_parts _ _ _ _ _ H).
  - unfold flatten_transaction. apply length_map.
Qed.

Lemma basket_size_between_1_and_15_witness :
  exists t g',
    generate_transaction 20 sample_generator sample_rng = Ok (t, g')
    /\ 1 <= Z.of_nat (List.length (t_products t)) <= 15
    /\ List.length (flatten_transaction t) = List.length (t_products t).
Proof.
  destruct (generate_transaction 20 sample_generator sample_rng)
    as [[t g'] | e] eqn:H.
  - exists t, g'. split; [reflexivity |].
    exact (basket_size_between_1_and_15 _ _ _ _ _ H).
  - vm_compute in H. discriminate H.
Defined.

(** The timestamp of a generated transaction lies between 2023-01-01
    00:00:00 and 2023-12-31 00:00:00, both included, at a whole second of the
    day: no transaction falls on 31 December after midnight. *)
Theorem transaction_datetime_in_window fuel self g t g' :
  generate_transaction fuel self g = Ok (t, g') ->
  dt_leb (datetime_ymd_hms 2023 1 1 0 0 0) (t_transaction_datetime t) = true
  /\ dt_leb (t_transaction_datetime t) (datetime_ymd_hms 2023 12 31 0 0 0)
     = true
  /\ 0 <= dt_second (t_transaction_datetime t) < 86400.
Proof.
  intro H.
  destruct (generate_transaction_parts _ _ _ _ _ H)
    as (_ & (s & Hs & ->) & _).
  exact (window_of_candidate s Hs).
Qed.

Lemma transaction_datetime_in_window_witness :
  exists t g',
    generate_transaction 20 sample_generator sample_rng = Ok (t, g')
    /\ dt_leb (datetime_ymd_hms 2023 1 1 0 0 0) (t_transaction_datetime t)
       = true
    /\ dt_leb (t_transaction_datetime t) (datetime_ymd_hms 2023 12 31 0 0 0)
       = true
    /\ 0 <= dt_second (t_transaction_datetime t) < 86400.
Proof.
  destruct (generate_transaction 20 sample_generator sample_rng)
    as [[t g'] | e] eqn:H.
  - exists t, g'. split; [reflexivity |].
    exact (transaction_datetime_in_window _ _ _ _ _ H).
  - vm_compute in H. discriminate H.
Defined.

(** A generated transaction refers to the catalogs only: its customer id and
    loyalty flag are those of one customer of the catalog, every basket item
    is a product of the catalog, the store is one of the four locations and
    the payment method one of the four methods. *)
Theorem transaction_refers_to_catalogs fuel self g t g' :
  generate_transaction fuel self g = Ok (t, g') ->
  (exists c, In c (customers self)
             /\ t_customer_id t = c_customer_id c
             /\ t_loyalty_member t = c_is_loyalty c)
  /\ Forall (fun it => In (i_product it) (products self)) (t_products t)
  /\ In (t_store_location t)
        ["Downtown"; "Suburb North"; "Suburb South"; "Coastal"]%string
  /\ In (t_payment_method t)
        ["Credit Card"; "Debit Card"; "Cash"; "Mobile Wallet"]%string.
Proof.
  intro H.
  destruct (generate_transaction_parts _ _ _ _ _ H)
    as (Hc & _ & _ & Hp & Hs & Hm).
  repeat split; assumption.
Qed.

Lemma transaction_refers_to_catalogs_witness :
  exists t g',
    generate_transaction 20 sample_generator sample_rng = Ok (t, g')
    /\ (exists c, In c (customers sample_generator)
                  /\ t_customer_id t = c_customer_id c
                  /\ t_loyalty_member t = c_is_loyalty c)
    /\ Forall (fun it => In (i_product it) (products sample_generator))
              (t_products t)
    /\ In (t_store_location t)
          ["Downtown"; "Suburb North"; "Suburb South"; "Coastal"]%string
    /\ In (t_payment_method t)
          ["Credit Card"; "Debit Card"; "Cash"; "Mobile Wallet"]%string.
Proof.
  destruct (generate_transaction 20 sample_generator sample_rng)
    as [[t g'] | e] eqn:H.
  - exists t, g'. split; [reflexivity |].
    exact (transaction_refers_to_catalogs _ _ _ _ _ H).
  - vm_compute in H. discriminate H.
Defined.

(** ** Lines and catalogs *)

Lemma flatten_from_catalogs fuel self g t g' :
  generate_transaction fuel self g = Ok (t, g') ->
  Forall (line_from_catalogs self) (flatten_transaction t).
Proof.
  intro H.
  destruct (generate_transaction_parts _ _ _ _ _ H)
    as (Hc & _ & _ & Hp & _ & _).
  unfold flatten_transaction. apply Forall_map.
  eapply Forall_impl; [| exact Hp].
  intros it Hit. split; [exact Hc |].
  exists (i_product it). repeat split. exact Hit.
Qed.

Lemma NoDup_map_injective {A B} (f : A -> B) (l : list A) a b :
  NoDup (map f l) -> In a l -> In b l -> f a = f b -> a = b.
Proof.
  induction l as [| x l IH]; simpl; intros Hnd Ha Hb Hab; [contradiction |].
  inversion Hnd as [| ? ? Hx Hl]; subst.
  destruct Ha as [-> | Ha], Hb as [-> | Hb].
  - reflexivity.
  - exfalso. apply Hx. rewrite Hab. apply in_map. exact Hb.
  - exfalso. apply Hx. rewrite <- Hab. apply in_map. exact Ha.
  - apply IH; assumption.
Qed.

(** When no two customers of the catalog share an id, the loyalty flag is
    stable over the dataset: two lines of the files written by
    [generate_dataset] with the same customer id carry the same flag. *)
Theorem loyalty_flag_is_stable cfg fuel self g files g' :
  NoDup (map c_customer_id (customers self)) ->
  generate_dataset cfg fuel self g = Ok (files, g') ->
  forall name1 rows1 l1 name2 rows2 l2,
    In (name1, rows1) files -> In l1 rows1 ->
    In (name2, rows2) files -> In l2 rows2 ->
    customer_id l1 = customer_id l2 ->
    loyalty_member l1 = loyalty_member l2.
Proof.
  intros Hnd H name1 rows1 l1 name2 rows2 l2 Hf1 Hl1 Hf2 Hl2 Hid.
  pose proof (generate_dataset_lines cfg fuel self (line_from_catalogs self)
                (flatten_from_catalogs fuel self) _ _ _ H) as Horigin.
  destruct (Horigin _ _ _ Hf1 Hl1) as ((c1 & Hc1 & Hid1 & ->) & _).
  destruct (Horigin _ _ _ Hf2 Hl2) as ((c2 & Hc2 & Hid2 & ->) & _).
  f_equal. eapply NoDup_map_injective; [exact Hnd | assumption ..| congruence].
Qed.

Lemma loyalty_flag_is_stable_witness :
  exists files g',
    generate_dataset sample_config 20 sample_generator sample_rng
    = Ok (files, g')
    /\ files <> []
    /\ forall name1 rows1 l1 name2 rows2 l2,
        In (name1, rows1) files -> In l1 rows1 ->
        In (name2, rows2) files -> In l2 rows2 ->
        customer_id l1 = customer_id l2 ->
        loyalty_member l1 = loyalty_member l2.
Proof.
  assert (Hnd : NoDup (map c_customer_id (customers sample_generator))).
  { vm_compute. repeat constructor; simpl; intuition discriminate. }
  destruct (generate_dataset sample_config 20 sample_generator sample_rng)
    as [[files g'] | e] eqn:H.
  - exists files, g'. split; [reflexivity | split].
    + intro Hnil. subst files. vm_compute in H. discriminate H.
    + exact (loyalty_flag_is_stable _ _ _ _ _ _ Hnd H).
  - vm_compute in H. discriminate H.
Defined.

(** ** Failures of a transaction *)

Lemma bind_raise {A B} (c : Gen A) (k : A -> Gen B) g e :
  bind c k g = Raise e ->
  c g = Raise e \/ exists a g1, c g = Ok (a, g1) /\ k a g1 = Raise e.
Proof.
  unfold bind. destruct (c g) as [[a g1] | e0]; intro H.
  - right. exists a, g1. split; [reflexivity | exact H].
  - left. injection H as ->. reflexivity.
Qed.

Lemma accept_date_total w h g : exists b g', accept_date w h g = Ok (b, g').
Proof.
  unfold accept_date, Random.random, next_raw, bind, ret.
  destruct w, h; simpl;
    repeat match goal with
           | |- context [if ?c then _ else _] => destruct c; simpl
           end;
    eexists; eexists; reflexivity.
Qed.

Lemma draw_transaction_date_raise self fuel :
  forall g e, draw_transaction_date fuel self g = Raise e -> e = OutOfFuel.
Proof.
  induction fuel as [| fuel IH]; intros g e H; simpl in H.
  - unfold raise in H. congruence.
  - apply bind_raise in H. destruct H as [H | (s & g1 & _ & H)].
    + unfold Random.randint, next_raw, bind, ret in H.
      destruct (dt_diff end_date start_date <? 0) eqn:E;
        [vm_compute in E; discriminate E | discriminate H].
    + apply bind_raise in H. destruct H as [H | (b & g2 & _ & H)].
      * destruct (accept_date_total
                    (5 <=? weekday (dt_add start_date s))
                    (_is_holiday_week (holiday_weeks self)
                                      (dt_add start_date s)) g1)
          as (b & g2 & Hb).
        rewrite Hb in H. discriminate H.
      * destruct b; [discriminate H | eapply IH; exact H].
Qed.

Lemma randint_total a b g :
  a <= b -> exists z g', Random.randint a b g = Ok (z, g').
Proof.
  intro Hab. unfold Random.randint.
  destruct (Z.ltb_spec b a); [lia |]. eexists. eexists. reflexivity.
Qed.

Lemma generate_item_total self g :
  filter p_is_high_demand (products self) <> [] ->
  exists it g', generate_item self g = Ok (it, g') /\ True.
Proof.
  intro Hhd.
  assert (Hps : products self <> []).
  { intro Hnil. apply Hhd. rewrite Hnil. reflexivity. }
  unfold generate_item.
  destruct (random_total g) as (r1 & g1 & Hr1).
  unfold bind at 1. rewrite Hr1.
  assert (Hchoice : exists p g2,
             (if PrimFloat.ltb r1 0.3
              then Random.choice (filter p_is_high_demand (products self))
              else Random.choice (products self)) g1 = Ok (p, g2)).
  { destruct (PrimFloat.ltb r1 0.3).
    - destruct (choice_total _ g1 Hhd) as (p & g2 & Hp & _). eauto.
    - destruct (choice_total _ g1 Hps) as (p & g2 & Hp & _). eauto. }
  destruct Hchoice as (p & g2 & Hp).
  unfold bind at 1. rewrite Hp.
  destruct (randint_total 1 10 g2 ltac:(lia)) as (q1 & g3 & Hq1).
  unfold bind at 1. rewrite Hq1.
  destruct (random_total g3) as (r2 & g4 & Hr2).
  unfold bind at 1. rewrite Hr2.
  assert (Hq2 : exists q g5,
             (if PrimFloat.ltb r2 0.1 then Random.randint 6 10 else ret q1) g4
             = Ok (q, g5)).
  { destruct (PrimFloat.ltb r2 0.1).
    - apply randint_total. lia.
    - eexists. eexists. reflexivity. }
  destruct Hq2 as (q2 & g5 & Hq2).
  unfold bind at 1. rewrite Hq2.
  destruct (random_total g5) as (r3 & g6 & Hr3).
  unfold bind at 1. rewrite Hr3.
  assert (Hq3 : exists q g7,
             (if PrimFloat.ltb r3 0.001 then Random.randint 50 100 else ret q2)
               g6 = Ok (q, g7)).
  { destruct (PrimFloat.ltb r3 0.001).
    - apply randint_total. lia.
    - eexists. eexists. reflexivity. }
  destruct Hq3 as (q3 & g7 & Hq3).
  unfold bind at 1. rewrite Hq3.
  eexists. eexists. split; [reflexivity | exact I].
Qed.

Lemma store_location_total g :
  exists x g',
    Random.choices1 (map fst STORE_LOCATIONS) (map snd STORE_LOCATIONS) g
    = Ok (x, g').
Proof.
  unfold Random.choices1.
  destruct (rev (Random.accumulate (map snd STORE_LOCATIONS)))
    as [| last rest] eqn:E; [vm_compute in E; discriminate E |].
  simpl map. unfold bind, Random.random, next_raw, bind, ret.
  eexists. eexists. reflexivity.
Qed.

Lemma generate_transaction_raise fuel self g e :
  customers self <> [] ->
  filter p_is_high_demand (products self) <> [] ->
  generate_transaction fuel self g = Raise e ->
  e = OutOfFuel.
Proof.
  intros Hcs Hhd H. unfold generate_transaction in H.
  apply bind_raise in H. destruct H as [H | (c & g1 & _ & H)].
  { destruct (choice_total _ g Hcs) as (c & g1 & Hc & _).
    rewrite Hc in H. discriminate H. }
  apply bind_raise in H. destruct H as [H | (d & g2 & _ & H)].
  { eapply draw_transaction_date_raise. exact H. }
  exfalso.
  apply bind_raise in H. destruct H as [H | (n & g3 & _ & H)].
  { destruct (randint_total 1 15 g2 ltac:(lia)) as (n & g3 & Hn).
    rewrite Hn in H. discriminate H. }
  apply bind_raise in H. destruct H as [H | (items & g4 & _ & H)].
  { destruct (mapM_total (fun _ : Z => generate_item self) (fun _ _ => True)
                (fun _ g0 => generate_item_total self g0 Hhd) (range n) g3)
      as (items & g4 & Hitems & _).
    rewrite Hitems in H. discriminate H. }
  apply bind_raise in H. destruct H as [H | (r & g5 & _ & H)];
    [discriminate H |].
  apply bind_raise in H. destruct H as [H | (disc & g6 & _ & H)].
  { destruct (PrimFloat.ltb r _); [| discriminate H].
    apply bind_raise in H. destruct H as [H | (x & gx & _ & H)];
      discriminate H. }
  apply bind_raise in H. destruct H as [H | (tid & g7 & _ & H)];
    [discriminate H |].
  apply bind_raise in H. destruct H as [H | (loc & g8 & _ & H)].
  { destruct (store_location_total g7) as (x & gx & Hx).
    rewrite Hx in H. discriminate H. }
  apply bind_raise in H. destruct H as [H | (pm & g9 & _ & H)];
    discriminate H.
Qed.

(** With at least one customer and at least one product flagged high-demand,
    no draw of [generate_transaction] can fail: the one way the embedded
    function stops without a transaction is the bound on the candidates of
    the date loop. *)
Theorem transaction_fails_only_at_the_loop_bound fuel self g e :
  customers self <> [] ->
  filter p_is_high_demand (products self) <> [] ->
  generate_transaction fuel self g = Raise e ->
  e = OutOfFuel.
Proof. apply generate_transaction_raise. Qed.

Lemma transaction_fails_only_at_the_loop_bound_witness :
  generate_transaction 0 sample_generator sample_rng = Raise OutOfFuel.
Proof.
  destruct (generate_transaction 0 sample_generator sample_rng)
    as [[t g'] | e] eqn:H.
  - vm_compute in H. discriminate H.
  - f_equal.
    apply (transaction_fails_only_at_the_loop_bound 0 sample_generator
             sample_rng e); [| | exact H]; vm_compute; discriminate.
Defined.

(** ** The files of the dataset *)

Lemma map_fst_combine {A B} (xs : list A) :
  forall (ys : list B),
    List.length xs = List.length ys -> map fst (combine xs ys) = xs.
Proof.
  induction xs as [| x xs IH]; intros [| y ys] Hlen; simpl in *;
    try reflexivity; try discriminate.
  f_equal. apply IH. lia.
Qed.

Lemma map_snd_combine {A B} (xs : list A) :
  forall (ys : list B),
    List.length xs = List.length ys -> map snd (combine xs ys) = ys.
Proof.
  induction xs as [| x xs IH]; intros [| y ys] Hlen; simpl in *;
    try reflexivity; try discriminate.
  f_equal. apply IH. lia.
Qed.

Lemma split_rows_length {A} (df : list A) k chunks :
  split_rows df k = Ok chunks ->
  List.length chunks = List.length (range k).
Proof.
  unfold split_rows. destruct (k =? 0); [discriminate |].
  intro H. injection H as <-. apply length_map.
Qed.

Lemma split_rows_concat {A} (df : list A) k chunks :
  1 <= k -> split_rows df k = Ok chunks -> List.concat chunks = df.
Proof.
  intros Hk H. rewrite (split_rows_blocks df k Hk) in H.
  injection H as <-. rewrite concat_app. simpl. rewrite app_nil_r.
  apply concat_blocks.
Qed.

(** With [FILES_TO_SPLIT >= 1], [generate_dataset] writes exactly
    [FILES_TO_SPLIT] files, named [grocery_transactions_1.csv] to
    [grocery_transactions_k.csv] in this order, and their rows, one file
    after the other, are the generated rows in generation order. *)
Theorem dataset_files_hold_the_generated_rows cfg fuel self g files g' :
  1 <= FILES_TO_SPLIT cfg ->
  generate_dataset cfg fuel self g = Ok (files, g') ->
  exists df,
    generate_rows cfg fuel self g = Ok (df, g')
    /\ Z.of_nat (List.length files) = FILES_TO_SPLIT cfg
    /\ map fst files = map output_file (range (FILES_TO_SPLIT cfg))
    /\ List.concat (map snd files) = df.
Proof.
  intros Hk H. unfold generate_dataset in H. gen_step H.
  destruct (split_rows v (FILES_TO_SPLIT cfg)) as [chunks | e] eqn:Hsplit;
    [| discriminate H].
  gen_ret H. exists v.
  pose proof (split_rows_length _ _ _ Hsplit) as Hlen.
  assert (Hnames : List.length (map output_file (range (FILES_TO_SPLIT cfg)))
                   = List.length chunks)
    by (rewrite length_map; symmetry; exact Hlen).
  split; [exact Hstep | split; [| split]].
  - rewrite length_combine, Hnames, Nat.min_id, Hlen, length_range. lia.
  - apply map_fst_combine. exact Hnames.
  - rewrite (map_snd_combine _ _ Hnames).
    eapply split_rows_concat; eassumption.
Qed.

Lemma dataset_files_hold_the_generated_rows_witness :
  exists files g' df,
    generate_dataset sample_config 20 sample_generator sample_rng
    = Ok (files, g')
    /\ generate_rows sample_config 20 sample_generator sample_rng = Ok (df, g')
    /\ Z.of_nat (List.length files) = 2
    /\ map fst files = map output_file (range 2)
    /\ List.concat (map snd files) = df.
Proof.
  destruct (generate_dataset sample_config 20 sample_generator sample_rng)
    as [[files g'] | e] eqn:H.
  - destruct (dataset_files_hold_the_generated_rows sample_config 20
                sample_generator sample_rng files g' ltac:(simpl; lia) H)
      as (df & Hdf).
    exists files, g', df. split; [reflexivity | exact Hdf].
  - vm_compute in H. discriminate H.
Defined.

Lemma foldM_length_bounds {A B} (f : list B -> A -> Gen (list B)) (lo hi : nat) :
  (forall acc x g acc' g',
      f acc x g = Ok (acc', g') ->
      (List.length acc + lo <= List.length acc' <= List.length acc + hi)%nat) ->
  forall xs acc g r g',
    foldM f acc xs g = Ok (r, g') ->
    (List.length acc + lo * List.length xs <= List.length r
     <= List.length acc + hi * List.length xs)%nat.
Proof.
  intros Hf xs. induction xs as [| x xs IH]; intros acc g r g' H; simpl in H.
  - gen_ret H. simpl. lia.
  - gen_step H. specialize (Hf _ _ _ _ _ Hstep). specialize (IH _ _ _ _ H).
    simpl. nia.
Qed.

(** The frame [generate_dataset] builds has at least one row and at most 15
    rows for each of the [TOTAL_TRANSACTIONS] transactions. *)
Theorem generated_rows_count cfg fuel self g df g' :
  generate_rows cfg fuel self g = Ok (df, g') ->
  let n := Z.max 0 (TOTAL_TRANSACTIONS cfg) in
  n <= Z.of_nat (List.length df) <= 15 * n.
Proof.
  intros H n. unfold generate_rows in H.
  pose proof (foldM_length_bounds
                (fun transactions (_ : Z) =>
                   t <- generate_transaction fuel self ;;
                   ret (transactions ++ flatten_transaction t))
                1 15) as Hb.
  assert (Hstep : forall acc (x : Z) g0 acc' g0',
             (t <- generate_transaction fuel self ;;
              ret (acc ++ flatten_transaction t)) g0 = Ok (acc', g0') ->
             (List.length acc + 1 <= List.length acc'
              <= List.length acc + 15)%nat).
  { intros acc x g0 acc' g0' Hf. gen_step Hf. gen_ret Hf.
    destruct (generate_transaction_parts _ _ _ _ _ Hstep) as (_ & _ & Hn & _).
    rewrite length_app. unfold flatten_transaction. rewrite length_map. lia. }
  specialize (Hb Hstep _ _ _ _ _ H).
  pose proof (length_range (TOTAL_TRANSACTIONS cfg)) as Hr.
  simpl in Hb. subst n. lia.
Qed.

Lemma generated_rows_count_witness :
  exists df g',
    generate_rows sample_config 20 sample_generator sample_rng = Ok (df, g')
    /\ 3 <= Z.of_nat (List.length df) <= 15 * 3.
Proof.
  destruct (generate_rows sample_config 20 sample_generator sample_rng)
    as [[df g'] | e] eqn:H.
  - exists df, g'. split; [reflexivity |].
    exact (generated_rows_count _ _ _ _ _ _ H).
  - vm_compute in H. discriminate H.
Defined.

(** The partitioner at its edges: with [k = 0] the floor division raises
    [ZeroDivisionError]; with [k < 0] nothing is raised and no chunk is
    produced, so no row is written; with [k >= 1] and fewer rows than
    chunks, the first [k - 1] chunks are empty and the last holds every
    row. *)
Theorem split_rows_at_the_edges {A : Type} (df : list A) (k : Z) :
  (k = 0 -> split_rows df k = Raise ZeroDivisionError)
  /\ (k < 0 -> split_rows df k = Ok [])
  /\ (1 <= k -> Z.of_nat (List.length df) < k ->
      split_rows df k = Ok (repeat [] (Z.to_nat (k - 1)) ++ [df])).
Proof.
  split; [| split].
  - intros ->. reflexivity.
  - intro Hk. unfold split_rows.
    destruct (Z.eqb_spec k 0); [lia |].
    unfold range. replace (Z.to_nat k) with 0%nat by lia. reflexivity.
  - intros Hk Hn. rewrite (split_rows_blocks df k Hk).
    rewrite Z.div_small by lia. simpl Z.to_nat.
    f_equal. f_equal.
    + assert (Hempty : forall l : list nat,
                 map (fun i => firstn 0 (skipn (i * 0) df)) l
                 = repeat [] (List.length l)).
      { intro l. induction l as [| i l IH]; [reflexivity |].
        simpl. f_equal. exact IH. }
      rewrite Hempty, length_seq. reflexivity.
    + rewrite Nat.mul_0_r. reflexivity.
Qed.

Lemma split_rows_at_the_edges_witness :
  split_rows [10; 11] 0 = Raise ZeroDivisionError
  /\ split_rows [10; 11] (-2) = Ok []
  /\ split_rows [10; 11] 4 = Ok ([[]; []; []] ++ [[10; 11]]).
Proof.
  destruct (split_rows_at_the_edges [10; 11] 0) as (H0 & _ & _).
  destruct (split_rows_at_the_edges [10; 11] (-2)) as (_ & Hneg & _).
  destruct (split_rows_at_the_edges [10; 11] 4) as (_ & _ & Hfew).
  split; [apply H0; reflexivity | split].
  - apply Hneg. lia.
  - apply Hfew; simpl; lia.
Defined.

Lemma is_holiday_week_decides_witness :
  _is_holiday_week _get_holiday_weeks (datetime_ymd_hms 2023 12 27 10 30 0)
  = existsb (fun '(y, m, d) =>
               let monday := ymd2ord y m d - weekday (datetime_ymd y m d) in
               (monday <=? dt_ordinal (datetime_ymd_hms 2023 12 27 10 30 0))
               && ((dt_ordinal (datetime_ymd_hms 2023 12 27 10 30 0)
                    <? monday + 6)
                   || ((dt_ordinal (datetime_ymd_hms 2023 12 27 10 30 0)
                        =? monday + 6)
                       && (dt_second (datetime_ymd_hms 2023 12 27 10 30 0)
                           =? 0))))
            holidays.
Proof.
  apply (is_holiday_week_decides (datetime_ymd_hms 2023 12 27 10 30 0)).
  simpl. lia.
Defined.

(** * Further properties of the metric layer *)

(** ** Grouping *)

Section DistinctKeys.
Context {K : Type} (eqb : K -> K -> bool).
Hypothesis eqb_eq : forall a b, eqb a b = true <-> a = b.

Lemma existsb_eqb_In k seen : existsb (eqb k) seen = true <-> In k seen.
Proof.
  rewrite existsb_exists. split.
  - intros (x & Hx & Hk). apply eqb_eq in Hk. subst x. exact Hx.
  - intro Hk. exists k. split; [exact Hk | apply eqb_eq; reflexivity].
Qed.

Lemma distinct_from_In ks :
  forall seen x,
    In x (distinct_from eqb seen ks) <-> In x ks /\ ~ In x seen.
Proof.
  induction ks as [| k ks IH]; intros seen x; simpl.
  - tauto.
  - destruct (existsb (eqb k) seen) eqn:E.
    + apply existsb_eqb_In in E. rewrite IH. split.
      * intros [Hx Hn]. split; [right; exact Hx | exact Hn].
      * intros [[-> | Hx] Hn]; [contradiction | split; assumption].
    + assert (Hk : ~ In k seen).
      { intro Hin. apply existsb_eqb_In in Hin. congruence. }
      simpl. rewrite IH. simpl. split.
      * intros [-> | [Hx Hn]]; [split; [left; reflexivity | exact Hk] |].
        split; [right; exact Hx | tauto].
      * intros [[-> | Hx] Hn]; [left; reflexivity |].
        destruct (eqb k x) eqn:Ekx.
        -- apply eqb_eq in Ekx. left. exact Ekx.
        -- right. split; [exact Hx |]. intros [-> | Hin]; [| contradiction].
           assert (eqb x x = true) by (apply eqb_eq; reflexivity). congruence.
Qed.

Lemma distinct_from_NoDup ks :
  forall seen, NoDup (distinct_from eqb seen ks).
Proof.
  induction ks as [| k ks IH]; intro seen; simpl.
  - constructor.
  - destruct (existsb (eqb k) seen); [apply IH |].
    constructor; [| apply IH].
    rewrite distinct_from_In. intros [_ Hn]. apply Hn. left. reflexivity.
Qed.

(** The distinct keys: every key of the column, once. *)
Lemma distinct_In ks x : In x (distinct eqb ks) <-> In x ks.
Proof. unfold distinct. rewrite distinct_from_In. simpl. tauto. Qed.

Lemma distinct_NoDup ks : NoDup (distinct eqb ks).
Proof. apply distinct_from_NoDup. Qed.
End DistinctKeys.

Lemma filter_single {A} (p : A -> bool) (l : list A) a :
  NoDup l -> In a l -> p a = true ->
  (forall b, In b l -> p b = true -> b = a) ->
  filter p l = [a].
Proof.
  induction l as [| x l IH]; simpl; intros Hnd Ha Hpa Huniq; [contradiction |].
  inversion Hnd as [| ? ? Hx Hl]; subst.
  destruct Ha as [-> | Ha].
  - rewrite Hpa. f_equal.
    assert (Hnone : forall b, In b l -> p b = false).
    { intros b Hb. destruct (p b) eqn:E; [| reflexivity].
      exfalso. apply Hx. rewrite <- (Huniq b (or_intror Hb) E). exact Hb. }
    clear -Hnone. induction l as [| y l IH]; [reflexivity |].
    simpl. rewrite (Hnone y (or_introl eq_refl)). apply IH.
    intros b Hb. apply Hnone. right. exact Hb.
  - destruct (p x) eqn:E.
    + exfalso. apply Hx. rewrite (Huniq x (or_introl eq_refl) E). exact Ha.
    + apply IH; try assumption.
      intros b Hb. apply Huniq. right. exact Hb.
Qed.

Lemma filter_map_comm {A B} (f : A -> B) (p : B -> bool) (l : list A) :
  filter p (map f l) = map f (filter (fun x => p (f x)) l).
Proof.
  induction l as [| x l IH]; [reflexivity |].
  simpl. destruct (p (f x)); simpl; rewrite IH; reflexivity.
Qed.

(** ** The frames of the anomaly metrics *)

(** A merge in which every row meets exactly one row of statistics keeps
    every row once, in order. *)
Lemma merge_stats_single (stats : list product_stat) (pick : line -> product_stat) :
  forall rows,
    (forall r, In r rows ->
               filter (fun s => String.eqb (s_product_id s) (product_id r)) stats
               = [pick r]) ->
    merge_stats rows stats = map (fun r => (r, pick r)) rows.
Proof.
  induction rows as [| r rows IH]; intro H; [reflexivity |].
  unfold merge_stats in *. simpl.
  rewrite (H r (or_introl eq_refl)). simpl. f_equal.
  apply IH. intros r' Hr'. apply H. right. exact Hr'.
Qed.

Lemma anomaly_metrics_merge df :
  merge_stats df (map (fun '(pid, rows) => stat_of_group pid rows)
                      (groupby String.eqb product_id df))
  = map (fun r => (r, own_product_stat df r)) df.
Proof.
  apply merge_stats_single. intros r Hr.
  unfold groupby. rewrite map_map. cbn beta iota.
  rewrite filter_map_comm. cbn [s_product_id stat_of_group].
  rewrite (filter_single _ _ (product_id r)).
  - reflexivity.
  - apply distinct_NoDup. exact String.eqb_eq.
  - apply distinct_In; [exact String.eqb_eq |]. apply in_map. exact Hr.
  - apply String.eqb_refl.
  - intros b _ Hb. apply String.eqb_eq in Hb. exact Hb.
Qed.

(** [get_anomaly_metrics] scores every line of the frame exactly once, in
    frame order, against the mean and standard deviation of the quantities
    and unit prices of all lines with the same product id, a zero standard
    deviation replaced by 1; no z-score is a division by zero. *)
Theorem anomaly_metrics_score_each_line_once (df : list line) :
  map sl_line (anomaly_metrics_frame df) = df
  /\ Forall (fun s =>
               let own := own_product_stat df (sl_line s) in
               qty_mean (sl_stat s) = qty_mean own
               /\ qty_std (sl_stat s) = replace_zero_by_one (qty_std own)
               /\ price_mean (sl_stat s) = price_mean own
               /\ price_std (sl_stat s) = replace_zero_by_one (price_std own)
               /\ quantity_zscore s
                  = zscore (float_of_int (quantity (sl_line s)))
                           (qty_mean (sl_stat s)) (qty_std (sl_stat s))
               /\ price_zscore s
                  = zscore (unit_price (sl_line s))
                           (price_mean (sl_stat s)) (price_std (sl_stat s))
               /\ PrimFloat.eqb (qty_std (sl_stat s)) 0 = false
               /\ PrimFloat.eqb (price_std (sl_stat s)) 0 = false)
            (anomaly_metrics_frame df).
Proof.
  unfold anomaly_metrics_frame. rewrite anomaly_metrics_merge, !map_map.
  split.
  - cbn beta iota. cbn [sl_line]. apply map_id.
  - apply Forall_map, Forall_forall. intros r _. cbn.
    repeat split; apply replace_zero_by_one_nonzero.
Qed.

Lemma triple_eqb_eq a b : triple_eqb a b = true <-> a = b.
Proof.
  destruct a as [[a1 a2] a3], b as [[b1 b2] b3]. unfold triple_eqb.
  rewrite !andb_true_iff, !String.eqb_eq. split.
  - intros [[-> ->] ->]. reflexivity.
  - intro H. injection H as -> -> ->. auto.
Qed.

Lemma anomaly_detection_merge df :
  id_determines_product df ->
  merge_stats df
    (map (fun '((pid, _, _), rows) => stat_of_group pid rows)
         (groupby triple_eqb
                  (fun r => (product_id r, product_name r, product_category r))
                  df))
  = map (fun r =>
           (r, stat_of_group (product_id r)
                 (filter (fun r' =>
                            triple_eqb
                              (product_id r', product_name r',
                               product_category r')
                              (product_id r, product_name r,
                               product_category r)) df))) df.
Proof.
  intro Hfd. apply merge_stats_single. intros r Hr.
  unfold groupby. rewrite map_map, filter_map_comm.
  set (key := fun r0 : line =>
                (product_id r0, product_name r0, product_category r0)).
  rewrite (filter_single _ _ (key r)).
  - reflexivity.
  - apply distinct_NoDup. exact triple_eqb_eq.
  - apply distinct_In; [exact triple_eqb_eq |].
    apply (in_map key). exact Hr.
  - cbn. apply String.eqb_refl.
  - intros [[pid name] cat] Hin Hb. cbn in Hb. apply String.eqb_eq in Hb.
    apply distinct_In in Hin; [| exact triple_eqb_eq].
    apply in_map_iff in Hin. destruct Hin as (r' & Hkey & Hr').
    unfold key in Hkey. injection Hkey as <- <- <-.
    destruct (Hfd r' r Hr' Hr Hb) as [Hname Hcat].
    unfold key. rewrite Hb, Hname, Hcat. reflexivity.
Qed.

(** When the id determines name and category, the group of a line by id,
    name and category is the group of its id. *)
Lemma triple_group_is_id_group df r :
  id_determines_product df -> In r df ->
  filter (fun r' =>
            triple_eqb (product_id r', product_name r', product_category r')
                       (product_id r, product_name r, product_category r)) df
  = filter (fun r' => String.eqb (product_id r') (product_id r)) df.
Proof.
  intros Hfd Hr. apply filter_ext_in. intros r' Hr'. cbn.
  destruct (String.eqb_spec (product_id r') (product_id r)) as [Hid | Hid];
    [| reflexivity].
  destruct (Hfd r' r Hr' Hr Hid) as [-> ->].
  rewrite !String.eqb_refl. reflexivity.
Qed.

(** [create_anomaly_detection] groups by id, name and category but merges on
    the id alone.  When the id determines name and category, every line is
    scored exactly once, in frame order, against the mean and standard
    deviation of the quantities and unit prices of all lines with the same
    product id, and divided by the standard deviations as they are. *)
Theorem anomaly_detection_scores_each_line_once (df : list line) :
  id_determines_product df ->
  map sl_line (create_anomaly_detection df) = df
  /\ Forall (fun s =>
               let own := own_product_stat df (sl_line s) in
               sl_stat s = own
               /\ quantity_zscore s
                  = zscore (float_of_int (quantity (sl_line s)))
                           (qty_mean own) (qty_std own)
               /\ price_zscore s
                  = zscore (unit_price (sl_line s))
                           (price_mean own) (price_std own))
            (create_anomaly_detection df).
Proof.
  intro Hfd. unfold create_anomaly_detection.
  rewrite (anomaly_detection_merge df Hfd), !map_map. split.
  - cbn beta iota. cbn [sl_line]. apply map_id.
  - apply Forall_map, Forall_forall. intros r Hr.
    cbn beta iota zeta. cbn [sl_line sl_stat quantity_zscore price_zscore].
    unfold own_product_stat.
    rewrite (triple_group_is_id_group df r Hfd Hr).
    repeat split.
Qed.

Lemma anomaly_detection_scores_each_line_once_witness :
  map sl_line (create_anomaly_detection constant_quantity_frame)
  = constant_quantity_frame
  /\ Forall (fun s =>
               let own := own_product_stat constant_quantity_frame (sl_line s) in
               sl_stat s = own
               /\ quantity_zscore s
                  = zscore (float_of_int (quantity (sl_line s)))
                           (qty_mean own) (qty_std own)
               /\ price_zscore s
                  = zscore (unit_price (sl_line s))
                           (price_mean own) (price_std own))
            (create_anomaly_detection constant_quantity_frame).
Proof.
  apply (anomaly_detection_scores_each_line_once constant_quantity_frame).
  intros r r' Hr Hr' _. simpl in Hr, Hr'.
  destruct Hr as [<- | [<- | []]], Hr' as [<- | [<- | []]];
    split; reflexivity.
Defined.

(** Without that, a line is scored once for every name and category its
    product id occurs with: the merged frame has one row for each pair of a
    line and a group with its id, so never fewer rows than the frame. *)
Theorem anomaly_detection_never_drops_a_line (df : list line) :
  (List.length df <= List.length (create_anomaly_detection df))%nat
  /\ forall r, In r df -> In r (map sl_line (create_anomaly_detection df)).
Proof.
  unfold create_anomaly_detection.
  set (key := fun r0 : line =>
                (product_id r0, product_name r0, product_category r0)).
  set (stats := map _ (groupby triple_eqb key df)).
  assert (Hmatch : forall r, In r df ->
             exists s, In s (filter (fun s => String.eqb (s_product_id s)
                                                         (product_id r)) stats)).
  { intros r Hr.
    exists (stat_of_group (product_id r)
              (filter (fun r' => triple_eqb (key r') (key r)) df)).
    apply filter_In. split; [| apply String.eqb_refl].
    unfold stats, groupby. rewrite map_map. apply in_map_iff.
    exists (key r). split; [reflexivity |].
    apply distinct_In; [exact triple_eqb_eq |]. apply in_map. exact Hr. }
  rewrite length_map. split.
  - unfold merge_stats.
    assert (Hgen : forall rows, (forall r, In r rows -> In r df) ->
               (List.length rows
                <= List.length
                     (flat_map
                        (fun r => map (fun s => (r, s))
                                      (filter (fun s => String.eqb (s_product_id s)
                                                                   (product_id r))
                                              stats)) rows))%nat).
    { induction rows as [| r rows IH]; intro Hsub; [simpl; lia |].
      simpl. rewrite length_app, length_map.
      destruct (Hmatch r (Hsub r (or_introl eq_refl))) as (s & Hs).
      destruct (filter _ stats) as [| s0 rest]; [contradiction |].
      specialize (IH (fun r' Hr' => Hsub r' (or_intror Hr'))).
      simpl. lia. }
    apply Hgen. auto.
  - intros r Hr. rewrite map_map. apply in_map_iff.
    destruct (Hmatch r Hr) as (s & Hs).
    exists (r, s). split; [reflexivity |].
    unfold merge_stats. apply in_flat_map. exists r. split; [exact Hr |].
    apply in_map. exact Hs.
Qed.

(** ** From the generator to the metrics *)

(** A run of [main]: the generator it builds and what its lines refer to. *)
Lemma main_lines_from_catalogs cfg fuel g files g' :
  main cfg fuel g = Ok (files, g') ->
  exists self,
    NoDup (map p_product_id (products self))
    /\ Forall (fun p => In (p_category p) (map fst PRODUCT_CATEGORIES))
              (products self)
    /\ forall name rows l,
        In (name, rows) files -> In l rows -> line_from_catalogs self l.
Proof.
  unfold main, init. intro H. gen_step H. rename v into self.
  gen_step Hstep. gen_step Hstep. gen_ret Hstep.
  destruct (generate_products_catalog _ _ _ _ Hstep1) as (_ & _ & Hnd & Hcat).
  exists (mkGenerator v v0 _get_holiday_weeks).
  split; [exact Hnd | split; [exact Hcat |]].
  exact (generate_dataset_lines cfg fuel _ _
           (flatten_from_catalogs fuel _) _ _ _ H).
Qed.

Lemma In_concat_files (files : list (string * list line)) l :
  In l (List.concat (map snd files)) ->
  exists name rows, In (name, rows) files /\ In l rows.
Proof.
  intro H. apply in_concat in H. destruct H as (rows & Hrows & Hl).
  apply in_map_iff in Hrows. destruct Hrows as ([name rows'] & <- & Hfile).
  exists name, rows'. split; assumption.
Qed.

(** In the lines a run of [main] writes, the product id determines the name
    and the category, so [create_anomaly_detection] on the loaded lines
    scores every line exactly once, in order. *)
Theorem generated_lines_are_scored_once cfg fuel g files g' :
  main cfg fuel g = Ok (files, g') ->
  let df := List.concat (map snd files) in
  id_determines_product df
  /\ map sl_line (create_anomaly_detection df) = df.
Proof.
  intros H df.
  destruct (main_lines_from_catalogs _ _ _ _ _ H) as (self & Hnd & _ & Hlines).
  assert (Hfd : id_determines_product df).
  { intros r r' Hr Hr' Hid.
    apply In_concat_files in Hr. destruct Hr as (n1 & rows1 & Hf1 & Hl1).
    apply In_concat_files in Hr'. destruct Hr' as (n2 & rows2 & Hf2 & Hl2).
    destruct (Hlines _ _ _ Hf1 Hl1) as (_ & p1 & Hp1 & Hid1 & -> & -> & _).
    destruct (Hlines _ _ _ Hf2 Hl2) as (_ & p2 & Hp2 & Hid2 & -> & -> & _).
    assert (p1 = p2)
      by (eapply NoDup_map_injective; [exact Hnd | assumption .. | congruence]).
    subst p2. split; reflexivity. }
  split; [exact Hfd |].
  unfold create_anomaly_detection.
  rewrite (anomaly_detection_merge df Hfd), !map_map.
  cbn beta iota. cbn [sl_line]. apply map_id.
Qed.

Lemma generated_lines_are_scored_once_witness :
  exists files g',
    main sample_config 20 sample_rng = Ok (files, g')
    /\ List.concat (map snd files) <> []
    /\ map sl_line (create_anomaly_detection (List.concat (map snd files)))
       = List.concat (map snd files).
Proof.
  destruct (main sample_config 20 sample_rng) as [[files g'] | e] eqn:H.
  - exists files, g'. split; [reflexivity | split].
    + vm_compute in H. injection H as <- _. discriminate.
    + exact (proj2 (generated_lines_are_scored_once _ _ _ _ _ H)).
  - vm_compute in H. discriminate H.
Defined.

(** ** Financial metrics *)

Lemma every_category_has_a_margin c :
  In c (map fst PRODUCT_CATEGORIES) ->
  exists m, lookup_margin category_margins c = Some m
            /\ PrimFloat.leb 0.25 m = true /\ PrimFloat.leb m 0.55 = true.
Proof.
  simpl. intro H.
  repeat (destruct H as [<- | H];
          [eexists; split; [reflexivity | split; reflexivity] |]).
  contradiction.
Qed.

(** Every line a run of [main] writes has a category with an entry in the
    margin table of the financial metrics, between 25% and 55%: on generated
    data the column [margin_percentage] holds no NaN, and unit cost and
    margin are computed from the entry. *)
Theorem generated_lines_have_a_margin cfg fuel g files g' :
  main cfg fuel g = Ok (files, g') ->
  forall name rows l,
    In (name, rows) files -> In l rows ->
    exists m,
      lookup_margin category_margins (product_category l) = Some m
      /\ PrimFloat.leb 0.25 m = true /\ PrimFloat.leb m 0.55 = true
      /\ margin_percentage (finance_row l) = m
      /\ unit_cost (finance_row l) = (unit_price l * (1 - m))%float
      /\ margin (finance_row l)
         = (total_price l
            - unit_price l * (1 - m) * float_of_int (quantity l))%float.
Proof.
  intros H name rows l Hfile Hl.
  destruct (main_lines_from_catalogs _ _ _ _ _ H) as (self & _ & Hcat & Hlines).
  destruct (Hlines _ _ _ Hfile Hl) as (_ & p & Hp & _ & _ & Hc & _).
  rewrite Forall_forall in Hcat. specialize (Hcat p Hp). rewrite <- Hc in Hcat.
  destruct (every_category_has_a_margin _ Hcat) as (m & Hm & Hlo & Hhi).
  exists m. unfold finance_row. cbn [margin_percentage unit_cost margin].
  unfold margin_of_category. rewrite Hm.
  repeat split; assumption.
Qed.

Lemma generated_lines_have_a_margin_witness :
  exists files g',
    main sample_config 20 sample_rng = Ok (files, g')
    /\ files <> []
    /\ forall name rows l,
        In (name, rows) files -> In l rows ->
        exists m, lookup_margin category_margins (product_category l) = Some m.
Proof.
  destruct (main sample_config 20 sample_rng) as [[files g'] | e] eqn:H.
  - exists files, g'. split; [reflexivity | split].
    + vm_compute in H. injection H as <- _. discriminate.
    + intros name rows l Hf Hl.
      destruct (generated_lines_have_a_margin _ _ _ _ _ H _ _ _ Hf Hl)
        as (m & Hm & _).
      exists m. exact Hm.
  - vm_compute in H. discriminate H.
Defined.

Lemma In_insert_sorted k ks x :
  In x (insert_sorted k ks) <-> x = k \/ In x ks.
Proof.
  induction ks as [| k' ks IH]; simpl.
  - intuition.
  - destruct (String.leb k k'); simpl; [intuition |].
    rewrite IH. intuition.
Qed.

Lemma In_sort_keys ks x : In x (sort_keys ks) <-> In x ks.
Proof.
  unfold sort_keys. induction ks as [| k ks IH]; simpl; [tauto |].
  rewrite In_insert_sorted, IH. intuition.
Qed.

Lemma idxmax_from_In rows :
  forall best c,
    idxmax_from best rows = Some c ->
    (exists v, best = Some (c, v)) \/ In c (map fst rows).
Proof.
  induction rows as [| [k v] rows IH]; intros best c H; simpl in H.
  - destruct best as [[k b] |]; simpl in H; [| discriminate].
    injection H as <-. left. eauto.
  - destruct (PrimFloat.is_nan v).
    + destruct (IH _ _ H) as [Hb | Hin]; [left; exact Hb | right; right; exact Hin].
    + destruct best as [[kb b] |].
      * destruct (PrimFloat.ltb b v).
        -- destruct (IH _ _ H) as [(v' & Hb) | Hin].
           ++ injection Hb as <- _. right. left. reflexivity.
           ++ right. right. exact Hin.
        -- destruct (IH _ _ H) as [Hb | Hin];
             [left; exact Hb | right; right; exact Hin].
      * destruct (IH _ _ H) as [(v' & Hb) | Hin].
        -- injection Hb as <- _. right. left. reflexivity.
        -- right. right. exact Hin.
Qed.

(** Whatever the way the columns are summed, when [get_financial_metrics]
    returns, the category it reports as the one with the highest margin is
    the category of a line of the frame; on a frame without lines it does
    not return. *)
Theorem highest_margin_category_is_in_the_frame
        (series_sum group_sum : list float -> float) (df : list line) :
  (forall overall discounted c,
      get_financial_metrics series_sum group_sum df
      = Some (overall, discounted, c) ->
      In c (map product_category df))
  /\ get_financial_metrics series_sum group_sum [] = None.
Proof.
  split; [| reflexivity].
  intros overall discounted c H. unfold get_financial_metrics in H.
  destruct (idxmax _) as [c' |] eqn:Hidx; [| discriminate H].
  injection H as _ _ ->. rename Hidx into H. unfold idxmax in H.
  apply idxmax_from_In in H. destruct H as [(v & Hv) | Hin]; [discriminate |].
  unfold category_margin_percent in Hin. rewrite map_map in Hin.
  cbn [fst] in Hin. rewrite map_id in Hin.
  rewrite In_sort_keys in Hin.
  rewrite (distinct_In String.eqb String.eqb_eq) in Hin.
  unfold finance_frame in Hin. rewrite map_map in Hin. exact Hin.
Qed.

Lemma highest_margin_category_is_in_the_frame_witness :
  get_financial_metrics fsum (kahan_sum 0 0) retention_frame
  = Some (30.000000000000004, PrimFloat.nan, "Dairy"%string)%float
  /\ In "Dairy"%string (map product_category retention_frame).
Proof.
  assert (H : get_financial_metrics fsum (kahan_sum 0 0) retention_frame
              = Some (30.000000000000004, PrimFloat.nan, "Dairy"%string)%float)
    by (vm_compute; reflexivity).
  split; [exact H |].
  exact (proj1 (highest_margin_category_is_in_the_frame
                  fsum (kahan_sum 0 0) retention_frame)
               _ _ _ H).
Defined.

(** ** Geographic metrics *)

Lemma location_type_urban x :
  String.eqb (location_type x) "Urban" = String.eqb x "Downtown".
Proof.
  unfold location_type. simpl existsb.
  destruct (String.eqb_spec x "Downtown") as [-> | Hd]; [reflexivity |].
  simpl. destruct (String.eqb x "Suburb North" || (String.eqb x "Suburb South" || false));
    reflexivity.
Qed.

Lemma location_type_suburban x :
  String.eqb (location_type x) "Suburban"
  = String.eqb x "Suburb North" || String.eqb x "Suburb South".
Proof.
  unfold location_type. simpl existsb.
  destruct (String.eqb_spec x "Downtown") as [-> | Hd]; [reflexivity |].
  simpl. rewrite orb_false_r.
  destruct (String.eqb x "Suburb North" || String.eqb x "Suburb South");
    reflexivity.
Qed.

(** Whatever the way the columns are summed, the geographic metrics depend
    on the Downtown lines and on the lines of the two suburbs only: two
    frames with the same Downtown lines and the same suburb lines, in the
    same order, give the same three metrics, so lines of Coastal or of any
    other store never change them. *)
Theorem geographic_metrics_ignore_other_stores
        (series_sum : list float -> float) (df df' : list line) :
  filter (fun r => String.eqb (store_location r) "Downtown") df
  = filter (fun r => String.eqb (store_location r) "Downtown") df' ->
  filter (fun r => String.eqb (store_location r) "Suburb North"
                   || String.eqb (store_location r) "Suburb South") df
  = filter (fun r => String.eqb (store_location r) "Suburb North"
                     || String.eqb (store_location r) "Suburb South") df' ->
  get_geographic_metrics series_sum df = get_geographic_metrics series_sum df'.
Proof.
  intros Hurban Hsub. unfold get_geographic_metrics.
  rewrite !(filter_ext _ _ (fun r => location_type_urban (store_location r))).
  rewrite !(filter_ext _ _ (fun r => location_type_suburban (store_location r))).
  rewrite Hurban, Hsub. reflexivity.
Qed.

Lemma geographic_metrics_ignore_other_stores_witness :
  get_geographic_metrics fsum
    (retention_frame
     ++ [mkLine 9 9 (datetime_ymd 2023 6 1) "Coastal" "PROD_0003" "Cola 3"
                "Beverages" 2 3.5 7 "Cash" true (PyInt 0)])
  = get_geographic_metrics fsum retention_frame.
Proof.
  apply geographic_metrics_ignore_other_stores; reflexivity.
Defined.

(** * Further properties: weeks, file names, a whole run *)

(** The week [_get_holiday_weeks] builds around any date starts at the
    midnight of a Monday and ends at the midnight that starts the Sunday six
    days later; the date lies between the two days. *)
Theorem holiday_week_runs_monday_to_sunday_midnight (y m d : Z) :
  let week_start := fst (holiday_week (y, m, d)) in
  let week_end := snd (holiday_week (y, m, d)) in
  weekday week_start = 0 /\ dt_second week_start = 0
  /\ weekday week_end = 6 /\ dt_second week_end = 0
  /\ dt_ordinal week_end = dt_ordinal week_start + 6
  /\ dt_ordinal week_start <= ymd2ord y m d <= dt_ordinal week_end.
Proof.
  cbv zeta. rewrite holiday_week_bounds. cbn [fst snd dt_ordinal dt_second].
  unfold weekday. cbn [dt_ordinal datetime_ymd].
  set (o := ymd2ord y m d).
  pose proof (Z.mod_pos_bound (o + 6) 7 ltac:(lia)) as Hmod.
  pose proof (Z.div_mod (o + 6) 7 ltac:(lia)) as Hdm.
  assert (E0 : (o - (o + 6) mod 7 + 6) mod 7 = 0).
  { replace (o - (o + 6) mod 7 + 6) with ((o + 6) / 7 * 7) by lia.
    apply Z.mod_mul. lia. }
  assert (E6 : (o - (o + 6) mod 7 + 6 + 6) mod 7 = 6).
  { replace (o - (o + 6) mod 7 + 6 + 6) with (6 + (o + 6) / 7 * 7) by lia.
    rewrite Z.mod_add by lia. reflexivity. }
  repeat split; try assumption; try reflexivity; lia.
Qed.

(** ** File names *)

Lemma string_length_append (s t : string) :
  String.length (s ++ t) = (String.length s + String.length t)%nat.
Proof. induction s as [| a s IH]; simpl; [reflexivity | rewrite IH; reflexivity]. Qed.

Lemma string_app_inv_tail (s1 s2 t : string) :
  (s1 ++ t)%string = (s2 ++ t)%string -> s1 = s2.
Proof.
  revert s2. induction s1 as [| a s1 IH]; intros [| b s2] H; simpl in H.
  - reflexivity.
  - exfalso. apply (f_equal String.length) in H. simpl in H.
    rewrite string_length_append in H. lia.
  - exfalso. apply (f_equal String.length) in H. simpl in H.
    rewrite string_length_append in H. lia.
  - injection H as -> H. f_equal. apply IH. exact H.
Qed.

Lemma str_of_int_inj i j :
  0 < i -> 0 < j -> str_of_int i = str_of_int j -> i = j.
Proof.
  intros Hi Hj H. rewrite !str_of_positive in H by assumption.
  apply (f_equal NilEmpty.uint_of_string) in H.
  rewrite !NilEmpty.usu in H. injection H as H.
  apply DecimalN.Unsigned.to_uint_inj in H. lia.
Qed.

Lemma output_file_inj i j :
  0 <= i -> 0 <= j -> output_file i = output_file j -> i = j.
Proof.
  intros Hi Hj H. unfold output_file in H.
  apply (f_equal (fun s => String.substring 28 (String.length s - 28) s)) in H.
  simpl in H. rewrite !Nat.sub_0_r in H.
  assert (Hsub : forall s, String.substring 0 (String.length s) s = s).
  { intro s. induction s as [| a s IHs]; [reflexivity |].
    simpl. rewrite IHs. reflexivity. }
  rewrite !Hsub in H.
  apply string_app_inv_tail in H.
  apply str_of_int_inj in H; lia.
Qed.

(** The files of one run have pairwise different names: no file written by
    [generate_dataset] overwrites another. *)
Theorem dataset_file_names_are_distinct cfg fuel self g files g' :
  generate_dataset cfg fuel self g = Ok (files, g') ->
  NoDup (map fst files).
Proof.
  intro H. unfold generate_dataset in H. gen_step H.
  destruct (split_rows v (FILES_TO_SPLIT cfg)) as [chunks | e] eqn:Hsplit;
    [| discriminate H].
  gen_ret H.
  pose proof (split_rows_length _ _ _ Hsplit) as Hlen.
  rewrite map_fst_combine by (rewrite length_map; symmetry; exact Hlen).
  apply NoDup_map_NoDup_ForallPairs.
  - intros i j Hi Hj Hij. unfold range in Hi, Hj.
    apply in_map_iff in Hi. destruct Hi as (a & <- & _).
    apply in_map_iff in Hj. destruct Hj as (b & <- & _).
    apply output_file_inj in Hij; lia.
  - unfold range. apply NoDup_map_NoDup_ForallPairs; [| apply seq_NoDup].
    intros a b _ _ Hab. lia.
Qed.

Lemma dataset_file_names_are_distinct_witness :
  exists files g',
    generate_dataset sample_config 20 sample_generator sample_rng
    = Ok (files, g')
    /\ map fst files
       = ["output/grocery_transactions_1.csv";
          "output/grocery_transactions_2.csv"]%string
    /\ NoDup (map fst files).
Proof.
  destruct (generate_dataset sample_config 20 sample_generator sample_rng)
    as [[files g'] | e] eqn:H.
  - exists files, g'. split; [reflexivity | split].
    + vm_compute in H. injection H as <- _. reflexivity.
    + exact (dataset_file_names_are_distinct _ _ _ _ _ _ H).
  - vm_compute in H. discriminate H.
Defined.

(** ** Failures of a whole run *)

Lemma foldM_raise {A S} (f : S -> A -> Gen S) (P : exn -> Prop) :
  (forall acc x g e, f acc x g = Raise e -> P e) ->
  forall xs acc g e, foldM f acc xs g = Raise e -> P e.
Proof.
  intros Hf xs. induction xs as [| x xs IH]; intros acc g e H; simpl in H.
  - discriminate H.
  - apply bind_raise in H. destruct H as [H | (acc' & g1 & _ & H)].
    + eapply Hf. exact H.
    + eapply IH. exact H.
Qed.

Lemma generate_customers_total cfg g :
  exists cs g',
    _generate_customers cfg g = Ok (cs, g')
    /\ Z.of_nat (List.length cs) = Z.max 0 (TOTAL_CUSTOMERS cfg).
Proof.
  unfold _generate_customers.
  destruct (mapM_total
              (fun _ : Z =>
                 customer_id <- uuid4 ;;
                 r <- Random.random ;;
                 ret (mkCustomer customer_id (PrimFloat.ltb r 0.3)))
              (fun _ _ => True)
              (fun _ g0 => ex_intro _ _ (ex_intro _ _ (conj eq_refl I)))
              (range (TOTAL_CUSTOMERS cfg)) g) as (cs & g' & Hcs & Hall).
  exists cs, g'. split; [exact Hcs |].
  apply Forall2_length in Hall. rewrite <- Hall. apply length_range.
Qed.

Lemma init_total cfg g :
  1 <= TOTAL_CUSTOMERS cfg ->
  5 <= TOTAL_PRODUCTS cfg <= catalog_bound ->
  exists self g',
    init cfg g = Ok (self, g')
    /\ customers self <> []
    /\ filter p_is_high_demand (products self) <> [].
Proof.
  intros Hc Hp. unfold init.
  destruct (generate_customers_total cfg g) as (cs & g1 & Hcs & Hlen).
  set (M := TOTAL_PRODUCTS cfg) in *.
  assert (Hdiv : 1 <= M / 5 <= M).
  { split; [apply Z.div_le_lower_bound; lia |].
    apply Z.div_le_upper_bound; lia. }
  destruct (generate_products_spec cfg g1 (M / 5))
    as (ps & g2 & Hps & _ & _ & Hcount).
  { apply high_demand_count_floor. unfold M in *. lia. }
  fold M in Hcount.
  exists (mkGenerator cs ps _get_holiday_weeks), g2.
  split; [| split].
  - unfold bind. rewrite Hcs, Hps. reflexivity.
  - simpl. intro Hnil. rewrite Hnil in Hlen. simpl in Hlen. lia.
  - simpl. intro Hnil. unfold count_high_demand in Hcount.
    rewrite Hnil in Hcount. simpl in Hcount. lia.
Qed.

(** A whole run, for at least one customer, a catalog of 5 to 5000 products
    and a number of files other than zero: building the catalogs never
    fails, no draw fails, the partitioner does not divide by zero; the one
    way [main] stops without its files is the bound on the date loop. *)
Theorem main_fails_only_at_the_loop_bound cfg fuel g e :
  1 <= TOTAL_CUSTOMERS cfg ->
  5 <= TOTAL_PRODUCTS cfg <= catalog_bound ->
  FILES_TO_SPLIT cfg <> 0 ->
  main cfg fuel g = Raise e ->
  e = OutOfFuel.
Proof.
  intros Hc Hp Hk H. unfold main in H.
  destruct (init_total cfg g Hc Hp) as (self & g1 & Hinit & Hcs & Hhd).
  unfold bind in H. rewrite Hinit in H.
  unfold generate_dataset in H.
  apply bind_raise in H. destruct H as [H | (df & g2 & _ & H)].
  - unfold generate_rows in H.
    eapply (foldM_raise _ (fun e0 => e0 = OutOfFuel)); [| exact H].
    intros acc x g0 e0 H0.
    apply bind_raise in H0. destruct H0 as [H0 | (t & g3 & _ & H0)];
      [| discriminate H0].
    eapply generate_transaction_raise; eassumption.
  - exfalso. unfold split_rows in H.
    destruct (Z.eqb_spec (FILES_TO_SPLIT cfg) 0); [contradiction |].
    discriminate H.
Qed.

Lemma main_fails_only_at_the_loop_bound_witness :
  main sample_config 0 sample_rng = Raise OutOfFuel.
Proof.
  destruct (main sample_config 0 sample_rng) as [[files g'] | e] eqn:H.
  - vm_compute in H. discriminate H.
  - f_equal.
    apply (main_fails_only_at_the_loop_bound sample_config 0 sample_rng e);
      [simpl; lia | unfold catalog_bound; simpl; lia | simpl; lia | exact H].
Defined.

(** ** The order of the rows *)

Lemma dt_leb_refl a : dt_leb a a = true.
Proof. destruct a as [o s]. unfold dt_leb. simpl. lia. Qed.

Lemma dt_leb_trans a b c :
  dt_leb a b = true -> dt_leb b c = true -> dt_leb a c = true.
Proof.
  destruct a as [o1 s1], b as [o2 s2], c as [o3 s3]. unfold dt_leb. simpl. lia.
Qed.

Lemma dt_leb_antisym a b :
  dt_leb a b = true -> dt_leb b a = true -> a = b.
Proof.
  destruct a as [o1 s1], b as [o2 s2]. unfold dt_leb. simpl.
  intros H1 H2. f_equal; lia.
Qed.

Lemma dt_leb_total a b : dt_leb a b = true \/ dt_leb b a = true.
Proof.
  destruct a as [o1 s1], b as [o2 s2]. unfold dt_leb. simpl. lia.
Qed.

Lemma dt_max_upper a b :
  dt_leb a (dt_max a b) = true /\ dt_leb b (dt_max a b) = true
  /\ (dt_max a b = a \/ dt_max a b = b).
Proof.
  unfold dt_max. destruct (dt_leb a b) eqn:E.
  - split; [exact E | split; [apply dt_leb_refl | right; reflexivity]].
  - split; [apply dt_leb_refl | split; [| left; reflexivity]].
    destruct (dt_leb_total a b) as [H | H]; [congruence | exact H].
Qed.

Lemma max_datetime_from_spec xs :
  forall acc,
    let m := max_datetime_from acc xs in
    (m = acc \/ In m xs) /\ dt_leb acc m = true
    /\ forall x, In x xs -> dt_leb x m = true.
Proof.
  induction xs as [| x xs IH]; intro acc; simpl.
  - split; [left; reflexivity | split; [apply dt_leb_refl | tauto]].
  - destruct (IH (dt_max acc x)) as (Hin & Hacc & Hall).
    destruct (dt_max_upper acc x) as (Ha & Hx & Hor).
    split; [| split].
    + destruct Hin as [-> | Hin]; [| right; right; exact Hin].
      destruct Hor as [-> | ->]; [left; reflexivity | right; left; reflexivity].
    + eapply dt_leb_trans; eassumption.
    + intros y [<- | Hy]; [eapply dt_leb_trans; eassumption | apply Hall, Hy].
Qed.

(** The latest timestamp of a column: a member above all members. *)
Lemma max_datetime_spec xs m :
  max_datetime xs = Some m ->
  In m xs /\ forall x, In x xs -> dt_leb x m = true.
Proof.
  destruct xs as [| x xs]; simpl; [discriminate |].
  intro H. injection H as <-.
  destruct (max_datetime_from_spec xs x) as (Hin & Hacc & Hall).
  split.
  - destruct Hin as [-> | Hin]; [left; reflexivity | right; exact Hin].
  - intros y [<- | Hy]; [exact Hacc | apply Hall, Hy].
Qed.

Lemma max_datetime_perm xs xs' :
  Permutation xs xs' -> max_datetime xs = max_datetime xs'.
Proof.
  intro Hp.
  destruct (max_datetime xs) as [m |] eqn:E, (max_datetime xs') as [m' |] eqn:E'.
  - f_equal.
    destruct (max_datetime_spec _ _ E) as (Hin & Hall).
    destruct (max_datetime_spec _ _ E') as (Hin' & Hall').
    apply dt_leb_antisym.
    + apply Hall'. eapply Permutation_in; eassumption.
    + apply Hall. eapply Permutation_in; [apply Permutation_sym |]; eassumption.
  - destruct xs' as [| y ys]; [| discriminate E'].
    apply Permutation_sym, Permutation_nil in Hp. subst xs. discriminate E.
  - destruct xs as [| y ys]; [| discriminate E].
    apply Permutation_nil in Hp. subst xs'. discriminate E'.
  - reflexivity.
Qed.

Lemma Permutation_filter_same {A} (p : A -> bool) (l l' : list A) :
  Permutation l l' -> Permutation (filter p l) (filter p l').
Proof.
  intro H. induction H as [| x l l' H IH | x y l | l l' l'' H1 IH1 H2 IH2];
    simpl.
  - constructor.
  - destruct (p x); [constructor |]; exact IH.
  - destruct (p x), (p y); try apply Permutation_refl. apply perm_swap.
  - eapply Permutation_trans; eassumption.
Qed.

Lemma distinct_perm {K} (eqb : K -> K -> bool) (ks ks' : list K) :
  (forall a b, eqb a b = true <-> a = b) ->
  Permutation ks ks' ->
  Permutation (distinct eqb ks) (distinct eqb ks').
Proof.
  intros Heq Hp. apply NoDup_Permutation; try (apply distinct_NoDup; exact Heq).
  intro x. rewrite !(distinct_In eqb Heq). split; intro Hx.
  - eapply Permutation_in; eassumption.
  - eapply Permutation_in; [apply Permutation_sym |]; eassumption.
Qed.

Lemma bool_mean_perm bs bs' : Permutation bs bs' -> bool_mean bs = bool_mean bs'.
Proof.
  intro Hp. unfold bool_mean.
  rewrite (Permutation_length Hp).
  rewrite (Permutation_length (Permutation_filter_same (fun b => b) _ _ Hp)).
  reflexivity.
Qed.

Lemma map_perm_ext {A B} (f f' : A -> B) (l l' : list A) :
  Permutation l l' -> (forall x, f x = f' x) ->
  Permutation (map f l) (map f' l').
Proof.
  intros Hp Hext. rewrite (map_ext f f' Hext). apply Permutation_map. exact Hp.
Qed.

Lemma customer_rows_perm (df df' : list line) c :
  Permutation df df' ->
  Permutation (filter (fun r => Z.eqb (customer_id r) c) df)
              (filter (fun r => Z.eqb (customer_id r) c) df').
Proof. apply Permutation_filter_same. Qed.

(** The repeat-purchase rate and the churn risk do not depend on the order
    of the rows: whatever the order in which the files are loaded and
    concatenated, [get_retention_metrics] returns the same two numbers. *)
Theorem retention_metrics_ignore_row_order (df df' : list line) :
  Permutation df df' ->
  repeat_rate_of (get_retention_metrics df)
  = repeat_rate_of (get_retention_metrics df')
  /\ churn_risk_of (get_retention_metrics df)
     = churn_risk_of (get_retention_metrics df').
Proof.
  intro Hp.
  destruct df as [| r0 df0].
  { apply Permutation_nil in Hp. subst df'. split; reflexivity. }
  destruct df' as [| r0' df0'].
  { apply Permutation_sym, Permutation_nil in Hp. discriminate Hp. }
  remember (r0 :: df0) as df eqn:Edf.
  remember (r0' :: df0') as df' eqn:Edf'.
  assert (Hmax : max_datetime (map transaction_datetime df)
                 = max_datetime (map transaction_datetime df'))
    by (apply max_datetime_perm, Permutation_map; exact Hp).
  assert (Hcust : Permutation (distinct Z.eqb (map customer_id df))
                              (distinct Z.eqb (map customer_id df')))
    by (apply distinct_perm; [exact Z.eqb_eq | apply Permutation_map; exact Hp]).
  unfold get_retention_metrics. rewrite <- Hmax.
  destruct (max_datetime (map transaction_datetime df)) as [latest |] eqn:Emax;
    [| subst df; discriminate Emax].
  destruct (min_datetime (map transaction_datetime df)) as [e1 |] eqn:Emin;
    [| subst df; discriminate Emin].
  destruct (min_datetime (map transaction_datetime df')) as [e2 |] eqn:Emin';
    [| subst df'; discriminate Emin'].
  unfold repeat_rate_of, churn_risk_of. cbn [fst snd].
  split; f_equal; apply bool_mean_perm.
  - unfold repeat_customers, groupby. rewrite !map_map. cbn beta iota.
    apply map_perm_ext; [exact Hcust |]. intro c. cbn [snd]. f_equal.
    unfold nunique. f_equal.
    apply Permutation_length, distinct_perm; [exact Z.eqb_eq |].
    apply Permutation_map, customer_rows_perm. exact Hp.
  - unfold customer_last_purchase, groupby. rewrite !map_map. cbn beta iota.
    apply map_perm_ext; [exact Hcust |]. intro c.
    rewrite (max_datetime_perm _ _
               (Permutation_map transaction_datetime
                                (customer_rows_perm df df' c Hp))).
    reflexivity.
Qed.

Lemma retention_metrics_ignore_row_order_witness :
  repeat_rate_of (get_retention_metrics retention_frame)
  = repeat_rate_of (get_retention_metrics (rev retention_frame))
  /\ churn_risk_of (get_retention_metrics retention_frame)
     = churn_risk_of (get_retention_metrics (rev retention_frame)).
Proof.
  apply (retention_metrics_ignore_row_order retention_frame
                                            (rev retention_frame)).
  apply Permutation_rev.
Defined.

(** ** Groups partition the frame *)

Section GroupsPartition.
Context {K R : Type} (eqb : K -> K -> bool) (key : R -> K).
Hypothesis eqb_eq : forall a b, eqb a b = true <-> a = b.

Lemma count_key_once (ks : list K) (k : K) :
  NoDup ks -> In k ks ->
  list_sum (map (fun k' => if eqb k k' then 1%nat else 0%nat) ks) = 1%nat.
Proof.
  induction ks as [| k0 ks IH]; intros Hnd Hin; [contradiction |].
  inversion Hnd as [| ? ? Hk0 Hks]; subst. simpl.
  destruct (eqb k k0) eqn:E.
  - apply eqb_eq in E. subst k0. f_equal.
    clear IH Hin Hnd Hks. induction ks as [| k1 ks IH]; [reflexivity |].
    simpl. destruct (eqb k k1) eqn:E1.
    + apply eqb_eq in E1. subst k1. exfalso. apply Hk0. left. reflexivity.
    + apply IH. intro Hin. apply Hk0. right. exact Hin.
  - destruct Hin as [-> | Hin].
    + assert (eqb k k = true) by (apply eqb_eq; reflexivity). congruence.
    + simpl. apply IH; assumption.
Qed.

Lemma group_sizes_cons (ks : list K) (r : R) (rows : list R) :
  list_sum (map (fun k => List.length (filter (fun r0 => eqb (key r0) k)
                                              (r :: rows))) ks)
  = (list_sum (map (fun k => if eqb (key r) k then 1%nat else 0%nat) ks)
     + list_sum (map (fun k => List.length (filter (fun r0 => eqb (key r0) k)
                                                   rows)) ks))%nat.
Proof.
  unfold list_sum. induction ks as [| k ks IH]; [reflexivity |].
  cbn [map fold_right]. rewrite IH. cbn [filter].
  destruct (eqb (key r) k); simpl; lia.
Qed.

Lemma group_sizes_sum (ks : list K) :
  NoDup ks ->
  forall rows : list R,
    (forall r, In r rows -> In (key r) ks) ->
    list_sum (map (fun k => List.length (filter (fun r => eqb (key r) k) rows))
                  ks)
    = List.length rows.
Proof.
  intros Hnd rows. induction rows as [| r rows IH]; intro Hcover.
  - simpl. clear Hnd Hcover.
    induction ks as [| k ks IHk]; [reflexivity | simpl; exact IHk].
  - rewrite group_sizes_cons.
    rewrite (count_key_once ks (key r) Hnd (Hcover r (or_introl eq_refl))).
    rewrite (IH (fun r' Hr' => Hcover r' (or_intror Hr'))). reflexivity.
Qed.

(** The groups of [groupby]: one for every distinct key, none empty, and
    their sizes add up to the number of rows. *)
Lemma groupby_partition (df : list R) :
  NoDup (map fst (groupby eqb key df))
  /\ (forall k, In k (map fst (groupby eqb key df)) <-> In k (map key df))
  /\ Forall (fun g => snd g <> [] /\ Forall (fun r => key r = fst g) (snd g))
            (groupby eqb key df)
  /\ list_sum (map (fun g => List.length (snd g)) (groupby eqb key df))
     = List.length df.
Proof.
  unfold groupby. rewrite !map_map. cbn [fst snd]. rewrite map_id.
  split; [apply distinct_NoDup; exact eqb_eq |].
  split; [intro k; apply distinct_In; exact eqb_eq |].
  split.
  - apply Forall_map, Forall_forall. intros k Hk. cbn [fst snd].
    rewrite (distinct_In eqb eqb_eq) in Hk. apply in_map_iff in Hk.
    destruct Hk as (r & Hr & Hin). split.
    + intro Hnil.
      assert (Hf : In r (filter (fun r0 => eqb (key r0) k) df)).
      { apply filter_In. split; [exact Hin | apply eqb_eq; exact Hr]. }
      rewrite Hnil in Hf. contradiction.
    + apply Forall_forall. intros r' Hr'. apply filter_In in Hr'.
      apply eqb_eq. apply Hr'.
  - apply group_sizes_sum; [apply distinct_NoDup; exact eqb_eq |].
    intros r Hr. rewrite (distinct_In eqb eqb_eq). apply in_map. exact Hr.
Qed.
End GroupsPartition.

(** The basket statistics of [create_basket_analysis] have one row for every
    distinct transaction id of the frame, each with a basket size of at least
    1, and the basket sizes add up to the number of lines of the frame. *)
Theorem basket_sizes_partition_the_frame
        (group_sum : list float -> float) (df : list line) :
  let stats := basket_stats group_sum df in
  NoDup (map (fun b => fst (fst b)) stats)
  /\ (forall tid, In tid (map (fun b => fst (fst b)) stats)
                  <-> In tid (map transaction_id df))
  /\ Forall (fun b => 1 <= snd (fst b)) stats
  /\ fold_right Z.add 0 (map (fun b => snd (fst b)) stats)
     = Z.of_nat (List.length df).
Proof.
  cbv zeta.
  destruct (groupby_partition Z.eqb transaction_id Z.eqb_eq df)
    as (Hnd & Hkeys & Hne & Hsum).
  unfold basket_stats. rewrite !map_map.
  assert (Hfst : map (fun x : Z * list line =>
                        fst (fst (let '(tid, rows) := x in
                                  (tid, Z.of_nat (List.length rows),
                                   group_nansum group_sum
                                                (map total_price rows)))))
                     (groupby Z.eqb transaction_id df)
                 = map fst (groupby Z.eqb transaction_id df))
    by (apply map_ext; intros [tid rows]; reflexivity).
  rewrite Hfst. split; [exact Hnd | split; [exact Hkeys | split]].
  - apply Forall_map. eapply Forall_impl; [| exact Hne].
    intros [tid rows] [Hrows _]. cbn in *.
    destruct rows; [contradiction | simpl; lia].
  - rewrite <- Hsum. clear Hnd Hkeys Hne Hsum Hfst. unfold list_sum.
    induction (groupby Z.eqb transaction_id df) as [| [tid rows] gs IH];
      [reflexivity |].
    cbn [map fold_right fst snd]. rewrite IH. lia.
Qed.
